(** * CloudCartography: Terraform state to infrastructure diagram

    A shallow embedding of the two scripts [GCP/gcp.py] and [OCI/oci.py].
    Both read a Terraform state file (JSON), build a table of resources,
    pick an icon class per resource type, infer connections between
    resources and hand nodes and edges to the [diagrams] library.

    Python values that come out of [json.load] are modelled by [json];
    Python exceptions by [exn], carried by the [result] monad; a Python
    [dict] by an insertion-ordered association list ([dict]); a Python
    [set] of resource ids by [gset string].  JSON numbers are restricted
    to integers, and strings are byte strings (the UTF-8 encoding of the
    Python string: substring tests, splitting at ['/'] and concatenation
    agree on both).  What [json.load], [argparse] and [diagrams] do
    inside is not modelled: a file holds a JSON value or does not, a
    command line is a list of recognised items, and a diagram is the
    nodes and edges handed to the library.  Of the library only the
    node constructor's demand for a string label is kept; layout and
    rendering are taken to succeed. *)

From Stdlib Require Import ZArith Lia Ascii String.
From stdpp Require Import base option list strings gmap pretty.

Set Warnings "-register-all".

Local Open Scope string_scope.
Local Open Scope Z_scope.
Local Open Scope list_scope.

(** ** Python dictionaries with string keys, in insertion order *)

Definition dict (V : Type) : Type := list (string * V).

Fixpoint dict_get {V : Type} (k : string) (d : dict V) : option V :=
  match d with
  | [] => None
  | (k', v) :: d' => if decide (k = k') then Some v else dict_get k d'
  end.

(** [d[k] = v]: an existing key keeps its position, a new key goes last. *)
Fixpoint dict_set {V : Type} (k : string) (v : V) (d : dict V) : dict V :=
  match d with
  | [] => [(k, v)]
  | (k', v') :: d' =>
      if decide (k = k') then (k', v) :: d' else (k', v') :: dict_set k v d'
  end.

Definition dict_keys {V : Type} (d : dict V) : list string := d.*1.

(** [d.get(k, default)] *)
Definition dict_get_default {V : Type} (k : string) (default : V)
    (d : dict V) : V :=
  match dict_get k d with
  | Some v => v
  | None => default
  end.

(** ** Python strings *)

Fixpoint starts_with (p s : string) : bool :=
  match p, s with
  | EmptyString, _ => true
  | String a p', String b s' => bool_decide (a = b) && starts_with p' s'
  | String _ _, EmptyString => false
  end.

(** [needle in hay] for two strings. *)
Fixpoint str_contains (needle hay : string) : bool :=
  starts_with needle hay ||
  match hay with
  | EmptyString => false
  | String _ hay' => str_contains needle hay'
  end.

(** [s.split(sep)] for a one-character separator: never the empty list. *)
Fixpoint str_split (sep : ascii) (s : string) : list string :=
  match s with
  | EmptyString => [EmptyString]
  | String c s' =>
      if decide (c = sep) then EmptyString :: str_split sep s'
      else match str_split sep s' with
           | [] => [String c EmptyString]
           | w :: ws => String c w :: ws
           end
  end.

(** [xs[-1]] on the list a split returns. *)
Definition last_segment (xs : list string) : string := List.last xs EmptyString.

Fixpoint str_join (sep : string) (xs : list string) : string :=
  match xs with
  | [] => ""
  | [x] => x
  | x :: xs' => x +:+ sep +:+ str_join sep xs'
  end.

(** ** JSON values as [json.load] returns them *)

Inductive json : Type :=
  | JNull
  | JBool (b : bool)
  | JInt (n : Z)
  | JStr (s : string)
  | JList (xs : list json)
  | JObj (kvs : list (string * json)).

(** [type(v).__name__] *)
Definition type_name (v : json) : string :=
  match v with
  | JNull => "NoneType"
  | JBool _ => "bool"
  | JInt _ => "int"
  | JStr _ => "str"
  | JList _ => "list"
  | JObj _ => "dict"
  end.

(** [bool(v)], the test of [if v:] *)
Definition truthy (v : json) : bool :=
  match v with
  | JNull => false
  | JBool b => b
  | JInt n => negb (n =? 0)
  | JStr s => negb (bool_decide (s = ""))
  | JList xs => negb (bool_decide (xs = []))
  | JObj kvs => negb (bool_decide (kvs = []))
  end.

Definition as_number (v : json) : option Z :=
  match v with
  | JBool b => Some (if b then 1 else 0)
  | JInt n => Some n
  | _ => None
  end.

(** [x == y]: booleans compare as the integers 0 and 1, lists pointwise,
    dictionaries key by key whatever the order. *)
Fixpoint py_eq (x y : json) {struct x} : bool :=
  match x, y with
  | JNull, JNull => true
  | JStr s, JStr t => bool_decide (s = t)
  | JList xs, JList ys =>
      (fix all2 (xs ys : list json) {struct xs} : bool :=
         match xs, ys with
         | [], [] => true
         | x' :: xs', y' :: ys' => py_eq x' y' && all2 xs' ys'
         | _, _ => false
         end) xs ys
  | JObj a, JObj b =>
      Nat.eqb (List.length a) (List.length b) &&
      (fix all (kvs : list (string * json)) : bool :=
         match kvs with
         | [] => true
         | (k, v) :: kvs' =>
             match dict_get k b with
             | Some w => py_eq v w
             | None => false
             end && all kvs'
         end) a
  | _, _ =>
      match as_number x, as_number y with
      | Some m, Some n => m =? n
      | _, _ => false
      end
  end.

(** [repr(s)] of a string: the quote Python picks, and its escapes. *)
Definition hex_digit (n : N) : ascii :=
  match n with
  | 0%N => "0" | 1%N => "1" | 2%N => "2" | 3%N => "3" | 4%N => "4"
  | 5%N => "5" | 6%N => "6" | 7%N => "7" | 8%N => "8" | 9%N => "9"
  | 10%N => "a" | 11%N => "b" | 12%N => "c" | 13%N => "d" | 14%N => "e"
  | _ => "f"
  end%char.

Definition escape_char (quote c : ascii) : string :=
  let n := Ascii.N_of_ascii c in
  if decide (c = quote) then String "\" (String c "")
  else if decide (c = "\"%char) then "\\"
  else if (n =? 10)%N then "\n"
  else if (n =? 13)%N then "\r"
  else if (n =? 9)%N then "\t"
  else if ((n <? 32) || (n =? 127))%N then
    String "\" (String "x" (String (hex_digit (n / 16)) (String (hex_digit (n mod 16)) "")))
  else String c "".

Fixpoint escape_string (quote : ascii) (s : string) : string :=
  match s with
  | EmptyString => ""
  | String c s' => escape_char quote c +:+ escape_string quote s'
  end.

Definition double_quote : ascii := ascii_of_nat 34.

Definition str_repr (s : string) : string :=
  let quote : ascii :=
    if str_contains "'" s && negb (str_contains (String double_quote "") s)
    then double_quote else "'"%char in
  String quote (escape_string quote s +:+ String quote "").

Fixpoint py_repr (v : json) : string :=
  match v with
  | JNull => "None"
  | JBool true => "True"
  | JBool false => "False"
  | JInt n => pretty n
  | JStr s => str_repr s
  | JList xs => "[" +:+ str_join ", " (map py_repr xs) +:+ "]"
  | JObj kvs =>
      "{" +:+ str_join ", "
        (map (fun kv => str_repr (fst kv) +:+ ": " +:+ py_repr (snd kv)) kvs)
      +:+ "}"
  end.

(** [str(v)], which is what an f-string field [{v}] inserts. *)
Definition py_str (v : json) : string :=
  match v with
  | JStr s => s
  | _ => py_repr v
  end.

(** ** Exceptions and the result monad *)

Inductive exn : Type :=
  | KeyError (key : json)
  | TypeError (msg : string)
  | AttributeError (msg : string)
  | NameError (name : string)
  | FileNotFoundError (path : string)
  | JSONDecodeError (msg : string).

Inductive result (A : Type) : Type :=
  | Ok (a : A)
  | Raise (e : exn).
Arguments Ok {A} a.
Arguments Raise {A} e.

#[global] Instance result_ret : MRet result := fun A a => Ok a.
#[global] Instance result_bind : MBind result := fun A B f m =>
  match m with
  | Ok a => f a
  | Raise e => Raise e
  end.

(** [for x in xs: body], the loop state threaded through the body; an
    exception in the body leaves the loop. *)
Fixpoint for_each {A S : Type} (xs : list A) (body : A -> S -> result S)
    (s : S) : result S :=
  match xs with
  | [] => Ok s
  | x :: xs' => s' ← body x s; for_each xs' body s'
  end.

(** [str(e)] *)
Definition exn_message (e : exn) : string :=
  match e with
  | KeyError key => py_repr key
  | TypeError msg => msg
  | AttributeError msg => msg
  | NameError name => "name '" +:+ name +:+ "' is not defined"
  | FileNotFoundError path =>
      "[Errno 2] No such file or directory: " +:+ str_repr path
  | JSONDecodeError msg => msg
  end.

(** ** Python operations on JSON values *)

(** [v[k]] for a string key [k]. *)
Definition subscript (v : json) (k : string) : result json :=
  match v with
  | JObj kvs =>
      match dict_get k kvs with
      | Some x => Ok x
      | None => Raise (KeyError (JStr k))
      end
  | JList _ => Raise (TypeError "list indices must be integers or slices, not str")
  | JStr _ => Raise (TypeError "string indices must be integers, not 'str'")
  | _ => Raise (TypeError ("'" +:+ type_name v +:+ "' object is not subscriptable"))
  end.

Fixpoint characters (s : string) : list json :=
  match s with
  | EmptyString => []
  | String c s' => JStr (String c "") :: characters s'
  end.

(** The elements [for x in v] visits: a dictionary yields its keys and a
    string its characters. *)
Definition py_iter (v : json) : result (list json) :=
  match v with
  | JList xs => Ok xs
  | JObj kvs => Ok (JStr <$> dict_keys kvs)
  | JStr s => Ok (characters s)
  | _ => Raise (TypeError ("'" +:+ type_name v +:+ "' object is not iterable"))
  end.

(** [v.get]: only a dictionary has the method. *)
Definition get_method (v : json) : result (dict json) :=
  match v with
  | JObj kvs => Ok kvs
  | _ => Raise (AttributeError ("'" +:+ type_name v +:+ "' object has no attribute 'get'"))
  end.

(** [v.split(sep)[-1]]: only a string has the method. *)
Definition split_last (sep : ascii) (v : json) : result string :=
  match v with
  | JStr s => Ok (last_segment (str_split sep s))
  | _ => Raise (AttributeError ("'" +:+ type_name v +:+ "' object has no attribute 'split'"))
  end.

(** [hash(v)], as far as it can fail: lists and dictionaries do. *)
Definition check_hashable (v : json) : result unit :=
  match v with
  | JList _ | JObj _ => Raise (TypeError ("unhashable type: '" +:+ type_name v +:+ "'"))
  | _ => Ok ()
  end.

(** [x in d] and [d.get(x, default)] for a dictionary with string keys
    and a key [x] that is any JSON value. *)
Definition dict_contains {V : Type} (x : json) (d : dict V) : result bool :=
  _ ← check_hashable x;
  match x with
  | JStr k => Ok (bool_decide (is_Some (dict_get k d)))
  | _ => Ok false
  end.

Definition dict_get_json {V : Type} (x : json) (default : V) (d : dict V)
    : result V :=
  _ ← check_hashable x;
  match x with
  | JStr k => Ok (dict_get_default k default d)
  | _ => Ok default
  end.

(** [x in container] *)
Definition py_in (x container : json) : result bool :=
  match container with
  | JStr hay =>
      match x with
      | JStr needle => Ok (str_contains needle hay)
      | _ => Raise (TypeError ("'in <string>' requires string as left operand, not "
                               +:+ type_name x))
      end
  | JList ys => Ok (existsb (py_eq x) ys)
  | JObj kvs => dict_contains x kvs
  | _ => Raise (TypeError ("argument of type '" +:+ type_name container
                           +:+ "' is not iterable"))
  end.

(** ** The resource table *)

(** One value of the table: [{'type': ..., 'name': ..., 'attributes': ...}].
    The attributes are a dictionary in every record the readers build,
    since they call its [get] method first. *)
Record tf_resource : Type := mk_resource {
  res_type : json;
  res_name : json;
  res_attributes : dict json
}.

(** [f"{resource_type}.{resource_name}"] *)
Definition make_id (resource_type resource_name : json) : string :=
  py_str resource_type +:+ "." +:+ py_str resource_name.

(** ** Files *)

Inductive file_content : Type :=
  | NotJson (msg : string)
  | JsonDocument (v : json).

Definition filesystem : Type := string -> option file_content.

(** [with open(path, 'r') as f: json.load(f)] *)
Definition load_json_file (fs : filesystem) (path : string) : result json :=
  match fs path with
  | None => Raise (FileNotFoundError path)
  | Some (NotJson msg) => Raise (JSONDecodeError msg)
  | Some (JsonDocument v) => Ok v
  end.

(** The resources of a state document and the instances of a resource,
    as the loops of the readers visit them. *)
Definition state_resources (state_data : json) : list json :=
  match rs ← subscript state_data "resources"; py_iter rs with
  | Ok rs => rs
  | Raise _ => []
  end.

Definition resource_instances (resource : json) : list json :=
  match instances ← subscript resource "instances"; py_iter instances with
  | Ok instances => instances
  | Raise _ => []
  end.

Definition state_instance (state_data resource instance : json) : Prop :=
  resource ∈ state_resources state_data /\
  instance ∈ resource_instances resource.

(** ** Icon classes and diagrams *)

(** The classes of the [diagrams] library the two scripts import, each
    named by its provider package and class. *)
Inductive icon_class : Type :=
  | gcp_ComputeEngine | gcp_VirtualPrivateCloud | gcp_Router | gcp_NAT
  | gcp_FirewallRules | gcp_Routes | gcp_Storage | gcp_SQL | gcp_Bigquery
  | gcp_Iam | gcp_ResourceManager
  | generic_Subnet | generic_Switch | generic_Firewall | generic_Router
  | generic_Rack | generic_Storage | generic_SQL | generic_Datacenter
  | oci_VM | oci_Vcn | oci_Encryption | oci_BlockStorage | oci_ObjectStorage
  | oci_DatabaseService.

(** Reading a global name that is bound to an icon class by an import of
    the module; any other name read in [map_resource_to_icon] is unbound. *)
Definition global_name (imports : dict icon_class) (name : string)
    : result icon_class :=
  match dict_get name imports with
  | Some c => Ok c
  | None => Raise (NameError name)
  end.

(** A dictionary display [{k1: N1, ...}] whose values are global names. *)
Definition dict_display (imports : dict icon_class)
    (items : list (string * string)) : result (dict icon_class) :=
  for_each items (fun kv d => c ← global_name imports kv.2; mret (dict_set kv.1 c d)) [].

(** [d[x]] for a key that is any JSON value. *)
Definition dict_subscript {V : Type} (x : json) (d : dict V) : result V :=
  _ ← check_hashable x;
  match x with
  | JStr k =>
      match dict_get k d with
      | Some v => Ok v
      | None => Raise (KeyError x)
      end
  | _ => Raise (KeyError x)
  end.

(** [a or b] on two tests, the second evaluated only when the first is false. *)
Definition py_or (a b : result bool) : result bool :=
  x ← a; if x : bool then mret true else b.

(** A node is an instance of an icon class, built with a label. *)
Record node : Type := mk_node {
  node_icon : icon_class;
  node_label : json
}.

(** [icon_class(label)]: the constructor every icon class inherits from
    the library's [Node].  It keeps the label and sizes the node by
    [label.count('\n')], a method that a number, a boolean, [None] and a
    dictionary do not have; a list has it, and its label is then refused
    by the Graphviz binding, which matches the label against a regular
    expression to quote it.  So a node is returned for a string only. *)
Definition new_node (icon : icon_class) (label : json) : result node :=
  match label with
  | JStr _ => Ok (mk_node icon label)
  | JList _ => Raise (TypeError "expected string or bytes-like object, got 'list'")
  | _ => Raise (AttributeError ("'" +:+ type_name label
                                +:+ "' object has no attribute 'count'"))
  end.

Record diagram : Type := mk_diagram {
  diagram_name : string;
  diagram_filename : string;
  diagram_nodes : dict node;
  diagram_edges : list (string * string)
}.

(** [connections[k].add(x)] *)
Definition add_connection (k x : string) (connections : dict (gset string))
    : result (dict (gset string)) :=
  match dict_get k connections with
  | Some s => Ok (dict_set k ({[x]} ∪ s) connections)
  | None => Raise (KeyError (JStr k))
  end.

(** The last loop of [generate_diagram] in both scripts (gcp.py, lines
    149-152; oci.py, lines 140-143): the edges [nodes[s] >> nodes[t]]
    it draws.  Python leaves the order inside one set open; here it is
    that of [elements]. *)
Definition draw_connections (nodes : dict node)
    (connections : dict (gset string)) : list (string * string) :=
  '(source_id, target_ids) ← connections;
  target_id ← elements target_ids;
  if bool_decide (is_Some (dict_get source_id nodes)) &&
     bool_decide (is_Some (dict_get target_id nodes)) &&
     bool_decide (source_id ≠ target_id)
  then [(source_id, target_id)] else [].

(** ** The command line and the process outcome *)

(** [parser.add_argument(flag, required=..., default=...)] *)
Record argument : Type := mk_argument {
  arg_flag : string;
  arg_required : bool;
  arg_default : option string
}.

Record argument_parser : Type := mk_parser {
  parser_description : string;
  parser_add_help : bool;
  parser_arguments : list argument
}.

(** [argparse.ArgumentParser(description=...)]: the scripts pass no
    [add_help], so the library's default stands and the parser also
    answers [-h] and [--help]. *)
Definition ArgumentParser (description : string) : argument_parser :=
  mk_parser description true [].

Definition add_argument (flag : string) (required : bool)
    (default : option string) (p : argument_parser) : argument_parser :=
  mk_parser (parser_description p) (parser_add_help p)
    (parser_arguments p ++ [mk_argument flag required default]).

(** The command line as [argparse] reads it, one item per option it
    recognises: how the library splits [sys.argv] into these items
    (abbreviated flags, [--flag=value]) is its own business. *)
Inductive cli_item : Type :=
  | OptionValue (flag value : string)
  | OptionAlone (flag : string)
  | HelpRequest
  | Unrecognized (text : string).

Inductive parsed : Type :=
  | Namespace (args : dict (option string))
  | HelpExit
  | UsageError (msg : string).

Definition declared (p : argument_parser) (flag : string) : bool :=
  bool_decide (flag ∈ arg_flag <$> parser_arguments p).

(** The attribute an option is stored under: its flag without the dashes. *)
Fixpoint dest (flag : string) : string :=
  match flag with
  | String "-" flag' => dest flag'
  | _ => flag
  end.

Definition missing_required (p : argument_parser) (seen : dict string)
    : list string :=
  arg_flag <$>
    filter (fun a => arg_required a = true /\ dict_get (dest (arg_flag a)) seen = None)
      (parser_arguments p).

(** The namespace: every declared option, with the value seen on the
    command line or else its default ([None] when it has none). *)
Definition with_defaults (p : argument_parser) (seen : dict string)
    : dict (option string) :=
  foldl (fun ns a =>
           dict_set (dest (arg_flag a))
             (match dict_get (dest (arg_flag a)) seen with
              | Some value => Some value
              | None => arg_default a
              end) ns)
    [] (parser_arguments p).

(** [parser.parse_args()]: options are taken left to right; a help
    request ends the run at once, an option without its value is an
    error at once, and what is missing or left over is an error at the
    end. *)
Fixpoint parse_items (p : argument_parser) (items : list cli_item)
    (seen : dict string) (extras : list string) : parsed :=
  match items with
  | [] =>
      match missing_required p seen with
      | (_ :: _) as missing =>
          UsageError ("the following arguments are required: " +:+ str_join ", " missing)
      | [] =>
          match extras with
          | _ :: _ => UsageError ("unrecognized arguments: " +:+ str_join " " extras)
          | [] => Namespace (with_defaults p seen)
          end
      end
  | OptionValue flag value :: items' =>
      if declared p flag
      then parse_items p items' (dict_set (dest flag) value seen) extras
      else parse_items p items' seen (extras ++ [flag; value])
  | OptionAlone flag :: items' =>
      if declared p flag
      then UsageError ("argument " +:+ flag +:+ ": expected one argument")
      else parse_items p items' seen (extras ++ [flag])
  | HelpRequest :: items' =>
      if parser_add_help p then HelpExit
      else parse_items p items' seen (extras ++ ["-h"])
  | Unrecognized text :: items' => parse_items p items' seen (extras ++ [text])
  end.

Definition parse_args (p : argument_parser) (argv : list cli_item) : parsed :=
  parse_items p argv [] [].

(** [args.name] *)
Definition namespace_attr (args : dict (option string)) (name : string)
    : option string :=
  mjoin (dict_get name args).

Inductive output_item : Type :=
  | Line (text : string)
  | Traceback (e : exn)
  | Usage (msg : string)
  | HelpText.

(** What one run of a script leaves behind: its exit status, what it
    printed, the state files [parse_terraform_state] was called on, and
    the diagram it handed to the library on leaving the [with] block
    normally. *)
Record outcome : Type := mk_outcome {
  exit_status : Z;
  stdout : list output_item;
  stderr : list output_item;
  states_parsed : list string;
  rendered : option diagram
}.

(** The [except Exception as e:] block: the message and the traceback on
    standard error, then [sys.exit(1)]. *)
Definition caught (states : list string) (e : exn) : outcome :=
  mk_outcome 1 [] [Line ("An error occurred: " +:+ exn_message e); Traceback e]
    states None.

(** Lines 154-168 of gcp.py and 145-159 of oci.py, which differ in the
    parser's default for [--output] only.  With the parsers of the two
    scripts [args.state] and [args.output] are never [None]. *)
Definition run_main (parser : argument_parser)
    (parse_terraform_state : filesystem -> string -> result (dict tf_resource))
    (generate_diagram : dict tf_resource -> string -> result diagram)
    (fs : filesystem) (argv : list cli_item) : outcome :=
  match parse_args parser argv with
  | HelpExit => mk_outcome 0 [HelpText] [] [] None
  | UsageError msg => mk_outcome 2 [] [Usage msg] [] None
  | Namespace args =>
      match namespace_attr args "state", namespace_attr args "output" with
      | Some state, Some output =>
          match resources ← parse_terraform_state fs state;
                generate_diagram resources output with
          | Ok d =>
              mk_outcome 0
                [Line ("Infrastructure diagram generated successfully! Saved as "
                       +:+ output +:+ ".png")]
                [] [state] (Some d)
          | Raise e => caught [state] e
          end
      | _, _ =>
          caught [] (TypeError "expected str, bytes or os.PathLike object, not NoneType")
      end
  end.

(** ** gcp.py *)

Module GCP.

(** gcp.py, lines 25-31: the name, the id and the record of one
    instance.  Both reads of [instance['attributes']] return the same
    dictionary, so it is bound once. *)
Definition instance_entry (resource_type resource instance : json)
    : result (string * tf_resource) :=
  attributes ← subscript instance "attributes";
  attrs ← get_method attributes;
  default ← subscript resource "name";
  let resource_name := dict_get_default "name" default attrs in
  let resource_id := make_id resource_type resource_name in
  mret (resource_id, mk_resource resource_type resource_name attrs).

(** gcp.py, lines 21-33 *)
Definition resources_of_state (state_data : json) : result (dict tf_resource) :=
  rs ← subscript state_data "resources";
  rs ← py_iter rs;
  for_each rs (fun resource resources =>
    resource_type ← subscript resource "type";
    instances ← subscript resource "instances";
    instances ← py_iter instances;
    for_each instances (fun instance resources =>
      entry ← instance_entry resource_type resource instance;
      mret (dict_set entry.1 entry.2 resources)) resources) [].

(** gcp.py, lines 17-33 *)
Definition parse_terraform_state (fs : filesystem) (state_file : string)
    : result (dict tf_resource) :=
  state_data ← load_json_file fs state_file;
  resources_of_state state_data.

(** The icon classes gcp.py imports (lines 5-15), by the name each is
    bound to.  [Switch] is not among them. *)
Definition imports : dict icon_class :=
  [ ("ComputeEngine", gcp_ComputeEngine);
    ("VirtualPrivateCloud", gcp_VirtualPrivateCloud);
    ("Router", gcp_Router); ("NAT", gcp_NAT);
    ("FirewallRules", gcp_FirewallRules); ("Routes", gcp_Routes);
    ("Storage", gcp_Storage); ("SQL", gcp_SQL); ("Bigquery", gcp_Bigquery);
    ("Iam", gcp_Iam); ("ResourceManager", gcp_ResourceManager);
    ("Subnet", generic_Subnet); ("Rack", generic_Rack);
    ("GenericStorage", generic_Storage); ("GenericSQL", generic_SQL);
    ("Datacenter", generic_Datacenter) ].

Definition global : string -> result icon_class := global_name imports.

(** gcp.py, lines 37-50 *)
Definition gcp_mappings_display : list (string * string) :=
  [ ("google_compute_instance", "ComputeEngine");
    ("google_compute_network", "VirtualPrivateCloud");
    ("google_compute_subnetwork", "Subnet");
    ("google_compute_firewall", "FirewallRules");
    ("google_compute_router", "Router");
    ("google_compute_router_nat", "NAT");
    ("google_storage_bucket", "Storage");
    ("google_sql_database_instance", "SQL");
    ("google_bigquery_dataset", "Bigquery");
    ("google_iam_policy", "Iam");
    ("google_compute_route", "Routes");
    ("google_project", "ResourceManager") ].

(** gcp.py, lines 35-69 *)
Definition map_resource_to_icon (resource_type : json) : result icon_class :=
  gcp_mappings ← dict_display imports gcp_mappings_display;
  known ← dict_contains resource_type gcp_mappings;
  if known : bool then dict_subscript resource_type gcp_mappings
  else
    c ← py_in (JStr "compute") resource_type;
    if c : bool then global "Rack" else
    c ← py_in (JStr "network") resource_type;
    if c : bool then global "Switch" else
    c ← py_in (JStr "storage") resource_type;
    if c : bool then global "GenericStorage" else
    c ← py_in (JStr "database") resource_type;
    if c : bool then global "GenericSQL" else
    c ← py_or (py_in (JStr "security") resource_type)
              (py_in (JStr "iam") resource_type);
    if c : bool then global "Iam" else
    c ← py_or (py_in (JStr "project") resource_type)
              (py_in (JStr "resource_manager") resource_type);
    if c : bool then global "ResourceManager" else
    global "Datacenter".

(** gcp.py, lines 89-91 *)
Definition create_nodes (resources : dict tf_resource) : result (dict node) :=
  for_each resources (fun '(resource_id, resource) nodes =>
    icon_class ← map_resource_to_icon (res_type resource);
    node ← new_node icon_class (res_name resource);
    mret (dict_set resource_id node nodes)) [].

(** [if cond: connections[k].add(x)] *)
Definition add_if (cond : bool) (k x : string)
    (connections : dict (gset string)) : result (dict (gset string)) :=
  if cond then add_connection k x connections else mret connections.

(** gcp.py, lines 98-102 *)
Definition common_attribute_connections (resources : dict tf_resource)
    (resource_id : string) (resource : tf_resource)
    (connections : dict (gset string)) : result (dict (gset string)) :=
  for_each (res_attributes resource) (fun '(attr, value) connections =>
    match value with
    | JStr _ =>
        for_each resources (fun '(other_id, other_resource) connections =>
          hit ← py_in (res_name other_resource) value;
          add_if (hit && bool_decide (other_id ≠ resource_id))
            resource_id other_id connections) connections
    | _ => mret connections
    end) connections.

Definition has_type (r : tf_resource) (t : string) : bool :=
  py_eq (res_type r) (JStr t).
Definition has_name (r : tf_resource) (n : string) : bool :=
  py_eq (res_name r) (JStr n).
Definition attribute (r : tf_resource) (k : string) : json :=
  dict_get_default k (JStr "") (res_attributes r).

(** gcp.py, lines 105-146 *)
Definition specific_connections (resources : dict tf_resource)
    (resource_id : string) (resource : tf_resource)
    (connections : dict (gset string)) : result (dict (gset string)) :=
  if has_type resource "google_compute_instance" then
    subnet_id ← split_last "/" (attribute resource "subnetwork");
    network_id ← split_last "/" (attribute resource "network");
    for_each resources (fun '(other_id, other_resource) connections =>
      if bool_decide (other_id ≠ resource_id) then
        connections ←
          (if has_type other_resource "google_compute_subnetwork"
              && has_name other_resource subnet_id
           then connections ← add_connection resource_id other_id connections;
                add_connection other_id resource_id connections
           else mret connections);
        add_if (has_type other_resource "google_compute_network"
                && has_name other_resource network_id)
          resource_id other_id connections
      else mret connections) connections
  else if has_type resource "google_compute_subnetwork" then
    network_id ← split_last "/" (attribute resource "network");
    for_each resources (fun '(other_id, other_resource) connections =>
      if bool_decide (other_id ≠ resource_id) then
        connections ←
          add_if (has_type other_resource "google_compute_network"
                  && has_name other_resource network_id)
            resource_id other_id connections;
        if has_type other_resource "google_compute_instance" then
          hit ← py_in (res_name resource) (attribute other_resource "subnetwork");
          add_if hit resource_id other_id connections
        else mret connections
      else mret connections) connections
  else if has_type resource "google_compute_firewall" then
    network_id ← split_last "/" (attribute resource "network");
    for_each resources (fun '(other_id, other_resource) connections =>
      if bool_decide (other_id ≠ resource_id) then
        connections ←
          add_if (has_type other_resource "google_compute_network"
                  && has_name other_resource network_id)
            resource_id other_id connections;
        add_if (has_type other_resource "google_compute_instance")
          resource_id other_id connections
      else mret connections) connections
  else if has_type resource "google_compute_router" then
    network_id ← split_last "/" (attribute resource "network");
    for_each resources (fun '(other_id, other_resource) connections =>
      if bool_decide (other_id ≠ resource_id) then
        add_if (has_type other_resource "google_compute_network"
                && has_name other_resource network_id)
          resource_id other_id connections
      else mret connections) connections
  else if has_type resource "google_compute_router_nat" then
    let router_name := attribute resource "router" in
    for_each resources (fun '(other_id, other_resource) connections =>
      if bool_decide (other_id ≠ resource_id) then
        add_if (has_type other_resource "google_compute_router"
                && py_eq (res_name other_resource) router_name)
          resource_id other_id connections
      else mret connections) connections
  else mret connections.

(** gcp.py, lines 94-146: [connections[resource_id] = set()] is inside
    the loop, so a key exists only from its own iteration on. *)
Definition infer_connections (resources : dict tf_resource)
    : result (dict (gset string)) :=
  for_each resources (fun '(resource_id, resource) connections =>
    let connections := dict_set resource_id (∅ : gset string) connections in
    connections ← common_attribute_connections resources resource_id resource connections;
    specific_connections resources resource_id resource connections) [].

(** gcp.py, lines 71-152.  What the library renders when the [with]
    block is left by an exception is not modelled. *)
Definition generate_diagram (resources : dict tf_resource)
    (output_file : string) : result diagram :=
  nodes ← create_nodes resources;
  connections ← infer_connections resources;
  mret (mk_diagram "GCP Infrastructure" output_file nodes
          (draw_connections nodes connections)).

(** gcp.py, lines 155-157 *)
Definition parser : argument_parser :=
  add_argument "--output" false (Some "infrastructure_diagram")
    (add_argument "--state" true None
       (ArgumentParser "Generate infrastructure diagram from Terraform state")).

(** gcp.py, lines 154-168 *)
Definition main : filesystem -> list cli_item -> outcome :=
  run_main parser parse_terraform_state generate_diagram.

End GCP.

(** ** oci.py *)

Module OCI.

(** oci.py, lines 24-30.  The three reads of [instance['attributes']]
    return the same dictionary, so it is bound once. *)
Definition instance_entry (resource_type resource instance : json)
    : result (string * tf_resource) :=
  attributes ← subscript instance "attributes";
  attrs ← get_method attributes;
  default ← subscript resource "name";
  let resource_name :=
    dict_get_default "display_name" (dict_get_default "name" default attrs) attrs in
  let resource_id := make_id resource_type resource_name in
  mret (resource_id, mk_resource resource_type resource_name attrs).

(** oci.py, lines 20-32 *)
Definition resources_of_state (state_data : json) : result (dict tf_resource) :=
  rs ← subscript state_data "resources";
  rs ← py_iter rs;
  for_each rs (fun resource resources =>
    resource_type ← subscript resource "type";
    instances ← subscript resource "instances";
    instances ← py_iter instances;
    for_each instances (fun instance resources =>
      entry ← instance_entry resource_type resource instance;
      mret (dict_set entry.1 entry.2 resources)) resources) [].

(** oci.py, lines 16-32 *)
Definition parse_terraform_state (fs : filesystem) (state_file : string)
    : result (dict tf_resource) :=
  state_data ← load_json_file fs state_file;
  resources_of_state state_data.

(** The icon classes oci.py imports (lines 5-14). *)
Definition imports : dict icon_class :=
  [ ("VM", oci_VM); ("Vcn", oci_Vcn); ("Encryption", oci_Encryption);
    ("BlockStorage", oci_BlockStorage); ("ObjectStorage", oci_ObjectStorage);
    ("DatabaseService", oci_DatabaseService); ("Rack", generic_Rack);
    ("Switch", generic_Switch); ("Firewall", generic_Firewall);
    ("Router", generic_Router); ("GenericStorage", generic_Storage);
    ("GenericSQL", generic_SQL); ("Datacenter", generic_Datacenter) ].

Definition global : string -> result icon_class := global_name imports.

(** oci.py, lines 35-49 *)
Definition oci_mappings_display : list (string * string) :=
  [ ("oci_core_instance", "VM");
    ("oci_core_vcn", "Vcn");
    ("oci_core_subnet", "Switch");
    ("oci_core_security_list", "Firewall");
    ("oci_core_route_table", "Router");
    ("oci_core_nat_gateway", "Router");
    ("oci_core_internet_gateway", "Router");
    ("oci_core_service_gateway", "Router");
    ("oci_core_volume", "BlockStorage");
    ("oci_objectstorage_bucket", "ObjectStorage");
    ("oci_database_db_system", "DatabaseService");
    ("oci_core_network_security_group", "Firewall");
    ("oci_core_network_security_group_security_rule", "Firewall") ].

(** oci.py, lines 34-51 *)
Definition map_resource_to_icon (resource_type : json) : result icon_class :=
  oci_mappings ← dict_display imports oci_mappings_display;
  default ← global "Datacenter";
  dict_get_json resource_type default oci_mappings.

(** oci.py, lines 71-73 *)
Definition create_nodes (resources : dict tf_resource) : result (dict node) :=
  for_each resources (fun '(resource_id, resource) nodes =>
    icon_class ← map_resource_to_icon (res_type resource);
    node ← new_node icon_class (res_name resource);
    mret (dict_set resource_id node nodes)) [].

Definition has_type (r : tf_resource) (t : string) : bool :=
  py_eq (res_type r) (JStr t).

(** [attrs.get(k)], [None] when the key is absent. *)
Definition attribute (r : tf_resource) (k : string) : json :=
  dict_get_default k JNull (res_attributes r).

(** [resources[other_id]] *)
Definition lookup (resources : dict tf_resource) (other_id : string)
    : result tf_resource :=
  match dict_get other_id resources with
  | Some r => Ok r
  | None => Raise (KeyError (JStr other_id))
  end.

(** [connections[a].add(b); connections[b].add(a)] *)
Definition add_both (a b : string) (connections : dict (gset string))
    : result (dict (gset string)) :=
  connections ← add_connection a b connections;
  add_connection b a connections.

(** The block the script repeats for each reference by OCID (oci.py,
    lines 80-85, 94-99, 102-107, 110-115, 124-129 and 132-137):
    [[
      wanted = attrs.get(key)
      if wanted:
          for other_id in resources:
              if resources[other_id]['type'] == target_type and
                 resources[other_id]['attributes'].get('id') == wanted:
                  connections[resource_id].add(other_id)
                  connections[other_id].add(resource_id)
    ]] *)
Definition connect_by_id (resources : dict tf_resource) (resource_id : string)
    (resource : tf_resource) (key target_type : string)
    (connections : dict (gset string)) : result (dict (gset string)) :=
  let wanted := attribute resource key in
  if truthy wanted then
    for_each (dict_keys resources) (fun other_id connections =>
      other ← lookup resources other_id;
      if has_type other target_type && py_eq (attribute other "id") wanted
      then add_both resource_id other_id connections
      else mret connections) connections
  else mret connections.

(** oci.py, lines 88-91 and 118-121: every resource of [target_type]
    is linked, whatever its attributes. *)
Definition connect_all_of_type (resources : dict tf_resource)
    (resource_id : string) (target_type : string)
    (connections : dict (gset string)) : result (dict (gset string)) :=
  for_each resources (fun '(other_id, other_resource) connections =>
    if has_type other_resource target_type
    then add_both resource_id other_id connections
    else mret connections) connections.

Definition vcn_children : list string :=
  [ "oci_core_security_list"; "oci_core_route_table"; "oci_core_nat_gateway";
    "oci_core_internet_gateway"; "oci_core_service_gateway" ].

(** oci.py, lines 79-129 *)
Definition specific_connections (resources : dict tf_resource)
    (resource_id : string) (resource : tf_resource)
    (connections : dict (gset string)) : result (dict (gset string)) :=
  if has_type resource "oci_core_instance" then
    connections ← connect_by_id resources resource_id resource
                    "subnet_id" "oci_core_subnet" connections;
    connect_all_of_type resources resource_id
      "oci_core_network_security_group" connections
  else if has_type resource "oci_core_subnet" then
    connect_by_id resources resource_id resource "vcn_id" "oci_core_vcn" connections
  else if existsb (py_eq (res_type resource)) (JStr <$> vcn_children) then
    connect_by_id resources resource_id resource "vcn_id" "oci_core_vcn" connections
  else if has_type resource "oci_core_network_security_group" then
    connections ← connect_by_id resources resource_id resource
                    "vcn_id" "oci_core_vcn" connections;
    connect_all_of_type resources resource_id "oci_core_instance" connections
  else if has_type resource "oci_core_network_security_group_security_rule" then
    connect_by_id resources resource_id resource
      "network_security_group_id" "oci_core_network_security_group" connections
  else mret connections.

(** oci.py, line 68: [{resource_id: set() for resource_id in resources}] *)
Definition empty_connections (resources : dict tf_resource)
    : dict (gset string) :=
  foldl (fun connections resource_id => dict_set resource_id (∅ : gset string) connections)
    [] (dict_keys resources).

(** oci.py, lines 68 and 76-137 *)
Definition infer_connections (resources : dict tf_resource)
    : result (dict (gset string)) :=
  for_each resources (fun '(resource_id, resource) connections =>
    connections ← specific_connections resources resource_id resource connections;
    connect_by_id resources resource_id resource
      "compartment_id" "oci_identity_compartment" connections)
    (empty_connections resources).

(** oci.py, lines 53-143.  The script fills [connections] (line 68)
    before it creates the nodes; filling it cannot raise. *)
Definition generate_diagram (resources : dict tf_resource)
    (output_file : string) : result diagram :=
  nodes ← create_nodes resources;
  connections ← infer_connections resources;
  mret (mk_diagram "OCI Infrastructure" output_file nodes
          (draw_connections nodes connections)).

(** oci.py, lines 146-148 *)
Definition parser : argument_parser :=
  add_argument "--output" false (Some "oci_infrastructure_diagram")
    (add_argument "--state" true None
       (ArgumentParser "Generate infrastructure diagram from Terraform state")).

(** oci.py, lines 145-159 *)
Definition main : filesystem -> list cli_item -> outcome :=
  run_main parser parse_terraform_state generate_diagram.

End OCI.

(** ** Well-formed state documents *)

Definition is_string (v : json) : bool :=
  match v with JStr _ => true | _ => false end.

(** An instance: an object whose ['attributes'] is an object. *)
Definition well_formed_instance (instance : json) : bool :=
  match instance with
  | JObj kvs =>
      match dict_get "attributes" kvs with
      | Some (JObj _) => true
      | _ => false
      end
  | _ => false
  end.

(** A resource: an object with a string ['type'], a string ['name'] and
    a list ['instances'] of instances. *)
Definition well_formed_resource (resource : json) : bool :=
  match resource with
  | JObj kvs =>
      match dict_get "type" kvs, dict_get "name" kvs, dict_get "instances" kvs with
      | Some t, Some n, Some (JList instances) =>
          is_string t && is_string n && forallb well_formed_instance instances
      | _, _, _ => false
      end
  | _ => false
  end.

(** A state: an object whose ['resources'] is a list of resources. *)
Definition well_formed_state (state_data : json) : bool :=
  match state_data with
  | JObj kvs =>
      match dict_get "resources" kvs with
      | Some (JList resources) => forallb well_formed_resource resources
      | _ => false
      end
  | _ => false
  end.

(** ** The table as a sequence of writes *)

(** [d[k] = v] for each pair of a list, in order. *)
Definition write_all {V : Type} (entries : list (string * V)) (d : dict V)
    : dict V :=
  foldl (fun d e => dict_set e.1 e.2 d) d entries.

(** The pairs [(resource_id, record)] the reader assigns, one for each
    instance it visits, in the order of the visit; [entry] is the body
    of its inner loop. *)
Definition instance_entries
    (entry : json -> json -> json -> result (string * tf_resource))
    (state_data : json) : result (list (string * tf_resource)) :=
  rs ← subscript state_data "resources";
  rs ← py_iter rs;
  ess ← mapM (fun resource =>
                resource_type ← subscript resource "type";
                instances ← subscript resource "instances";
                instances ← py_iter instances;
                mapM (entry resource_type resource) instances) rs;
  mret (mjoin ess).

(** ** What the claims say of the table *)

(** An entry of the table comes from an instance of the state: its key
    is built from its own type and name, its type is the resource's and
    its attributes are the instance's. *)
Definition entry_of_instance (state_data : json) (id : string)
    (r : tf_resource) : Prop :=
  id = py_str (res_type r) +:+ "." +:+ py_str (res_name r) /\
  exists resource instance,
    state_instance state_data resource instance /\
    subscript resource "type" = Ok (res_type r) /\
    subscript instance "attributes" = Ok (JObj (res_attributes r)).

(** The instances of a state document, each with its resource, in the
    order in which the readers visit them. *)
Definition state_instances (state_data : json) : list (json * json) :=
  resource ← state_resources state_data;
  instance ← resource_instances resource;
  [(resource, instance)].

(** The name a reader records for an instance whose resource is named
    [default] (gcp.py, line 25; oci.py, line 24). *)
Definition GCP_resource_name (default : json) (attrs : dict json) : json :=
  dict_get_default "name" default attrs.

Definition OCI_resource_name (default : json) (attrs : dict json) : json :=
  dict_get_default "display_name" (dict_get_default "name" default attrs) attrs.

(** [(id, r)] is the record of an instance: the type is its resource's,
    the attributes are its own attributes object, the name is the one
    the script's rule [name_of] picks from them and the resource's
    name, and the key is ["<type>.<name>"]. *)
Definition record_of_instance (name_of : json -> dict json -> json)
    (resource instance : json) (id : string) (r : tf_resource) : Prop :=
  exists default,
    subscript resource "type" = Ok (res_type r) /\
    subscript resource "name" = Ok default /\
    subscript instance "attributes" = Ok (JObj (res_attributes r)) /\
    res_name r = name_of default (res_attributes r) /\
    id = py_str (res_type r) +:+ "." +:+ py_str (res_name r).

(** [resources] is the table of a state document: it is what assigning
    the record of every instance, in the order of the document, leaves
    in an empty dictionary. *)
Definition table_of_state (name_of : json -> dict json -> json)
    (state_data : json) (resources : dict tf_resource) : Prop :=
  exists entries,
    Forall2 (fun ri e => record_of_instance name_of ri.1 ri.2 e.1 e.2)
      (state_instances state_data) entries /\
    resources = write_all entries [].

(** No instance of the state has a ['display_name'] attribute. *)
Definition has_display_name (instance : json) : bool :=
  match subscript instance "attributes" with
  | Ok (JObj attrs) => bool_decide (is_Some (dict_get "display_name" attrs))
  | _ => false
  end.

Definition no_display_name (state_data : json) : bool :=
  forallb (fun resource =>
             forallb (fun instance => negb (has_display_name instance))
               (resource_instances resource))
    (state_resources state_data).

(** Among the writes [entries] that build the table [resources], a later
    write of the same type and name replaces an earlier one: both have
    the same key, the table is shorter than the list of writes, and the
    last such write is the one the table holds. *)
Definition later_overwrites (entries : list (string * tf_resource))
    (resources : dict tf_resource) : Prop :=
  forall (i j : nat) id1 r1 id2 r2,
    (i < j)%nat ->
    entries !! i = Some (id1, r1) -> entries !! j = Some (id2, r2) ->
    res_type r1 = res_type r2 -> res_name r1 = res_name r2 ->
    id1 = id2 /\
    (List.length resources < List.length entries)%nat /\
    ((forall (k : nat) e, (j < k)%nat -> entries !! k = Some e -> e.1 <> id2) ->
     dict_get id2 resources = Some r2).

(** A file system with one file. *)
Definition single_file (path : string) (content : file_content) : filesystem :=
  fun p => if decide (p = path) then Some content else None.

(** What the readers need of a state document: a ['resources'] that can
    be iterated; in each resource a ['type'] and an ['instances'] that
    can be iterated; and, for every instance, an ['attributes'] object
    and a ['name'] in its resource. *)
Definition readable_state (state_data : json) : Prop :=
  (exists rs rs_list, subscript state_data "resources" = Ok rs /\
                      py_iter rs = Ok rs_list) /\
  forall resource,
    resource ∈ state_resources state_data ->
    (exists resource_type, subscript resource "type" = Ok resource_type) /\
    (exists instances instances_list,
       subscript resource "instances" = Ok instances /\
       py_iter instances = Ok instances_list) /\
    forall instance,
      instance ∈ resource_instances resource ->
      (exists attrs, subscript instance "attributes" = Ok (JObj attrs)) /\
      (exists name, subscript resource "name" = Ok name).

(** ** Example states *)

Definition tf_instance (attributes : dict json) : json :=
  JObj [("schema_version", JInt 0); ("attributes", JObj attributes)].

Definition tf_block (type name : string) (instances : list json) : json :=
  JObj [("mode", JStr "managed"); ("type", JStr type); ("name", JStr name);
        ("instances", JList instances)].

Definition tf_state (resources : list json) : json :=
  JObj [("version", JInt 4); ("resources", JList resources)].

Definition example_instance : json :=
  tf_block "google_compute_instance" "vm"
    [tf_instance [("name", JStr "web");
                  ("subnetwork", JStr "projects/p/regions/r/subnetworks/sub")]].

Definition example_subnetwork : json :=
  tf_block "google_compute_subnetwork" "s" [tf_instance [("name", JStr "sub")]].

(** The instance is listed before its subnetwork, as Terraform sorts them. *)
Definition instance_then_subnetwork : json :=
  tf_state [example_instance; example_subnetwork].

Definition subnetwork_then_instance : json :=
  tf_state [example_subnetwork; example_instance].

(** A subnetwork whose name is part of, but not equal to, the last
    segment of the instance's subnetwork path. *)
Definition substring_state : json :=
  tf_state
    [ tf_block "google_compute_instance" "vm"
        [tf_instance [("name", JStr "web");
                      ("subnetwork", JStr "projects/p/regions/r/subnetworks/ab")]];
      tf_block "google_compute_subnetwork" "s" [tf_instance [("name", JStr "a")]] ].

Definition firewall_state : json :=
  tf_state
    [ tf_block "google_compute_firewall" "fw" [tf_instance [("name", JStr "allow-ssh")]];
      tf_block "google_compute_instance" "vm" [tf_instance [("name", JStr "web")]] ].

Definition oci_state : json :=
  tf_state
    [ tf_block "oci_core_instance" "vm" [tf_instance [("display_name", JStr "web")]];
      tf_block "oci_core_network_security_group" "nsg"
        [tf_instance [("display_name", JStr "web-nsg")]] ].

(** A well-formed state whose only instance has a ['display_name'] of
    [null], as Terraform writes an unset attribute. *)
Definition unnamed_state : json :=
  tf_state [tf_block "oci_core_instance" "vm" [tf_instance [("display_name", JNull)]]].

(** Two instances of one resource block without a name of their own. *)
Definition duplicate_state : json :=
  tf_state
    [ tf_block "google_project_iam_member" "editors"
        [ tf_instance [("member", JStr "user:a@example.com")];
          tf_instance [("member", JStr "user:b@example.com")] ] ].

Definition state_path : string := "terraform.tfstate".

(** ** The two lookup tables, evaluated *)

Definition gcp_mappings : dict icon_class :=
  [ ("google_compute_instance", gcp_ComputeEngine);
    ("google_compute_network", gcp_VirtualPrivateCloud);
    ("google_compute_subnetwork", generic_Subnet);
    ("google_compute_firewall", gcp_FirewallRules);
    ("google_compute_router", gcp_Router);
    ("google_compute_router_nat", gcp_NAT);
    ("google_storage_bucket", gcp_Storage);
    ("google_sql_database_instance", gcp_SQL);
    ("google_bigquery_dataset", gcp_Bigquery);
    ("google_iam_policy", gcp_Iam);
    ("google_compute_route", gcp_Routes);
    ("google_project", gcp_ResourceManager) ].

Definition oci_mappings : dict icon_class :=
  [ ("oci_core_instance", oci_VM);
    ("oci_core_vcn", oci_Vcn);
    ("oci_core_subnet", generic_Switch);
    ("oci_core_security_list", generic_Firewall);
    ("oci_core_route_table", generic_Router);
    ("oci_core_nat_gateway", generic_Router);
    ("oci_core_internet_gateway", generic_Router);
    ("oci_core_service_gateway", generic_Router);
    ("oci_core_volume", oci_BlockStorage);
    ("oci_objectstorage_bucket", oci_ObjectStorage);
    ("oci_database_db_system", oci_DatabaseService);
    ("oci_core_network_security_group", generic_Firewall);
    ("oci_core_network_security_group_security_rule", generic_Firewall) ].

(** ** Connections *)

(** [x in connections[k]] *)
Definition connected (connections : dict (gset string)) (k x : string) : Prop :=
  exists s, dict_get k connections = Some s /\ x ∈ s.

(** [c'] has the keys of [c] and all its connections. *)
Definition extends (c c' : dict (gset string)) : Prop :=
  forall k,
    match dict_get k c with
    | Some s => exists s', dict_get k c' = Some s' /\ s ⊆ s'
    | None => dict_get k c' = None
    end.

(** Every id of the table is a key of [c]. *)
Definition covers (resources : dict tf_resource) (c : dict (gset string)) : Prop :=
  forall k, k ∈ dict_keys resources -> is_Some (dict_get k c).

(** The test [x in connections[k]], [False] when [k] is no key. *)
Definition connectedb (connections : dict (gset string)) (k x : string) : bool :=
  match dict_get k connections with
  | Some s => bool_decide (x ∈ s)
  | None => false
  end.

(** One iteration of the loop of [GCP.infer_connections]. *)
Definition GCP_step (resources : dict tf_resource) (resource_id : string)
    (resource : tf_resource) (connections : dict (gset string))
    : result (dict (gset string)) :=
  let connections := dict_set resource_id (∅ : gset string) connections in
  connections ← GCP.common_attribute_connections resources resource_id resource connections;
  GCP.specific_connections resources resource_id resource connections.

(** One iteration of the loop of [OCI.infer_connections]. *)
Definition OCI_step (resources : dict tf_resource) (resource_id : string)
    (resource : tf_resource) (connections : dict (gset string))
    : result (dict (gset string)) :=
  connections ← OCI.specific_connections resources resource_id resource connections;
  OCI.connect_by_id resources resource_id resource
    "compartment_id" "oci_identity_compartment" connections.

(** ** Properties of a connections map *)

(** A step from [c] to [c'] keeps the property [P]. *)
Definition keeps (P : dict (gset string) -> Prop) (c c' : dict (gset string))
    : Prop :=
  P c -> P c'.

(** No id is connected to itself, and every target is an id of the table. *)
Definition proper_targets (resources : dict tf_resource)
    (c : dict (gset string)) : Prop :=
  forall k x, connected c k x -> k <> x /\ x ∈ dict_keys resources.

(** Every connection has its reverse. *)
Definition symmetric (c : dict (gset string)) : Prop :=
  forall k x, connected c k x -> connected c x k.

(** The references by OCID the OCI script follows for a resource of a
    given type (oci.py, lines 79-129): the type, the attribute that
    holds the OCID, and the type of the resource it refers to. *)
Definition oci_reference_rules : list (string * string * string) :=
  [ ("oci_core_instance", "subnet_id", "oci_core_subnet");
    ("oci_core_subnet", "vcn_id", "oci_core_vcn");
    ("oci_core_security_list", "vcn_id", "oci_core_vcn");
    ("oci_core_route_table", "vcn_id", "oci_core_vcn");
    ("oci_core_nat_gateway", "vcn_id", "oci_core_vcn");
    ("oci_core_internet_gateway", "vcn_id", "oci_core_vcn");
    ("oci_core_service_gateway", "vcn_id", "oci_core_vcn");
    ("oci_core_network_security_group", "vcn_id", "oci_core_vcn");
    ("oci_core_network_security_group_security_rule",
     "network_security_group_id", "oci_core_network_security_group") ].

(** The resource types whose ['network'] attribute the GCP script
    follows to a [google_compute_network] (gcp.py, lines 105-139). *)
Definition gcp_network_clients : list string :=
  [ "google_compute_instance"; "google_compute_subnetwork";
    "google_compute_firewall"; "google_compute_router" ].

(** ** Example tables *)

Definition duplicate_first : tf_resource :=
  mk_resource (JStr "google_project_iam_member") (JStr "editors")
    [("member", JStr "user:a@example.com")].

Definition duplicate_second : tf_resource :=
  mk_resource (JStr "google_project_iam_member") (JStr "editors")
    [("member", JStr "user:b@example.com")].

Definition web_instance (subnetwork : string) : tf_resource :=
  mk_resource (JStr "google_compute_instance") (JStr "web")
    [("name", JStr "web"); ("subnetwork", JStr subnetwork)].

Definition subnetwork_named (name : string) : tf_resource :=
  mk_resource (JStr "google_compute_subnetwork") (JStr name) [("name", JStr name)].

(** The table of [subnetwork_then_instance]. *)
Definition subnetwork_then_instance_table : dict tf_resource :=
  [ ("google_compute_subnetwork.sub", subnetwork_named "sub");
    ("google_compute_instance.web",
     web_instance "projects/p/regions/r/subnetworks/sub") ].

(** The table of [unnamed_state] in the OCI script: the key is built
    from [str(None)]. *)
Definition unnamed_table : dict tf_resource :=
  [ ("oci_core_instance.None",
     mk_resource (JStr "oci_core_instance") JNull [("display_name", JNull)]) ].

(** The table of [substring_state]. *)
Definition substring_table : dict tf_resource :=
  [ ("google_compute_instance.web",
     web_instance "projects/p/regions/r/subnetworks/ab");
    ("google_compute_subnetwork.a", subnetwork_named "a") ].

(** The table of [firewall_state]. *)
Definition firewall_table : dict tf_resource :=
  [ ("google_compute_firewall.allow-ssh",
     mk_resource (JStr "google_compute_firewall") (JStr "allow-ssh")
       [("name", JStr "allow-ssh")]);
    ("google_compute_instance.web",
     mk_resource (JStr "google_compute_instance") (JStr "web")
       [("name", JStr "web")]) ].

(** The table of [oci_state]. *)
Definition oci_table : dict tf_resource :=
  [ ("oci_core_instance.web",
     mk_resource (JStr "oci_core_instance") (JStr "web")
       [("display_name", JStr "web")]);
    ("oci_core_network_security_group.web-nsg",
     mk_resource (JStr "oci_core_network_security_group") (JStr "web-nsg")
       [("display_name", JStr "web-nsg")]) ].

Definition example_network_table : dict tf_resource :=
  [ ("google_compute_network.vpc",
     mk_resource (JStr "google_compute_network") (JStr "vpc") [("name", JStr "vpc")]);
    ("google_compute_router.r1",
     mk_resource (JStr "google_compute_router") (JStr "r1")
       [("name", JStr "r1"); ("network", JStr "projects/p/global/networks/vpc")]);
    ("google_compute_router_nat.nat",
     mk_resource (JStr "google_compute_router_nat") (JStr "nat")
       [("name", JStr "nat"); ("router", JStr "r1")]) ].

Definition example_oci_network_table : dict tf_resource :=
  [ ("oci_identity_compartment.prod",
     mk_resource (JStr "oci_identity_compartment") (JStr "prod")
       [("id", JStr "ocid1.compartment.oc1..aaaa"); ("name", JStr "prod")]);
    ("oci_core_vcn.main",
     mk_resource (JStr "oci_core_vcn") (JStr "main")
       [("id", JStr "ocid1.vcn.oc1..bbbb"); ("display_name", JStr "main");
        ("compartment_id", JStr "ocid1.compartment.oc1..aaaa")]);
    ("oci_core_subnet.public",
     mk_resource (JStr "oci_core_subnet") (JStr "public")
       [("id", JStr "ocid1.subnet.oc1..cccc"); ("display_name", JStr "public");
        ("vcn_id", JStr "ocid1.vcn.oc1..bbbb");
        ("compartment_id", JStr "ocid1.compartment.oc1..aaaa")]) ].

(** * Proofs *)

(** ** The result monad and loops *)

Lemma bind_Ok {A B : Type} (m : result A) (f : A -> result B) (b : B) :
  m ≫= f = Ok b <-> exists a, m = Ok a /\ f a = Ok b.
Proof.
  destruct m as [a|e]; simpl; split.
  - intros H. exists a. done.
  - intros (a' & [= ->] & H). done.
  - discriminate.
  - intros (a' & [=] & _).
Qed.

Ltac inv_ok :=
  repeat match goal with
  | H : _ ≫= _ = Ok _ |- _ =>
      let a := fresh "a" in
      let Ha := fresh "Ha" in
      apply bind_Ok in H as (a & Ha & H)
  | H : mret _ = Ok _ |- _ => injection H as H
  | H : Ok _ = Ok _ |- _ => injection H as H
  | H : Raise _ = Ok _ |- _ => discriminate H
  end.

Lemma for_each_app {A S : Type} (xs ys : list A) (body : A -> S -> result S) (s : S) :
  for_each (xs ++ ys) body s = (s' ← for_each xs body s; for_each ys body s').
Proof.
  revert s. induction xs as [|x xs IH]; intros s; simpl; [done|].
  destruct (body x s) as [s1|e]; simpl; [apply IH | done].
Qed.

(** A property of the loop state that every iteration keeps holds
    after the loop. *)
Lemma for_each_invariant {A S : Type} (P : S -> Prop) (xs : list A)
    (body : A -> S -> result S) (s s' : S) :
  (forall x t t', x ∈ xs -> P t -> body x t = Ok t' -> P t') ->
  P s -> for_each xs body s = Ok s' -> P s'.
Proof.
  revert s. induction xs as [|x xs IH]; intros s Hstep Hs Hrun; simpl in Hrun.
  - by injection Hrun as <-.
  - inv_ok. eapply IH; [| |exact Hrun].
    + intros y t t' Hy. apply Hstep. by right.
    + eapply Hstep; [by left|exact Hs|exact Ha].
Qed.

(** A property that one iteration establishes and the others keep. *)
Lemma for_each_establish {A S : Type} (P : S -> Prop) (xs : list A)
    (body : A -> S -> result S) (x0 : A) (s s' : S) :
  x0 ∈ xs ->
  (forall t t', body x0 t = Ok t' -> P t') ->
  (forall x t t', x ∈ xs -> P t -> body x t = Ok t' -> P t') ->
  for_each xs body s = Ok s' -> P s'.
Proof.
  intros Hin Hest Hkeep Hrun.
  apply list_elem_of_split in Hin as (pre & post & ->).
  rewrite for_each_app in Hrun. simpl in Hrun. inv_ok.
  eapply (for_each_invariant P post); [| |exact Hrun].
  - intros y t t' Hy. apply Hkeep. rewrite elem_of_app. right. by right.
  - eapply Hest. exact Ha0.
Qed.

Lemma for_each_ext {A S : Type} (xs : list A) (f g : A -> S -> result S) (s : S) :
  (forall x t, x ∈ xs -> f x t = g x t) -> for_each xs f s = for_each xs g s.
Proof.
  revert s. induction xs as [|x xs IH]; intros s Hfg; simpl; [done|].
  rewrite (Hfg x s) by (by left).
  destruct (g x s) as [t|e]; simpl; [|done].
  apply IH. intros y u Hy. apply Hfg. by right.
Qed.

(** A loop that always succeeds in its body succeeds. *)
Lemma for_each_total {A S : Type} (P : S -> Prop) (xs : list A)
    (body : A -> S -> result S) (s : S) :
  (forall x t, x ∈ xs -> P t -> exists t', body x t = Ok t' /\ P t') ->
  P s -> exists s', for_each xs body s = Ok s' /\ P s'.
Proof.
  revert s. induction xs as [|x xs IH]; intros s Hstep Hs; simpl.
  - by exists s.
  - destruct (Hstep x s) as (t & -> & Ht); [by left|done|]. simpl.
    apply IH; [|done]. intros y u Hy. apply Hstep. by right.
Qed.

(** ** Dictionaries *)

Section dict_facts.
Context {V : Type}.
Implicit Types (d : dict V) (k : string) (v : V).

Lemma dict_get_set_eq d k v : dict_get k (dict_set k v d) = Some v.
Proof.
  induction d as [|[k' v'] d IH]; simpl.
  - by rewrite decide_True.
  - destruct (decide (k = k')) as [->|Hne]; simpl.
    + by rewrite decide_True.
    + by rewrite decide_False.
Qed.

Lemma dict_get_set_ne d k k' v :
  k <> k' -> dict_get k' (dict_set k v d) = dict_get k' d.
Proof.
  intros Hne. induction d as [|[k0 v0] d IH]; simpl.
  - by rewrite decide_False.
  - destruct (decide (k = k0)) as [->|Hne0]; simpl.
    + by rewrite !decide_False.
    + by rewrite IH.
Qed.

Lemma dict_get_set d k k' v :
  dict_get k' (dict_set k v d) = if decide (k = k') then Some v else dict_get k' d.
Proof.
  destruct (decide (k = k')) as [->|Hne].
  - apply dict_get_set_eq.
  - by apply dict_get_set_ne.
Qed.

Lemma dict_get_None d k : dict_get k d = None <-> k ∉ dict_keys d.
Proof.
  unfold dict_keys. induction d as [|[k' v'] d IH]; simpl.
  - split; [intros _; apply not_elem_of_nil|done].
  - rewrite not_elem_of_cons. destruct (decide (k = k')) as [->|Hne].
    + split; [done|]. intros [? _]. done.
    + rewrite IH. tauto.
Qed.

Lemma dict_get_is_Some d k : is_Some (dict_get k d) <-> k ∈ dict_keys d.
Proof.
  rewrite <- not_eq_None_Some, dict_get_None.
  destruct (decide (k ∈ (dict_keys d : list string))); tauto.
Qed.

Lemma dict_get_Some_elem d k v : dict_get k d = Some v -> (k, v) ∈ d.
Proof.
  induction d as [|[k' v'] d IH]; simpl; [done|].
  destruct (decide (k = k')) as [->|Hne].
  - intros [= ->]. by left.
  - intros H. right. by apply IH.
Qed.

Lemma dict_get_NoDup d k v :
  NoDup (dict_keys d) -> (k, v) ∈ d -> dict_get k d = Some v.
Proof.
  unfold dict_keys. induction d as [|[k' v'] d IH]; simpl.
  - intros _ H. by apply elem_of_nil in H.
  - rewrite NoDup_cons. intros [Hk' Hnd] Hin.
    apply elem_of_cons in Hin as [[= -> ->]|Hin].
    + by rewrite decide_True.
    + rewrite decide_False; [by apply IH|].
      intros ->. apply Hk'. apply list_elem_of_fmap. by exists (k', v).
Qed.

Lemma dict_keys_set d k v :
  dict_keys (dict_set k v d) =
    if decide (k ∈ dict_keys d) then dict_keys d else dict_keys d ++ [k].
Proof.
  unfold dict_keys. induction d as [|[k' v'] d IH]; csimpl.
  - done.
  - destruct (decide (k = k')) as [->|Hne]; csimpl.
    + destruct (decide (k' ∈ k' :: d.*1)) as [Hin|Hin]; [done|].
      exfalso. apply Hin. by left.
    + rewrite IH.
      destruct (decide (k ∈ d.*1)) as [Hin|Hin];
        destruct (decide (k ∈ k' :: d.*1)) as [Hin'|Hin']; try done.
      * exfalso. apply Hin'. by right.
      * apply elem_of_cons in Hin' as [?|?]; done.
Qed.

Lemma dict_set_NoDup d k v : NoDup (dict_keys d) -> NoDup (dict_keys (dict_set k v d)).
Proof.
  intros Hnd. rewrite dict_keys_set. case_decide; [done|].
  apply NoDup_app. split_and!; [done| |apply NoDup_singleton].
  intros x Hx Hx'. apply list_elem_of_singleton in Hx'. by subst.
Qed.

Lemma dict_set_elem d k v k' v' :
  (k', v') ∈ dict_set k v d -> (k' = k /\ v' = v) \/ (k', v') ∈ d.
Proof.
  induction d as [|[k0 v0] d IH]; simpl.
  - intros H. apply list_elem_of_singleton in H as [= -> ->]. by left.
  - destruct (decide (k = k0)) as [->|Hne]; intros H;
      apply elem_of_cons in H as [[= -> ->]|H].
    + by left.
    + right. by right.
    + right. by left.
    + destruct (IH H) as [?|?]; [by left|]. right. by right.
Qed.

Lemma dict_set_length d k v :
  List.length (dict_set k v d) =
    if decide (k ∈ dict_keys d) then List.length d else S (List.length d).
Proof.
  rewrite <- !(length_fmap fst). fold (dict_keys (dict_set k v d)).
  rewrite dict_keys_set. case_decide; [done|].
  rewrite length_app. simpl. unfold dict_keys. lia.
Qed.

End dict_facts.

(** ** Sequences of writes *)

Section write_facts.
Context {V : Type}.
Implicit Types (d : dict V) (es : list (string * V)).

Lemma write_all_snoc es e d :
  write_all (es ++ [e]) d = dict_set e.1 e.2 (write_all es d).
Proof. unfold write_all. by rewrite foldl_snoc. Qed.

Lemma write_all_app es1 es2 d :
  write_all (es1 ++ es2) d = write_all es2 (write_all es1 d).
Proof. unfold write_all. by rewrite foldl_app. Qed.

Lemma write_all_NoDup es d :
  NoDup (dict_keys d) -> NoDup (dict_keys (write_all es d)).
Proof.
  revert d. induction es as [|e es IH]; intros d Hd; simpl; [done|].
  apply IH. by apply dict_set_NoDup.
Qed.

Lemma write_all_elem es d k v :
  (k, v) ∈ write_all es d -> (k, v) ∈ es \/ (k, v) ∈ d.
Proof.
  revert d. induction es as [|[k' v'] es IH]; intros d Hin; simpl in *.
  - by right.
  - destruct (IH _ Hin) as [Hes|Hd].
    + left. by right.
    + apply dict_set_elem in Hd as [[-> ->]|Hd]; [left; by left|by right].
Qed.

Lemma write_all_length es d :
  (List.length (write_all es d) <= List.length d + List.length es)%nat.
Proof.
  revert d. induction es as [|e es IH]; intros d; simpl; [lia|].
  specialize (IH (dict_set e.1 e.2 d)). rewrite dict_set_length in IH.
  case_decide; lia.
Qed.

Lemma write_all_keys es d k :
  k ∈ dict_keys (write_all es d) <-> k ∈ es.*1 \/ k ∈ dict_keys d.
Proof.
  revert d. induction es as [|e es IH]; intros d; csimpl.
  - split; [by right|]. intros [H|H]; [by apply elem_of_nil in H|done].
  - rewrite IH, dict_keys_set, elem_of_cons.
    destruct (decide (e.1 ∈ dict_keys d)) as [Hin|Hnin].
    + split; [tauto|]. intros [[->|?]|?]; tauto.
    + rewrite elem_of_app, list_elem_of_singleton. tauto.
Qed.

(** Writes to other keys leave the value of a key as it is. *)
Lemma write_all_get_other es d k :
  (forall e, e ∈ es -> e.1 <> k) -> dict_get k (write_all es d) = dict_get k d.
Proof.
  revert d. induction es as [|e es IH]; intros d Hne; simpl; [done|].
  rewrite IH.
  - apply dict_get_set_ne. apply Hne. by left.
  - intros e' He'. apply Hne. by right.
Qed.

(** A second write to a key that is already there adds no entry. *)
Lemma write_all_length_collision es1 es2 e d :
  e.1 ∈ es1.*1 ->
  (List.length (write_all (es1 ++ e :: es2) d)
   < List.length d + List.length (es1 ++ e :: es2))%nat.
Proof.
  intros Hin.
  replace (es1 ++ e :: es2) with ((es1 ++ [e]) ++ es2) by (by rewrite <- app_assoc).
  rewrite write_all_app, write_all_snoc.
  pose proof (write_all_length es2 (dict_set e.1 e.2 (write_all es1 d))) as H2.
  rewrite dict_set_length in H2.
  pose proof (write_all_length es1 d) as H1.
  rewrite decide_True in H2 by (apply write_all_keys; by left).
  rewrite !length_app. simpl. lia.
Qed.

End write_facts.

(** ** The readers as sequences of writes *)

Lemma mapM_Ok_Forall2 {A B : Type} (f : A -> result B) (xs : list A) (ys : list B) :
  mapM f xs = Ok ys <-> Forall2 (fun x y => f x = Ok y) xs ys.
Proof.
  revert ys. induction xs as [|x xs IH]; intros ys; simpl.
  - split.
    + intros [= <-]. constructor.
    + intros H. by apply Forall2_nil_inv_l in H as ->.
  - split.
    + intros H. inv_ok. subst ys. constructor; [done|]. by apply IH.
    + intros H. apply Forall2_cons_inv_l in H as (y & ys' & Hy & Hys & ->).
      rewrite Hy. simpl. apply IH in Hys. rewrite Hys. done.
Qed.

Lemma mapM_Ok_elem {A B : Type} (f : A -> result B) (xs : list A) (ys : list B) (y : B) :
  mapM f xs = Ok ys -> y ∈ ys -> exists x, x ∈ xs /\ f x = Ok y.
Proof.
  rewrite mapM_Ok_Forall2. intros HF Hy.
  apply list_elem_of_lookup in Hy as [i Hi].
  destruct (Forall2_lookup_r _ _ _ _ _ HF Hi) as (x & Hx & Hfx).
  exists x. split; [|done]. apply list_elem_of_lookup. by exists i.
Qed.

Lemma for_each_writes {A V : Type} (f : A -> result (string * V)) (xs : list A)
    (d : dict V) :
  for_each xs (fun x d => e ← f x; mret (dict_set e.1 e.2 d)) d
  = (es ← mapM f xs; mret (write_all es d)).
Proof.
  revert d. induction xs as [|x xs IH]; intros d; simpl; [done|].
  destruct (f x) as [e|err]; simpl; [|done].
  rewrite IH. destruct (mapM f xs) as [es|err]; done.
Qed.

Lemma for_each_write_lists {A V : Type} (g : A -> result (list (string * V)))
    (xs : list A) (d : dict V) :
  for_each xs (fun x d => es ← g x; mret (write_all es d)) d
  = (ess ← mapM g xs; mret (write_all (mjoin ess) d)).
Proof.
  revert d. induction xs as [|x xs IH]; intros d; simpl; [done|].
  destruct (g x) as [es|err]; simpl; [|done].
  rewrite IH. destruct (mapM g xs) as [ess|err]; simpl; [|done].
  by rewrite write_all_app.
Qed.

(** Both readers have this shape, [entry] being the body of the inner loop. *)
Lemma reader_as_writes
    (entry : json -> json -> json -> result (string * tf_resource))
    (state_data : json) :
  (rs ← subscript state_data "resources";
   rs ← py_iter rs;
   for_each rs (fun resource resources =>
     resource_type ← subscript resource "type";
     instances ← subscript resource "instances";
     instances ← py_iter instances;
     for_each instances (fun instance resources =>
       e ← entry resource_type resource instance;
       mret (dict_set e.1 e.2 resources)) resources) [])
  = (es ← instance_entries entry state_data; mret (write_all es [])).
Proof.
  unfold instance_entries.
  destruct (subscript state_data "resources") as [rs|err]; simpl; [|done].
  destruct (py_iter rs) as [rs_list|err]; simpl; [|done].
  set (g := fun resource : json =>
              resource_type ← subscript resource "type";
              instances ← subscript resource "instances";
              instances ← py_iter instances;
              mapM (entry resource_type resource) instances).
  rewrite (for_each_ext rs_list _ (fun x d => es ← g x; mret (write_all es d))).
  - rewrite for_each_write_lists.
    destruct (mapM g rs_list) as [ess|err]; done.
  - intros resource d _. unfold g. simpl.
    destruct (subscript resource "type") as [rt|err]; simpl; [|done].
    destruct (subscript resource "instances") as [insts|err]; simpl; [|done].
    destruct (py_iter insts) as [insts_list|err]; simpl; [|done].
    apply for_each_writes.
Qed.

Lemma GCP_reader_as_writes (state_data : json) :
  GCP.resources_of_state state_data
  = (es ← instance_entries GCP.instance_entry state_data; mret (write_all es [])).
Proof. apply reader_as_writes. Qed.

Lemma OCI_reader_as_writes (state_data : json) :
  OCI.resources_of_state state_data
  = (es ← instance_entries OCI.instance_entry state_data; mret (write_all es [])).
Proof. apply reader_as_writes. Qed.

(** Every pair of [instance_entries] comes from an instance of the state. *)
Lemma instance_entries_elem entry state_data es e :
  instance_entries entry state_data = Ok es -> e ∈ es ->
  exists resource instance resource_type,
    state_instance state_data resource instance /\
    subscript resource "type" = Ok resource_type /\
    entry resource_type resource instance = Ok e.
Proof.
  unfold instance_entries. intros H He. inv_ok. subst es.
  apply list_elem_of_join in He as (es' & He & Hes').
  destruct (mapM_Ok_elem _ _ _ _ Ha1 Hes') as (resource & Hres & Hr).
  inv_ok.
  destruct (mapM_Ok_elem _ _ _ _ Hr He) as (instance & Hinst & Hi).
  exists resource, instance, a2. split; [|done].
  unfold state_instance, state_resources, resource_instances.
  rewrite Ha. simpl. rewrite Ha0, Ha3. simpl. by rewrite Ha4.
Qed.

(** ** The state-file readers *)

Lemma get_method_Ok (v : json) (attrs : dict json) :
  get_method v = Ok attrs -> v = JObj attrs.
Proof. destruct v; simpl; intros H; inv_ok; by subst. Qed.

Lemma GCP_instance_entry_spec resource_type resource instance id r :
  GCP.instance_entry resource_type resource instance = Ok (id, r) ->
  id = make_id (res_type r) (res_name r) /\ res_type r = resource_type /\
  subscript instance "attributes" = Ok (JObj (res_attributes r)).
Proof.
  unfold GCP.instance_entry. intros H. inv_ok.
  apply get_method_Ok in Ha0 as ->. by subst.
Qed.

Lemma OCI_instance_entry_spec resource_type resource instance id r :
  OCI.instance_entry resource_type resource instance = Ok (id, r) ->
  id = make_id (res_type r) (res_name r) /\ res_type r = resource_type /\
  subscript instance "attributes" = Ok (JObj (res_attributes r)).
Proof.
  unfold OCI.instance_entry. intros H. inv_ok.
  apply get_method_Ok in Ha0 as ->. by subst.
Qed.

(** What holds of a table written from the entries of a state. *)
Lemma written_table entry state_data es :
  (forall resource_type resource instance id r,
     entry resource_type resource instance = Ok (id, r) ->
     id = make_id (res_type r) (res_name r) /\ res_type r = resource_type /\
     subscript instance "attributes" = Ok (JObj (res_attributes r))) ->
  instance_entries entry state_data = Ok es ->
  NoDup (dict_keys (write_all es [])) /\
  forall id r, (id, r) ∈ write_all es [] -> entry_of_instance state_data id r.
Proof.
  intros Hentry Hes. split.
  - apply write_all_NoDup. constructor.
  - intros id r Hin. apply write_all_elem in Hin as [Hin|Hin].
    + destruct (instance_entries_elem _ _ _ _ Hes Hin)
        as (resource & instance & rt & Hinst & Hrt & He).
      apply Hentry in He as (-> & <- & Hattrs).
      split; [done|]. by exists resource, instance.
    + by apply elem_of_nil in Hin.
Qed.

Lemma load_json_file_Ok fs path v :
  load_json_file fs path = Ok v <-> fs path = Some (JsonDocument v).
Proof.
  unfold load_json_file. destruct (fs path) as [[msg|w]|]; split; intros H;
    inv_ok; by simplify_eq.
Qed.

Lemma mapM_total {A B : Type} (f : A -> result B) (xs : list A) :
  (forall x, x ∈ xs -> exists y, f x = Ok y) -> exists ys, mapM f xs = Ok ys.
Proof.
  induction xs as [|x xs IH]; intros Hf; simpl.
  - by eexists.
  - destruct (Hf x) as [y ->]; [by left|]. simpl.
    destruct IH as [ys ->]; [|by eexists].
    intros z Hz. apply Hf. by right.
Qed.

Lemma well_formed_instance_inv instance :
  well_formed_instance instance = true ->
  exists kvs attrs, instance = JObj kvs /\ dict_get "attributes" kvs = Some (JObj attrs).
Proof.
  destruct instance as [| | | | |kvs]; simpl; try done.
  destruct (dict_get "attributes" kvs) as [[| | | | |attrs]|] eqn:E; try done.
  intros _. by exists kvs, attrs.
Qed.

Lemma well_formed_resource_inv resource :
  well_formed_resource resource = true ->
  exists kvs t n instances,
    resource = JObj kvs /\ dict_get "type" kvs = Some (JStr t) /\
    dict_get "name" kvs = Some (JStr n) /\
    dict_get "instances" kvs = Some (JList instances) /\
    Forall (fun i => well_formed_instance i = true) instances.
Proof.
  destruct resource as [| | | | |kvs]; simpl; try done.
  destruct (dict_get "type" kvs) as [t|] eqn:Et; [|done].
  destruct (dict_get "name" kvs) as [n|] eqn:En; [|done].
  destruct (dict_get "instances" kvs) as [[| | | |instances|]|] eqn:Ei; try done.
  destruct t; try done. destruct n; try done. simpl.
  intros H. apply Is_true_true, forallb_True in H.
  eexists _, _, _, _. split_and!; try done.
  eapply Forall_impl; [exact H|]. intros i Hi. by apply Is_true_true.
Qed.

Lemma well_formed_state_inv state_data :
  well_formed_state state_data = true ->
  exists kvs resources,
    state_data = JObj kvs /\ dict_get "resources" kvs = Some (JList resources) /\
    Forall (fun r => well_formed_resource r = true) resources.
Proof.
  destruct state_data as [| | | | |kvs]; simpl; try done.
  destruct (dict_get "resources" kvs) as [[| | | |resources|]|] eqn:E; try done.
  intros H. apply Is_true_true, forallb_True in H.
  eexists _, _. split_and!; try done.
  eapply Forall_impl; [exact H|]. intros r Hr. by apply Is_true_true.
Qed.

(** On a well-formed state every instance yields its entry. *)
Lemma instance_entries_total entry state_data :
  (forall resource_type resource instance,
     well_formed_resource resource = true ->
     well_formed_instance instance = true ->
     exists e, entry resource_type resource instance = Ok e) ->
  well_formed_state state_data = true ->
  exists es, instance_entries entry state_data = Ok es.
Proof.
  intros Hentry Hwf.
  apply well_formed_state_inv in Hwf as (kvs & resources & -> & Hres & Hall).
  unfold instance_entries. simpl. rewrite Hres. simpl.
  edestruct (mapM_total (fun resource =>
      resource_type ← subscript resource "type";
      instances ← subscript resource "instances";
      instances ← py_iter instances;
      mapM (entry resource_type resource) instances) resources) as [ess ->].
  - intros resource Hin. rewrite Forall_forall in Hall.
    pose proof (Hall _ Hin) as Hwf.
    apply well_formed_resource_inv in Hwf
      as (rkvs & t & n & instances & -> & Ht & Hn & Hi & Hinsts).
    simpl. rewrite Ht, Hi. simpl.
    apply mapM_total. intros instance Hinst.
    apply Hentry; [by apply Hall|].
    rewrite Forall_forall in Hinsts. by apply Hinsts.
  - by eexists.
Qed.

Lemma GCP_instance_entry_total resource_type resource instance :
  well_formed_resource resource = true ->
  well_formed_instance instance = true ->
  exists e, GCP.instance_entry resource_type resource instance = Ok e.
Proof.
  intros Hr Hi.
  apply well_formed_resource_inv in Hr as (rkvs & t & n & instances & -> & _ & Hn & _).
  apply well_formed_instance_inv in Hi as (ikvs & attrs & -> & Ha).
  unfold GCP.instance_entry. simpl. rewrite Ha, Hn. simpl. by eexists.
Qed.

Lemma OCI_instance_entry_total resource_type resource instance :
  well_formed_resource resource = true ->
  well_formed_instance instance = true ->
  exists e, OCI.instance_entry resource_type resource instance = Ok e.
Proof.
  intros Hr Hi.
  apply well_formed_resource_inv in Hr as (rkvs & t & n & instances & -> & _ & Hn & _).
  apply well_formed_instance_inv in Hi as (ikvs & attrs & -> & Ha).
  unfold OCI.instance_entry. simpl. rewrite Ha, Hn. simpl. by eexists.
Qed.

Lemma GCP_resources_of_state_total state_data :
  well_formed_state state_data = true ->
  exists resources, GCP.resources_of_state state_data = Ok resources.
Proof.
  intros Hwf. rewrite GCP_reader_as_writes.
  destruct (instance_entries_total _ _ GCP_instance_entry_total Hwf) as [es ->].
  by eexists.
Qed.

Lemma OCI_resources_of_state_total state_data :
  well_formed_state state_data = true ->
  exists resources, OCI.resources_of_state state_data = Ok resources.
Proof.
  intros Hwf. rewrite OCI_reader_as_writes.
  destruct (instance_entries_total _ _ OCI_instance_entry_total Hwf) as [es ->].
  by eexists.
Qed.

Lemma GCP_resources_of_state_table state_data resources :
  GCP.resources_of_state state_data = Ok resources ->
  NoDup (dict_keys resources) /\
  forall id r, (id, r) ∈ resources -> entry_of_instance state_data id r.
Proof.
  rewrite GCP_reader_as_writes. intros H. inv_ok. subst resources.
  eapply written_table; [|done]. apply GCP_instance_entry_spec.
Qed.

Lemma OCI_resources_of_state_table state_data resources :
  OCI.resources_of_state state_data = Ok resources ->
  NoDup (dict_keys resources) /\
  forall id r, (id, r) ∈ resources -> entry_of_instance state_data id r.
Proof.
  rewrite OCI_reader_as_writes. intros H. inv_ok. subst resources.
  eapply written_table; [|done]. apply OCI_instance_entry_spec.
Qed.

Lemma state_instances_elem state_data resource instance :
  (resource, instance) ∈ state_instances state_data <->
  state_instance state_data resource instance.
Proof.
  unfold state_instances, state_instance. rewrite list_elem_of_bind. split.
  - intros (resource' & Hin & Hres).
    apply list_elem_of_bind in Hin as (instance' & Hin & Hinst).
    apply list_elem_of_singleton in Hin as [= -> ->]. done.
  - intros [Hres Hinst]. exists resource. split; [|done].
    apply list_elem_of_bind. exists instance. split; [|done].
    by apply list_elem_of_singleton.
Qed.

Lemma Forall2_bind_join {A B C : Type} (R : B -> C -> Prop) (h : A -> list B)
    (xs : list A) (yss : list (list C)) :
  Forall2 (fun x ys => Forall2 R (h x) ys) xs yss ->
  Forall2 R (xs ≫= h) (mjoin yss).
Proof.
  induction 1 as [|x ys xs yss Hx _ IH]; csimpl; [constructor|].
  by apply Forall2_app.
Qed.

Lemma Forall2_bind_singleton {A B C : Type} (R : B -> C -> Prop) (h : A -> B)
    (xs : list A) (ys : list C) :
  Forall2 (fun x y => R (h x) y) xs ys ->
  Forall2 R (x ← xs; [h x]) ys.
Proof.
  induction 1 as [|x y xs ys Hx _ IH]; csimpl; [constructor|].
  by constructor.
Qed.

(** The writes of a reader are the records of the instances of the
    state, one for each instance and in their order. *)
Lemma instance_entries_records name_of entry state_data es :
  (forall resource_type resource instance id r,
     subscript resource "type" = Ok resource_type ->
     entry resource_type resource instance = Ok (id, r) ->
     record_of_instance name_of resource instance id r) ->
  instance_entries entry state_data = Ok es ->
  Forall2 (fun ri e => record_of_instance name_of ri.1 ri.2 e.1 e.2)
    (state_instances state_data) es.
Proof.
  intros Hentry. unfold instance_entries, state_instances, state_resources.
  intros H. inv_ok. subst es. rewrite Ha. simpl. rewrite Ha0.
  apply Forall2_bind_join. apply mapM_Ok_Forall2 in Ha1.
  eapply Forall2_impl; [exact Ha1|]. intros resource es' Hr. cbn beta in Hr.
  inv_ok. unfold resource_instances. rewrite Ha3. simpl. rewrite Ha4.
  apply Forall2_bind_singleton. apply mapM_Ok_Forall2 in Hr.
  eapply Forall2_impl; [exact Hr|]. intros instance [id r] He. simpl.
  by eapply Hentry.
Qed.

Lemma GCP_instance_entry_record resource_type resource instance id r :
  subscript resource "type" = Ok resource_type ->
  GCP.instance_entry resource_type resource instance = Ok (id, r) ->
  record_of_instance GCP_resource_name resource instance id r.
Proof.
  unfold GCP.instance_entry. intros Htype H. inv_ok.
  apply get_method_Ok in Ha0 as ->. simplify_eq. by exists a1.
Qed.

Lemma OCI_instance_entry_record resource_type resource instance id r :
  subscript resource "type" = Ok resource_type ->
  OCI.instance_entry resource_type resource instance = Ok (id, r) ->
  record_of_instance OCI_resource_name resource instance id r.
Proof.
  unfold OCI.instance_entry. intros Htype H. inv_ok.
  apply get_method_Ok in Ha0 as ->. simplify_eq. by exists a1.
Qed.

(** A table written from the records of the instances holds a key for
    every instance. *)
Lemma table_of_state_complete name_of state_data resources resource instance :
  table_of_state name_of state_data resources ->
  state_instance state_data resource instance ->
  exists id r,
    record_of_instance name_of resource instance id r /\
    is_Some (dict_get id resources).
Proof.
  intros (entries & HF & ->) Hinst.
  apply state_instances_elem, list_elem_of_lookup in Hinst as [i Hi].
  destruct (Forall2_lookup_l _ _ _ _ _ HF Hi) as ([id r] & He & Hrec).
  exists id, r. split; [done|].
  apply dict_get_is_Some, write_all_keys. left.
  apply list_elem_of_fmap. exists (id, r). split; [done|].
  apply list_elem_of_lookup. by exists i.
Qed.

Lemma GCP_resources_of_state_records state_data resources :
  GCP.resources_of_state state_data = Ok resources ->
  table_of_state GCP_resource_name state_data resources.
Proof.
  rewrite GCP_reader_as_writes. intros H. inv_ok. subst resources.
  exists a. split; [|done].
  eapply instance_entries_records; [|done]. apply GCP_instance_entry_record.
Qed.

Lemma OCI_resources_of_state_records state_data resources :
  OCI.resources_of_state state_data = Ok resources ->
  table_of_state OCI_resource_name state_data resources.
Proof.
  rewrite OCI_reader_as_writes. intros H. inv_ok. subst resources.
  exists a. split; [|done].
  eapply instance_entries_records; [|done]. apply OCI_instance_entry_record.
Qed.

(** C2: on every well-formed state document both scripts'
    [parse_terraform_state] return a table.  Whenever either returns a
    table, the file holds a JSON document, the keys of the table are
    pairwise distinct, and every entry [(id, r)] has [id] equal to
    ["<type>.<name>"] built from the type and name fields of [r] itself,
    with the type of a resource of the document and the attributes
    object of one of its instances.  And the table leaves no instance
    out: it is what the records of all the instances of the document,
    assigned in their order, leave in an empty dictionary, the record of
    an instance having its resource's type, its own attributes object
    and the name the script picks (its ['name'] attribute or else the
    resource's name; in the OCI script its ['display_name'] before
    both), so the key of every instance is in the table. *)
Theorem parse_terraform_state_table (fs : filesystem) (state_file : string) :
  (forall state_data,
     fs state_file = Some (JsonDocument state_data) ->
     well_formed_state state_data = true ->
     (exists resources, GCP.parse_terraform_state fs state_file = Ok resources) /\
     (exists resources, OCI.parse_terraform_state fs state_file = Ok resources)) /\
  (forall resources,
     GCP.parse_terraform_state fs state_file = Ok resources \/
     OCI.parse_terraform_state fs state_file = Ok resources ->
     exists state_data,
       fs state_file = Some (JsonDocument state_data) /\
       NoDup (dict_keys resources) /\
       forall id r, (id, r) ∈ resources -> entry_of_instance state_data id r) /\
  (forall resources,
     GCP.parse_terraform_state fs state_file = Ok resources ->
     exists state_data,
       fs state_file = Some (JsonDocument state_data) /\
       table_of_state GCP_resource_name state_data resources /\
       forall resource instance,
         state_instance state_data resource instance ->
         exists id r,
           record_of_instance GCP_resource_name resource instance id r /\
           is_Some (dict_get id resources)) /\
  (forall resources,
     OCI.parse_terraform_state fs state_file = Ok resources ->
     exists state_data,
       fs state_file = Some (JsonDocument state_data) /\
       table_of_state OCI_resource_name state_data resources /\
       forall resource instance,
         state_instance state_data resource instance ->
         exists id r,
           record_of_instance OCI_resource_name resource instance id r /\
           is_Some (dict_get id resources)).
Proof.
  split_and!.
  - intros state_data Hfile Hwf.
    unfold GCP.parse_terraform_state, OCI.parse_terraform_state.
    apply load_json_file_Ok in Hfile. rewrite Hfile. simpl. split.
    + by apply GCP_resources_of_state_total.
    + by apply OCI_resources_of_state_total.
  - unfold GCP.parse_terraform_state, OCI.parse_terraform_state.
    intros resources [H|H]; inv_ok; apply load_json_file_Ok in Ha;
      exists a; (split; [done|]).
    + by apply GCP_resources_of_state_table.
    + by apply OCI_resources_of_state_table.
  - unfold GCP.parse_terraform_state. intros resources H. inv_ok.
    apply load_json_file_Ok in Ha. exists a.
    pose proof (GCP_resources_of_state_records _ _ H) as Htable.
    split_and!; [done|done|]. intros resource instance.
    by apply table_of_state_complete.
  - unfold OCI.parse_terraform_state. intros resources H. inv_ok.
    apply load_json_file_Ok in Ha. exists a.
    pose proof (OCI_resources_of_state_records _ _ H) as Htable.
    split_and!; [done|done|]. intros resource instance.
    by apply table_of_state_complete.
Qed.

Lemma parse_terraform_state_table_witness :
  GCP.parse_terraform_state
    (single_file state_path (JsonDocument subnetwork_then_instance)) state_path
  = Ok subnetwork_then_instance_table /\
  NoDup (dict_keys subnetwork_then_instance_table) /\
  (forall id r, (id, r) ∈ subnetwork_then_instance_table ->
     entry_of_instance subnetwork_then_instance id r) /\
  table_of_state GCP_resource_name subnetwork_then_instance
    subnetwork_then_instance_table /\
  is_Some (dict_get "google_compute_instance.web" subnetwork_then_instance_table).
Proof.
  pose proof (parse_terraform_state_table
                (single_file state_path (JsonDocument subnetwork_then_instance))
                state_path) as (_ & Hsound & Hcomplete & _).
  destruct (Hsound subnetwork_then_instance_table (or_introl eq_refl))
    as (state_data & Hfile & Hnd & Hentries).
  injection Hfile as <-.
  destruct (Hcomplete subnetwork_then_instance_table eq_refl)
    as (state_data & Hfile & Htable & Hkeys).
  injection Hfile as <-.
  split_and!; [reflexivity|exact Hnd|exact Hentries|exact Htable|].
  destruct (Hkeys example_instance
              (tf_instance [("name", JStr "web");
                            ("subnetwork", JStr "projects/p/regions/r/subnetworks/sub")]))
    as (id & r & (default & Htype & Hdefault & Hattrs & Hname & ->) & Hkey).
  { split; [right; left|left]. }
  destruct r as [type name attrs]. simpl in *.
  injection Htype as <-. injection Hdefault as <-. injection Hattrs as <-.
  subst name. exact Hkey.
Defined.

(** ** The two readers agree unless there is a display name *)

Lemma no_display_name_instance state_data resource instance attrs :
  no_display_name state_data = true ->
  resource ∈ state_resources state_data ->
  instance ∈ resource_instances resource ->
  subscript instance "attributes" = Ok (JObj attrs) ->
  dict_get "display_name" attrs = None.
Proof.
  unfold no_display_name. intros H Hr Hi Ha.
  apply Is_true_true, forallb_True in H. rewrite Forall_forall in H.
  specialize (H _ Hr). apply forallb_True in H. rewrite Forall_forall in H.
  specialize (H _ Hi). unfold has_display_name in H. rewrite Ha in H.
  apply negb_True in H. rewrite bool_decide_spec in H.
  by apply eq_None_not_Some.
Qed.

Lemma resources_of_state_agree state_data :
  no_display_name state_data = true ->
  OCI.resources_of_state state_data = GCP.resources_of_state state_data.
Proof.
  intros Hno. unfold OCI.resources_of_state, GCP.resources_of_state.
  pose proof (no_display_name_instance state_data) as Hinst.
  unfold state_resources in Hinst.
  destruct (subscript state_data "resources") as [rs|err]; simpl in *; [|done].
  destruct (py_iter rs) as [rs_list|err]; simpl in *; [|done].
  apply for_each_ext. intros resource d Hres.
  specialize (Hinst resource). unfold resource_instances in Hinst.
  destruct (subscript resource "type") as [rt|err]; simpl; [|done].
  destruct (subscript resource "instances") as [insts|err]; simpl in *; [|done].
  destruct (py_iter insts) as [insts_list|err]; simpl in *; [|done].
  apply for_each_ext. intros instance d' Hin.
  unfold OCI.instance_entry, GCP.instance_entry.
  destruct (subscript instance "attributes") as [a|err] eqn:Ha; simpl; [|done].
  destruct (get_method a) as [attrs|err] eqn:Hg; simpl; [|done].
  apply get_method_Ok in Hg as ->.
  destruct (subscript resource "name") as [default|err]; simpl; [|done].
  unfold dict_get_default at 1 3.
  by rewrite (Hinst instance attrs Hno Hres Hin Ha).
Qed.

(** C4: on a state file in which no instance's attributes have a
    ['display_name'] key, the OCI script's [parse_terraform_state]
    returns what the GCP script's returns: the same table, or the same
    exception. *)
Theorem readers_agree_without_display_name (fs : filesystem) (state_file : string) :
  (forall state_data,
     fs state_file = Some (JsonDocument state_data) ->
     no_display_name state_data = true) ->
  OCI.parse_terraform_state fs state_file = GCP.parse_terraform_state fs state_file.
Proof.
  intros Hno. unfold OCI.parse_terraform_state, GCP.parse_terraform_state.
  destruct (load_json_file fs state_file) as [state_data|err] eqn:Hload; simpl; [|done].
  apply resources_of_state_agree, Hno. by apply load_json_file_Ok.
Qed.

Lemma readers_agree_without_display_name_witness :
  OCI.parse_terraform_state
    (single_file state_path (JsonDocument subnetwork_then_instance)) state_path
  = GCP.parse_terraform_state
      (single_file state_path (JsonDocument subnetwork_then_instance)) state_path.
Proof.
  apply readers_agree_without_display_name.
  intros state_data Hfile. injection Hfile as <-. reflexivity.
Defined.

(** ** Colliding ids *)

Lemma write_all_later_overwrites entry state_data entries :
  (forall resource_type resource instance id r,
     entry resource_type resource instance = Ok (id, r) ->
     id = make_id (res_type r) (res_name r) /\ res_type r = resource_type /\
     subscript instance "attributes" = Ok (JObj (res_attributes r))) ->
  instance_entries entry state_data = Ok entries ->
  later_overwrites entries (write_all entries []).
Proof.
  intros Hentry Hes i j id1 r1 id2 r2 Hij Hi Hj Htype Hname.
  assert (Hid : forall (n : nat) id r, entries !! n = Some (id, r) ->
                  id = make_id (res_type r) (res_name r)).
  { intros n id r Hn.
    destruct (instance_entries_elem entry state_data entries (id, r) Hes)
      as (resource & instance & rt & _ & _ & He).
    - apply list_elem_of_lookup. by exists n.
    - by apply Hentry in He as (-> & _). }
  assert (id1 = id2) as ->.
  { rewrite (Hid _ _ _ Hi), (Hid _ _ _ Hj). by rewrite Htype, Hname. }
  split; [done|].
  pose proof (take_drop_middle _ _ _ Hj) as Hsplit.
  split.
  - rewrite <- Hsplit.
    apply (write_all_length_collision (take j entries) (drop (S j) entries) (id2, r2) []).
    simpl. apply list_elem_of_fmap. exists (id2, r1). split; [done|].
    apply list_elem_of_lookup. exists i. by rewrite lookup_take_lt.
  - intros Hlast. rewrite <- Hsplit.
    replace (take j entries ++ (id2, r2) :: drop (S j) entries)
      with ((take j entries ++ [(id2, r2)]) ++ drop (S j) entries)
      by (by rewrite <- app_assoc).
    rewrite write_all_app, write_all_snoc, write_all_get_other.
    + apply dict_get_set_eq.
    + intros e He. apply list_elem_of_lookup in He as [k Hk].
      rewrite lookup_drop in Hk. apply (Hlast (S j + k)%nat); [lia|done].
Qed.

(** C8: in both scripts, when every instance of the state yields its
    entry the reader returns the table those entries write, in order,
    and reports no error; two instances with the same type and name
    have the same key, so the table has fewer entries than the state
    has instances, and the table holds the record of the last of them. *)
Theorem colliding_ids_overwrite (state_data : json)
    (entries : list (string * tf_resource)) :
  (instance_entries GCP.instance_entry state_data = Ok entries ->
   GCP.resources_of_state state_data = Ok (write_all entries []) /\
   later_overwrites entries (write_all entries [])) /\
  (instance_entries OCI.instance_entry state_data = Ok entries ->
   OCI.resources_of_state state_data = Ok (write_all entries []) /\
   later_overwrites entries (write_all entries [])).
Proof.
  split; intros Hes.
  - rewrite GCP_reader_as_writes, Hes. split; [done|].
    eapply write_all_later_overwrites; [|done]. apply GCP_instance_entry_spec.
  - rewrite OCI_reader_as_writes, Hes. split; [done|].
    eapply write_all_later_overwrites; [|done]. apply OCI_instance_entry_spec.
Qed.

Lemma colliding_ids_overwrite_witness :
  GCP.resources_of_state duplicate_state
  = Ok [("google_project_iam_member.editors", duplicate_second)] /\
  dict_get "google_project_iam_member.editors"
    (write_all [("google_project_iam_member.editors", duplicate_first);
                ("google_project_iam_member.editors", duplicate_second)] [])
  = Some duplicate_second.
Proof.
  destruct (proj1 (colliding_ids_overwrite duplicate_state
                     [("google_project_iam_member.editors", duplicate_first);
                      ("google_project_iam_member.editors", duplicate_second)])
              eq_refl) as [Htable Hover].
  split; [exact Htable|].
  destruct (Hover 0%nat 1%nat _ _ _ _ ltac:(lia) eq_refl eq_refl eq_refl eq_refl)
    as (_ & _ & Hlast).
  apply Hlast. intros [|[|k]] e Hk He; try lia; discriminate He.
Defined.

(** ** Icon classes *)

(** The names in both dictionary displays are bound. *)
Lemma gcp_mappings_display_value :
  dict_display GCP.imports GCP.gcp_mappings_display = Ok gcp_mappings.
Proof. reflexivity. Qed.

Lemma oci_mappings_display_value :
  dict_display OCI.imports OCI.oci_mappings_display = Ok oci_mappings.
Proof. reflexivity. Qed.

(** The OCI script returns a class for every type string: the one of
    the table, or [Datacenter]. *)
Lemma OCI_map_resource_to_icon_string (resource_type : string) :
  OCI.map_resource_to_icon (JStr resource_type)
  = Ok (dict_get_default resource_type generic_Datacenter oci_mappings).
Proof.
  unfold OCI.map_resource_to_icon. rewrite oci_mappings_display_value. done.
Qed.

(** The GCP script on a type string: the class of the table, or the
    fallback of the first substring that occurs; the fallback for
    ['network'] reads the unbound name [Switch]. *)
Lemma GCP_map_resource_to_icon_string (resource_type : string) :
  GCP.map_resource_to_icon (JStr resource_type)
  = match dict_get resource_type gcp_mappings with
    | Some c => Ok c
    | None =>
        if str_contains "compute" resource_type then Ok generic_Rack
        else if str_contains "network" resource_type then Raise (NameError "Switch")
        else if str_contains "storage" resource_type then Ok generic_Storage
        else if str_contains "database" resource_type then Ok generic_SQL
        else if str_contains "security" resource_type
                || str_contains "iam" resource_type then Ok gcp_Iam
        else if str_contains "project" resource_type
                || str_contains "resource_manager" resource_type
             then Ok gcp_ResourceManager
        else Ok generic_Datacenter
    end.
Proof.
  unfold GCP.map_resource_to_icon. rewrite gcp_mappings_display_value.
  cbn [mbind result_bind dict_contains check_hashable].
  destruct (dict_get resource_type gcp_mappings) as [c|] eqn:Hget.
  - rewrite bool_decide_eq_true_2 by done.
    unfold dict_subscript. cbn [mbind result_bind check_hashable]. by rewrite Hget.
  - rewrite bool_decide_eq_false_2 by (by intros [? ?]).
    unfold py_or, py_in. cbn [mbind result_bind mret result_ret].
    repeat match goal with
           | |- context [str_contains ?a resource_type] =>
               destruct (str_contains a resource_type); cbn [orb]; try done
           end.
Qed.

(** C1: the GCP script's [map_resource_to_icon] fails on a type string
    that is not in its table, does not contain ['compute'] and contains
    ['network']: the fallback reads the name [Switch], which gcp.py
    never imports. *)
Theorem gcp_network_fallback_raises :
  GCP.map_resource_to_icon (JStr "google_network_connectivity_hub")
  = Raise (NameError "Switch").
Proof. reflexivity. Qed.

(** ** The edges that are drawn *)

Lemma elem_of_draw_connections nodes connections source_id target_id :
  (source_id, target_id) ∈ draw_connections nodes connections <->
  exists target_ids,
    (source_id, target_ids) ∈ connections /\ target_id ∈ target_ids /\
    is_Some (dict_get source_id nodes) /\ is_Some (dict_get target_id nodes) /\
    source_id <> target_id.
Proof.
  unfold draw_connections. rewrite list_elem_of_bind. split.
  - intros ([s ts] & Hin & Hconn). apply list_elem_of_bind in Hin as (t & Hin & Ht).
    destruct (bool_decide (is_Some (dict_get s nodes))) eqn:Hs;
      destruct (bool_decide (is_Some (dict_get t nodes))) eqn:Hn;
      destruct (bool_decide (s <> t)) eqn:Hne; simpl in Hin;
      try (by apply elem_of_nil in Hin).
    apply list_elem_of_singleton in Hin as [= -> ->].
    apply bool_decide_eq_true in Hs, Hn, Hne.
    exists ts. split_and!; try done. by apply elem_of_elements.
  - intros (ts & Hconn & Ht & Hs & Hn & Hne).
    exists (source_id, ts). split; [|done].
    apply list_elem_of_bind. exists target_id. split; [|by apply elem_of_elements].
    rewrite !bool_decide_eq_true_2 by done. simpl. by left.
Qed.

(** C10: whatever the node table and the connections map hold, every
    edge the last loop of [generate_diagram] draws joins two distinct
    ids that are both keys of the node table; in particular no edge is a
    self-edge. *)
Theorem drawn_edges_are_proper (nodes : dict node)
    (connections : dict (gset string)) :
  Forall (fun edge => edge.1 <> edge.2 /\
                      is_Some (dict_get edge.1 nodes) /\
                      is_Some (dict_get edge.2 nodes))
    (draw_connections nodes connections).
Proof.
  apply Forall_forall. intros [s t] Hin.
  apply elem_of_draw_connections in Hin as (ts & _ & _ & Hs & Ht & Hne).
  done.
Qed.

(** ** Connections only grow *)

Lemma extends_refl c : extends c c.
Proof. intros k. destruct (dict_get k c) as [s|]; [by exists s|done]. Qed.

Lemma extends_trans c1 c2 c3 : extends c1 c2 -> extends c2 c3 -> extends c1 c3.
Proof.
  intros H12 H23 k. specialize (H12 k). specialize (H23 k).
  destruct (dict_get k c1) as [s1|].
  - destruct H12 as (s2 & Hs2 & Hsub). rewrite Hs2 in H23.
    destruct H23 as (s3 & Hs3 & Hsub'). exists s3. split; [done|set_solver].
  - by rewrite H12 in H23.
Qed.

Lemma extends_connected c c' k x : extends c c' -> connected c k x -> connected c' k x.
Proof.
  intros Hext (s & Hs & Hx). specialize (Hext k). rewrite Hs in Hext.
  destruct Hext as (s' & Hs' & Hsub). exists s'. split; [done|set_solver].
Qed.

Lemma extends_is_Some c c' k :
  extends c c' -> is_Some (dict_get k c') <-> is_Some (dict_get k c).
Proof.
  intros Hext. specialize (Hext k). destruct (dict_get k c) as [s|].
  - destruct Hext as (s' & -> & _). split; by eexists.
  - rewrite Hext. done.
Qed.

Lemma add_connection_extends k x c c' : add_connection k x c = Ok c' -> extends c c'.
Proof.
  unfold add_connection. destruct (dict_get k c) as [s|] eqn:Hs; [|done].
  intros [= <-] k'. rewrite dict_get_set. case_decide as Hk.
  - subst k'. rewrite Hs. eexists. split; [done|set_solver].
  - destruct (dict_get k' c) as [s'|]; [by exists s'|done].
Qed.

Lemma add_connection_connected k x c c' :
  add_connection k x c = Ok c' -> connected c' k x.
Proof.
  unfold add_connection. destruct (dict_get k c) as [s|] eqn:Hs; [|done].
  intros [= <-]. eexists. rewrite dict_get_set_eq. split; [done|set_solver].
Qed.

Lemma add_connection_total k x c :
  is_Some (dict_get k c) -> exists c', add_connection k x c = Ok c'.
Proof. intros [s Hs]. unfold add_connection. rewrite Hs. by eexists. Qed.

Lemma for_each_extends {A : Type} (xs : list A)
    (body : A -> dict (gset string) -> result (dict (gset string))) c c' :
  (forall x t t', x ∈ xs -> body x t = Ok t' -> extends t t') ->
  for_each xs body c = Ok c' -> extends c c'.
Proof.
  intros Hbody. apply (for_each_invariant (extends c)).
  - intros x t t' Hx Ht Hstep. eapply extends_trans; [exact Ht|]. by eapply Hbody.
  - apply extends_refl.
Qed.

(** A step of a loop, or a sequence of steps, that only adds connections. *)
Ltac solve_extends :=
  lazymatch goal with
  | |- extends ?c ?c => apply extends_refl
  | H : ?e = Ok ?c' |- extends ?c ?c' =>
      lazymatch e with
      | Ok _ => injection H as <-; apply extends_refl
      | mret _ => injection H as <-; apply extends_refl
      | Raise _ => discriminate H
      | add_connection _ _ _ => exact (add_connection_extends _ _ _ _ H)
      | for_each _ _ _ =>
          let x := fresh "x" in
          let t := fresh "t" in
          let t' := fresh "t'" in
          let Hx := fresh "Hx" in
          eapply for_each_extends; [|exact H]; clear H;
          intros x t t' _ Hx; try destruct x; cbn beta iota zeta in Hx;
          solve_extends
      | _ ≫= _ =>
          let a := fresh "a" in
          let Ha := fresh "Ha" in
          apply bind_Ok in H as (a & Ha & H); cbn beta iota zeta in H;
          first [ apply (extends_trans c a c'); [clear H|clear Ha]; solve_extends
                | clear Ha; solve_extends ]
      | (if ?b then _ else _) => destruct b eqn:?; solve_extends
      | match ?v with _ => _ end => destruct v; solve_extends
      | _ =>
          progress unfold GCP.add_if, GCP.common_attribute_connections,
            GCP.specific_connections, OCI.add_both, OCI.connect_by_id,
            OCI.connect_all_of_type, OCI.specific_connections in H;
          cbn beta iota zeta in H; solve_extends
      end
  end.

Lemma GCP_common_attribute_connections_extends resources resource_id resource c c' :
  GCP.common_attribute_connections resources resource_id resource c = Ok c' ->
  extends c c'.
Proof. intros H. solve_extends. Qed.

Lemma GCP_specific_connections_extends resources resource_id resource c c' :
  GCP.specific_connections resources resource_id resource c = Ok c' ->
  extends c c'.
Proof. intros H. solve_extends. Qed.

Lemma OCI_connect_by_id_extends resources resource_id resource key target c c' :
  OCI.connect_by_id resources resource_id resource key target c = Ok c' ->
  extends c c'.
Proof. intros H. solve_extends. Qed.

Lemma OCI_connect_all_of_type_extends resources resource_id target c c' :
  OCI.connect_all_of_type resources resource_id target c = Ok c' ->
  extends c c'.
Proof. intros H. solve_extends. Qed.

Lemma OCI_specific_connections_extends resources resource_id resource c c' :
  OCI.specific_connections resources resource_id resource c = Ok c' ->
  extends c c'.
Proof. intros H. solve_extends. Qed.

(** ** Types and names of resources *)

Lemma py_eq_string (v : json) (s : string) : py_eq v (JStr s) = true <-> v = JStr s.
Proof.
  destruct v as [|b|n|t|xs|kvs]; simpl; try (split; [done|discriminate]).
  rewrite bool_decide_eq_true. split; congruence.
Qed.

Lemma GCP_has_type_true r t : GCP.has_type r t = true <-> res_type r = JStr t.
Proof. apply py_eq_string. Qed.

Lemma OCI_has_type_true r t : OCI.has_type r t = true <-> res_type r = JStr t.
Proof. apply py_eq_string. Qed.

Lemma GCP_has_type_other r t t' :
  GCP.has_type r t = true -> t <> t' -> GCP.has_type r t' = false.
Proof.
  rewrite GCP_has_type_true. intros Ht Hne.
  apply not_true_is_false. rewrite GCP_has_type_true, Ht. congruence.
Qed.

Lemma OCI_has_type_other r t t' :
  OCI.has_type r t = true -> t <> t' -> OCI.has_type r t' = false.
Proof.
  rewrite OCI_has_type_true. intros Ht Hne.
  apply not_true_is_false. rewrite OCI_has_type_true, Ht. congruence.
Qed.

(** ** The node table *)

Lemma dict_set_is_Some {V : Type} (d : dict V) k v k' :
  is_Some (dict_get k' d) -> is_Some (dict_get k' (dict_set k v d)).
Proof. intros H. rewrite dict_get_set. by case_decide. Qed.

Lemma new_node_Ok icon label n :
  new_node icon label = Ok n <-> n = mk_node icon label /\ is_string label = true.
Proof.
  destruct label; simpl; split; try done; try (by intros [_ ?]).
  - by intros [= <-].
  - by intros [-> _].
Qed.

Lemma new_node_string icon label :
  is_string label = true -> new_node icon label = Ok (mk_node icon label).
Proof. intros H. by apply new_node_Ok. Qed.

Lemma new_node_raises icon label :
  is_string label = false -> exists e, new_node icon label = Raise e.
Proof. destruct label; simpl; try done; by eexists. Qed.

Lemma create_nodes_keys
    (icon : json -> result icon_class) resources nodes resource_id resource :
  for_each resources (fun '(resource_id, resource) nodes =>
      icon_class ← icon (res_type resource);
      node ← new_node icon_class (res_name resource);
      mret (dict_set resource_id node nodes)) []
    = Ok nodes ->
  (resource_id, resource) ∈ resources ->
  is_Some (dict_get resource_id nodes).
Proof.
  intros Hrun Hin.
  eapply (for_each_establish (fun nodes => is_Some (dict_get resource_id nodes)));
    [exact Hin| | |exact Hrun].
  - intros t t' H. cbn beta iota in H. inv_ok. subst t'.
    rewrite dict_get_set_eq. by eexists.
  - intros [k r] t t' _ Ht H. cbn beta iota in H. inv_ok. subst t'.
    by apply dict_set_is_Some.
Qed.

(** ** One iteration of the GCP connection loop *)

Lemma GCP_infer_connections_steps resources :
  GCP.infer_connections resources
  = for_each resources (fun x c => GCP_step resources x.1 x.2 c) [].
Proof.
  unfold GCP.infer_connections. apply for_each_ext. by intros [k r] t _.
Qed.

Lemma GCP_step_extends resources resource_id resource c c' :
  GCP_step resources resource_id resource c = Ok c' ->
  extends (dict_set resource_id ∅ c) c'.
Proof.
  unfold GCP_step. cbn zeta. intros H. inv_ok.
  eapply extends_trans.
  - by eapply GCP_common_attribute_connections_extends.
  - by eapply GCP_specific_connections_extends.
Qed.

(** The iteration of another resource keeps a connection. *)
Lemma GCP_step_keeps resources resource_id resource c c' k x :
  GCP_step resources resource_id resource c = Ok c' ->
  k <> resource_id -> connected c k x -> connected c' k x.
Proof.
  intros Hstep Hne (s & Hs & Hx).
  eapply extends_connected; [by eapply GCP_step_extends|].
  exists s. by rewrite dict_get_set_ne.
Qed.

(** The keys after an iteration: those before it, and the resource's own. *)
Lemma GCP_step_keys resources resource_id resource c c' k :
  GCP_step resources resource_id resource c = Ok c' ->
  is_Some (dict_get k c') <-> k = resource_id \/ is_Some (dict_get k c).
Proof.
  intros Hstep. rewrite (extends_is_Some _ _ k (GCP_step_extends _ _ _ _ _ Hstep)).
  rewrite dict_get_set. case_decide as Hk.
  - subst. split; [by left|by eexists].
  - split; [by right|]. by intros [?|?].
Qed.

(** Before the iteration of a resource its id is no key of [connections]. *)
Lemma GCP_steps_keys resources (pre : dict tf_resource) c k :
  for_each pre (fun x c => GCP_step resources x.1 x.2 c) [] = Ok c ->
  is_Some (dict_get k c) -> k ∈ dict_keys pre.
Proof.
  intros Hrun. revert k.
  eapply (for_each_invariant
            (fun c => forall k, is_Some (dict_get k c) -> k ∈ dict_keys pre));
    [| |exact Hrun].
  - intros [k' r'] t t' Hin Ht Hstep k0. simpl in Hstep.
    rewrite (GCP_step_keys _ _ _ _ _ _ Hstep). intros [->|H]; [|by apply Ht].
    apply list_elem_of_fmap. by exists (k', r').
  - intros k0 [? H]. discriminate H.
Qed.

(** The iterations after that of [resource_id] keep what it connected,
    as long as they are for other resources. *)
Lemma GCP_steps_keep resources (post : dict tf_resource) c c' (P : list (string * string)) :
  for_each post (fun x c => GCP_step resources x.1 x.2 c) c = Ok c' ->
  (forall kx, kx ∈ P -> kx.1 ∉ dict_keys post) ->
  (forall kx, kx ∈ P -> connected c kx.1 kx.2) ->
  forall kx, kx ∈ P -> connected c' kx.1 kx.2.
Proof.
  intros Hrun Hfresh Hc.
  eapply (for_each_invariant
            (fun c => forall kx, kx ∈ P -> connected c kx.1 kx.2));
    [|exact Hc|exact Hrun].
  intros [k' r'] t t' Hin Ht Hstep kx Hkx. simpl in Hstep.
  eapply GCP_step_keeps; [exact Hstep| |by apply Ht].
  intros Heq. apply (Hfresh kx Hkx). apply list_elem_of_fmap.
  exists (k', r'). by split.
Qed.

(** The firewall branch connects the firewall to every other instance. *)
Lemma GCP_firewall_step resources firewall_id firewall instance_id instance c c' :
  GCP_step resources firewall_id firewall c = Ok c' ->
  GCP.has_type firewall "google_compute_firewall" = true ->
  (instance_id, instance) ∈ resources ->
  GCP.has_type instance "google_compute_instance" = true ->
  instance_id <> firewall_id ->
  connected c' firewall_id instance_id.
Proof.
  unfold GCP_step. cbn zeta. intros H Hfw Hin Hinst Hne. inv_ok. clear Ha.
  unfold GCP.specific_connections in H.
  rewrite (GCP_has_type_other _ _ "google_compute_instance" Hfw) in H by done.
  rewrite (GCP_has_type_other _ _ "google_compute_subnetwork" Hfw) in H by done.
  rewrite Hfw in H. inv_ok.
  eapply (for_each_establish (fun c => connected c firewall_id instance_id));
    [exact Hin| | |exact H].
  - intros t t'. cbn beta iota. rewrite bool_decide_eq_true_2 by done.
    rewrite Hinst. intros Ht. inv_ok. by eapply add_connection_connected.
  - intros [k r] t t' _ Ht Hstep. cbn beta iota in Hstep.
    eapply extends_connected; [|exact Ht]. solve_extends.
Qed.

(** The instance branch connects the instance and its subnetwork both ways. *)
Lemma GCP_instance_step resources instance_id instance subnet_id subnet segment c c' :
  GCP_step resources instance_id instance c = Ok c' ->
  GCP.has_type instance "google_compute_instance" = true ->
  (subnet_id, subnet) ∈ resources ->
  GCP.has_type subnet "google_compute_subnetwork" = true ->
  subnet_id <> instance_id ->
  split_last "/" (GCP.attribute instance "subnetwork") = Ok segment ->
  GCP.has_name subnet segment = true ->
  connected c' instance_id subnet_id /\ connected c' subnet_id instance_id.
Proof.
  unfold GCP_step. cbn zeta. intros H Hinst Hin Hsub Hne Hseg Hname. inv_ok. clear Ha.
  unfold GCP.specific_connections in H. rewrite Hinst, Hseg in H.
  cbn [mbind result_bind] in H. inv_ok.
  eapply (for_each_establish
            (fun c => connected c instance_id subnet_id /\
                      connected c subnet_id instance_id));
    [exact Hin| | |exact H].
  - intros t t'. cbn beta iota. rewrite bool_decide_eq_true_2 by done.
    rewrite Hsub, Hname. cbn [andb]. intros Ht.
    apply bind_Ok in Ht as (c2 & Hpair & Hnet).
    apply bind_Ok in Hpair as (c1 & Hfwd & Hback).
    assert (extends c2 t') as Hext by solve_extends.
    split; (eapply extends_connected; [exact Hext|]).
    + eapply extends_connected; [by eapply add_connection_extends|].
      by eapply add_connection_connected.
    + by eapply add_connection_connected.
  - intros [k r] t t' _ [Ht1 Ht2] Hstep. cbn beta iota in Hstep.
    assert (extends t t') as Hext by solve_extends.
    split; by eapply extends_connected.
Qed.

(** ** The GCP connection loop as a whole *)

Lemma dict_keys_middle {V : Type} (pre post : dict V) (k : string) (v : V) :
  NoDup (dict_keys (pre ++ (k, v) :: post)) ->
  (k ∉ dict_keys post) /\ (forall k', k' ∈ dict_keys pre -> k' ∉ dict_keys post).
Proof.
  unfold dict_keys. rewrite fmap_app, fmap_cons. simpl.
  rewrite NoDup_app, NoDup_cons. intros (_ & Hdisj & Hk & _). split; [done|].
  intros k' Hpre Hpost. apply (Hdisj k' Hpre). by right.
Qed.

Lemma GCP_steps_firewall resources xs c firewall_id firewall instance_id instance :
  NoDup (dict_keys xs) ->
  for_each xs (fun x c => GCP_step resources x.1 x.2 c) [] = Ok c ->
  (firewall_id, firewall) ∈ xs ->
  (instance_id, instance) ∈ resources ->
  GCP.has_type firewall "google_compute_firewall" = true ->
  GCP.has_type instance "google_compute_instance" = true ->
  instance_id <> firewall_id ->
  connected c firewall_id instance_id.
Proof.
  intros Hnd Hrun Hfw Hin Htf Hti Hne.
  apply list_elem_of_split in Hfw as (pre & post & ->).
  apply dict_keys_middle in Hnd as [Hpost _].
  rewrite for_each_app in Hrun. simpl in Hrun.
  apply bind_Ok in Hrun as (c1 & _ & Hrun).
  apply bind_Ok in Hrun as (c2 & Hstep & Hrun).
  apply (GCP_steps_keep resources post c2 c [(firewall_id, instance_id)] Hrun)
    with (kx := (firewall_id, instance_id)).
  - intros kx Hkx. by apply list_elem_of_singleton in Hkx as ->.
  - intros kx Hkx. apply list_elem_of_singleton in Hkx as ->. simpl.
    by eapply GCP_firewall_step.
  - by apply list_elem_of_singleton.
Qed.

Lemma GCP_steps_instance_subnetwork resources xs c
    instance_id instance subnet_id subnet segment :
  NoDup (dict_keys xs) ->
  for_each xs (fun x c => GCP_step resources x.1 x.2 c) [] = Ok c ->
  (instance_id, instance) ∈ xs ->
  (subnet_id, subnet) ∈ resources ->
  GCP.has_type instance "google_compute_instance" = true ->
  GCP.has_type subnet "google_compute_subnetwork" = true ->
  subnet_id <> instance_id ->
  split_last "/" (GCP.attribute instance "subnetwork") = Ok segment ->
  GCP.has_name subnet segment = true ->
  connected c instance_id subnet_id /\ connected c subnet_id instance_id.
Proof.
  intros Hnd Hrun Hi Hs Hti Hts Hne Hseg Hname.
  apply list_elem_of_split in Hi as (pre & post & ->).
  apply dict_keys_middle in Hnd as [Hpost Hdisj].
  rewrite for_each_app in Hrun. simpl in Hrun.
  apply bind_Ok in Hrun as (c1 & Hpre & Hrun).
  apply bind_Ok in Hrun as (c2 & Hstep & Hrun).
  destruct (GCP_instance_step _ _ _ _ _ _ _ _ Hstep Hti Hs Hts Hne Hseg Hname)
    as [Hfwd Hback].
  assert (subnet_id ∉ dict_keys post) as Hsub.
  { apply Hdisj. eapply GCP_steps_keys; [exact Hpre|].
    destruct Hback as (s & Hget & _).
    assert (is_Some (dict_get subnet_id c2)) as Hkey by (by eexists).
    apply (GCP_step_keys _ _ _ _ _ _ Hstep) in Hkey as [?|?]; done. }
  pose proof (GCP_steps_keep resources post c2 c
                [(instance_id, subnet_id); (subnet_id, instance_id)] Hrun) as Hkeep.
  assert (forall kx, kx ∈ [(instance_id, subnet_id); (subnet_id, instance_id)] ->
            kx = (instance_id, subnet_id) \/ kx = (subnet_id, instance_id)) as Hcases.
  { intros kx Hkx. apply elem_of_cons in Hkx as [->|Hkx]; [by left|].
    apply list_elem_of_singleton in Hkx as ->. by right. }
  split.
  - apply (Hkeep) with (kx := (instance_id, subnet_id)); [| |by left];
      intros kx Hkx; destruct (Hcases kx Hkx) as [-> | ->]; done.
  - apply (Hkeep) with (kx := (subnet_id, instance_id)); [| |right; by left];
      intros kx Hkx; destruct (Hcases kx Hkx) as [-> | ->]; done.
Qed.

(** C3, as amended: in the GCP script, when connection inference
    completes on a table with distinct keys, every instance and every
    other resource that is a subnetwork whose name equals the last
    ['/']-separated segment of the instance's ['subnetwork'] attribute
    are connected in both directions. *)
Theorem instance_subnetwork_connected (resources : dict tf_resource)
    (connections : dict (gset string)) instance_id instance subnet_id subnet segment :
  NoDup (dict_keys resources) ->
  GCP.infer_connections resources = Ok connections ->
  (instance_id, instance) ∈ resources ->
  (subnet_id, subnet) ∈ resources ->
  GCP.has_type instance "google_compute_instance" = true ->
  GCP.has_type subnet "google_compute_subnetwork" = true ->
  subnet_id <> instance_id ->
  split_last "/" (GCP.attribute instance "subnetwork") = Ok segment ->
  GCP.has_name subnet segment = true ->
  connected connections instance_id subnet_id /\
  connected connections subnet_id instance_id.
Proof.
  rewrite GCP_infer_connections_steps. intros Hnd Hrun.
  by apply GCP_steps_instance_subnetwork.
Qed.

Lemma connectedb_true connections k x :
  connectedb connections k x = true <-> connected connections k x.
Proof.
  unfold connectedb, connected. destruct (dict_get k connections) as [s|].
  - rewrite bool_decide_eq_true. split; [by exists s|]. by intros (s' & [= <-] & ?).
  - split; [done|]. by intros (s' & ? & _).
Qed.

Lemma example_tables :
  GCP.resources_of_state subnetwork_then_instance = Ok subnetwork_then_instance_table /\
  GCP.resources_of_state substring_state = Ok substring_table /\
  GCP.resources_of_state firewall_state = Ok firewall_table /\
  OCI.resources_of_state oci_state = Ok oci_table.
Proof. repeat split. Qed.

Lemma example_tables_NoDup :
  NoDup (dict_keys subnetwork_then_instance_table) /\
  NoDup (dict_keys substring_table) /\
  NoDup (dict_keys firewall_table) /\
  NoDup (dict_keys oci_table).
Proof.
  destruct example_tables as (H1 & H2 & H3 & H4).
  split_and!.
  - exact (proj1 (GCP_resources_of_state_table _ _ H1)).
  - exact (proj1 (GCP_resources_of_state_table _ _ H2)).
  - exact (proj1 (GCP_resources_of_state_table _ _ H3)).
  - exact (proj1 (OCI_resources_of_state_table _ _ H4)).
Qed.

Lemma instance_subnetwork_connected_witness :
  exists connections,
    GCP.infer_connections subnetwork_then_instance_table = Ok connections /\
    connected connections "google_compute_instance.web" "google_compute_subnetwork.sub" /\
    connected connections "google_compute_subnetwork.sub" "google_compute_instance.web".
Proof.
  assert (exists c, GCP.infer_connections subnetwork_then_instance_table = Ok c)
    as [c Hc] by (vm_compute; by eexists).
  exists c. split; [exact Hc|].
  apply (instance_subnetwork_connected subnetwork_then_instance_table c
           "google_compute_instance.web"
           (web_instance "projects/p/regions/r/subnetworks/sub")
           "google_compute_subnetwork.sub" (subnetwork_named "sub") "sub").
  - exact (proj1 example_tables_NoDup).
  - exact Hc.
  - right. left.
  - left.
  - reflexivity.
  - reflexivity.
  - discriminate.
  - reflexivity.
  - reflexivity.
Defined.

(** C3, as stated, fails: the subnetwork is named ["a"], the last
    segment of the instance's subnetwork path is ["ab"], and still the
    two are connected in both directions, by the rules that look for
    the name inside attribute values (gcp.py, lines 98-102 and 122-123). *)
Lemma substring_connects_without_equality :
  exists connections,
    GCP.infer_connections substring_table = Ok connections /\
    ("google_compute_instance.web",
     web_instance "projects/p/regions/r/subnetworks/ab") ∈ substring_table /\
    ("google_compute_subnetwork.a", subnetwork_named "a") ∈ substring_table /\
    GCP.has_type (web_instance "projects/p/regions/r/subnetworks/ab")
      "google_compute_instance" = true /\
    GCP.has_type (subnetwork_named "a") "google_compute_subnetwork" = true /\
    split_last "/" (GCP.attribute (web_instance "projects/p/regions/r/subnetworks/ab")
                      "subnetwork") = Ok "ab" /\
    GCP.has_name (subnetwork_named "a") "ab" = false /\
    connected connections "google_compute_instance.web" "google_compute_subnetwork.a" /\
    connected connections "google_compute_subnetwork.a" "google_compute_instance.web".
Proof.
  assert (exists c, GCP.infer_connections substring_table = Ok c /\
                    connectedb c "google_compute_instance.web"
                      "google_compute_subnetwork.a" = true /\
                    connectedb c "google_compute_subnetwork.a"
                      "google_compute_instance.web" = true)
    as (c & Hc & H1 & H2) by (vm_compute; by eexists).
  exists c. split_and!; try reflexivity; try (by apply connectedb_true).
  - exact Hc.
  - left.
  - right. left.
Qed.

(** ** The OCI connection loop *)

Lemma OCI_infer_connections_steps resources :
  OCI.infer_connections resources
  = for_each resources (fun x c => OCI_step resources x.1 x.2 c)
      (OCI.empty_connections resources).
Proof.
  unfold OCI.infer_connections. apply for_each_ext. by intros [k r] t _.
Qed.

Lemma OCI_step_extends resources resource_id resource c c' :
  OCI_step resources resource_id resource c = Ok c' -> extends c c'.
Proof.
  unfold OCI_step. intros H. inv_ok. eapply extends_trans.
  - by eapply OCI_specific_connections_extends.
  - by eapply OCI_connect_by_id_extends.
Qed.

Lemma OCI_add_both_connected a b c c' :
  OCI.add_both a b c = Ok c' -> connected c' a b /\ connected c' b a.
Proof.
  unfold OCI.add_both. intros H. apply bind_Ok in H as (c1 & Hfwd & Hback). split.
  - eapply extends_connected; [by eapply add_connection_extends|].
    by eapply add_connection_connected.
  - by eapply add_connection_connected.
Qed.

(** [connect_all_of_type] links the resource with every resource of the
    type, both ways. *)
Lemma OCI_connect_all_of_type_connected resources resource_id target c c'
    other_id other :
  OCI.connect_all_of_type resources resource_id target c = Ok c' ->
  (other_id, other) ∈ resources ->
  OCI.has_type other target = true ->
  connected c' resource_id other_id /\ connected c' other_id resource_id.
Proof.
  unfold OCI.connect_all_of_type. intros H Hin Htype.
  eapply (for_each_establish
            (fun c => connected c resource_id other_id /\
                      connected c other_id resource_id));
    [exact Hin| | |exact H].
  - intros t t'. cbn beta iota. rewrite Htype. apply OCI_add_both_connected.
  - intros [k r] t t' _ [Ht1 Ht2] Hstep. cbn beta iota in Hstep.
    assert (extends t t') as Hext by solve_extends.
    split; by eapply extends_connected.
Qed.

(** The iteration of an instance links it with every security group. *)
Lemma OCI_instance_step resources instance_id instance group_id group c c' :
  OCI_step resources instance_id instance c = Ok c' ->
  OCI.has_type instance "oci_core_instance" = true ->
  (group_id, group) ∈ resources ->
  OCI.has_type group "oci_core_network_security_group" = true ->
  connected c' instance_id group_id /\ connected c' group_id instance_id.
Proof.
  unfold OCI_step. intros H Hinst Hin Hgroup.
  apply bind_Ok in H as (c1 & Hspecific & Hcompartment).
  unfold OCI.specific_connections in Hspecific. rewrite Hinst in Hspecific.
  apply bind_Ok in Hspecific as (c0 & _ & Hall).
  destruct (OCI_connect_all_of_type_connected _ _ _ _ _ _ _ Hall Hin Hgroup)
    as [H1 H2].
  assert (extends c1 c') as Hext by (by eapply OCI_connect_by_id_extends).
  split; by eapply extends_connected.
Qed.

Lemma OCI_steps_instance_group resources xs c0 c instance_id instance group_id group :
  for_each xs (fun x c => OCI_step resources x.1 x.2 c) c0 = Ok c ->
  (instance_id, instance) ∈ xs ->
  (group_id, group) ∈ resources ->
  OCI.has_type instance "oci_core_instance" = true ->
  OCI.has_type group "oci_core_network_security_group" = true ->
  connected c instance_id group_id /\ connected c group_id instance_id.
Proof.
  intros Hrun Hi Hg Hti Htg.
  eapply (for_each_establish
            (fun c => connected c instance_id group_id /\
                      connected c group_id instance_id));
    [exact Hi| | |exact Hrun].
  - intros t t' Hstep. simpl in Hstep.
    exact (OCI_instance_step _ _ _ _ _ _ _ Hstep Hti Hg Htg).
  - intros [k r] t t' _ [Ht1 Ht2] Hstep. simpl in Hstep.
    apply OCI_step_extends in Hstep. split; by eapply extends_connected.
Qed.

(** ** From connections to edges *)

Lemma NoDup_keys_same_value {V : Type} (d : dict V) k v v' :
  NoDup (dict_keys d) -> (k, v) ∈ d -> (k, v') ∈ d -> v = v'.
Proof.
  intros Hnd H1 H2.
  apply (dict_get_NoDup d k v Hnd) in H1. apply (dict_get_NoDup d k v' Hnd) in H2.
  congruence.
Qed.

Lemma connected_drawn nodes connections source_id target_id :
  connected connections source_id target_id ->
  is_Some (dict_get source_id nodes) -> is_Some (dict_get target_id nodes) ->
  source_id <> target_id ->
  (source_id, target_id) ∈ draw_connections nodes connections.
Proof.
  intros (s & Hs & Hx) Hsrc Htgt Hne. apply elem_of_draw_connections.
  exists s. split_and!; try done. by apply dict_get_Some_elem.
Qed.

(** C9: some edges need no attribute to match.  On a table with
    distinct keys, whenever the GCP script's [generate_diagram]
    completes, it draws an edge from every firewall to every instance;
    whenever the OCI script's completes, it draws an edge from every
    instance to every network security group and one back. *)
Theorem unconditional_edges (resources : dict tf_resource) (output_file : string)
    (d : diagram) (a_id : string) (a : tf_resource) (b_id : string) (b : tf_resource) :
  NoDup (dict_keys resources) ->
  (a_id, a) ∈ resources -> (b_id, b) ∈ resources ->
  (GCP.generate_diagram resources output_file = Ok d ->
   GCP.has_type a "google_compute_firewall" = true ->
   GCP.has_type b "google_compute_instance" = true ->
   (a_id, b_id) ∈ diagram_edges d) /\
  (OCI.generate_diagram resources output_file = Ok d ->
   OCI.has_type a "oci_core_instance" = true ->
   OCI.has_type b "oci_core_network_security_group" = true ->
   (a_id, b_id) ∈ diagram_edges d /\ (b_id, a_id) ∈ diagram_edges d).
Proof.
  intros Hnd Ha Hb. split.
  - unfold GCP.generate_diagram. intros Hrun Hta Htb.
    apply bind_Ok in Hrun as (nodes & Hnodes & Hrun).
    apply bind_Ok in Hrun as (connections & Hconn & Hd).
    injection Hd as <-. simpl.
    assert (b_id <> a_id) as Hne.
    { intros ->. pose proof (NoDup_keys_same_value _ _ _ _ Hnd Ha Hb) as ->.
      apply GCP_has_type_true in Hta, Htb. congruence. }
    rewrite GCP_infer_connections_steps in Hconn.
    apply connected_drawn; [|by eapply create_nodes_keys..|done].
    by eapply GCP_steps_firewall.
  - unfold OCI.generate_diagram. intros Hrun Hta Htb.
    apply bind_Ok in Hrun as (nodes & Hnodes & Hrun).
    apply bind_Ok in Hrun as (connections & Hconn & Hd).
    injection Hd as <-. simpl.
    assert (a_id <> b_id) as Hne.
    { intros ->. pose proof (NoDup_keys_same_value _ _ _ _ Hnd Ha Hb) as ->.
      apply OCI_has_type_true in Hta, Htb. congruence. }
    rewrite OCI_infer_connections_steps in Hconn.
    destruct (OCI_steps_instance_group _ _ _ _ _ _ _ _ Hconn Ha Hb Hta Htb)
      as [H1 H2].
    split; apply connected_drawn; try done; by eapply create_nodes_keys.
Qed.

Lemma unconditional_edges_witness :
  (exists d, GCP.generate_diagram firewall_table "infrastructure_diagram" = Ok d /\
             ("google_compute_firewall.allow-ssh", "google_compute_instance.web")
               ∈ diagram_edges d) /\
  (exists d, OCI.generate_diagram oci_table "oci_infrastructure_diagram" = Ok d /\
             ("oci_core_instance.web", "oci_core_network_security_group.web-nsg")
               ∈ diagram_edges d /\
             ("oci_core_network_security_group.web-nsg", "oci_core_instance.web")
               ∈ diagram_edges d).
Proof.
  split.
  - assert (exists d, GCP.generate_diagram firewall_table "infrastructure_diagram" = Ok d)
      as [d Hd] by (vm_compute; by eexists).
    exists d. split; [exact Hd|].
    eapply (proj1 (unconditional_edges firewall_table "infrastructure_diagram" d
                     "google_compute_firewall.allow-ssh" _
                     "google_compute_instance.web" _
                     (proj1 (proj2 (proj2 example_tables_NoDup)))
                     ltac:(left) ltac:(right; left)));
      [exact Hd|reflexivity|reflexivity].
  - assert (exists d, OCI.generate_diagram oci_table "oci_infrastructure_diagram" = Ok d)
      as [d Hd] by (vm_compute; by eexists).
    exists d. split; [exact Hd|].
    eapply (proj2 (unconditional_edges oci_table "oci_infrastructure_diagram" d
                     "oci_core_instance.web" _
                     "oci_core_network_security_group.web-nsg" _
                     (proj2 (proj2 (proj2 example_tables_NoDup)))
                     ltac:(left) ltac:(right; left)));
      [exact Hd|reflexivity|reflexivity].
Defined.

(** ** The command line *)

Section script_parser.
Variable p : argument_parser.
Variable default_output : string.
Hypothesis p_help : parser_add_help p = true.
Hypothesis p_arguments :
  parser_arguments p =
    [mk_argument "--state" true None;
     mk_argument "--output" false (Some default_output)].

Lemma declared_cases flag :
  declared p flag = true -> flag = "--state" \/ flag = "--output".
Proof.
  unfold declared. rewrite p_arguments, bool_decide_eq_true. simpl.
  intros H. apply elem_of_cons in H as [->|H]; [by left|].
  apply list_elem_of_singleton in H as ->. by right.
Qed.

Lemma missing_required_state seen :
  missing_required p seen =
    match dict_get "state" seen with Some _ => [] | None => ["--state"] end.
Proof.
  unfold missing_required. rewrite p_arguments. simpl.
  destruct (dict_get "state" seen) as [s|] eqn:Hs.
  - rewrite filter_cons_False by (simpl; rewrite Hs; by intros [_ ?]).
    rewrite filter_cons_False by (by intros [? _]). done.
  - rewrite filter_cons_True by (simpl; by rewrite Hs).
    rewrite filter_cons_False by (by intros [? _]). done.
Qed.

Lemma with_defaults_value seen :
  with_defaults p seen =
    [("state", dict_get "state" seen);
     ("output", match dict_get "output" seen with
                | Some value => Some value
                | None => Some default_output
                end)].
Proof.
  unfold with_defaults. rewrite p_arguments. simpl.
  by destruct (dict_get "state" seen).
Qed.

(** Without [--state] the parser ends the run: with the help text when
    help is asked for, with a usage error otherwise. *)
Lemma parse_items_without_state items seen extras :
  dict_get "state" seen = None ->
  (forall value, OptionValue "--state" value ∉ items) ->
  match parse_items p items seen extras with
  | Namespace _ => False
  | HelpExit => HelpRequest ∈ items
  | UsageError _ => True
  end.
Proof.
  revert seen extras.
  induction items as [|item items IH]; intros seen extras Hseen Hno; simpl.
  - by rewrite missing_required_state, Hseen.
  - assert (forall value, OptionValue "--state" value ∉ items) as Hno'.
    { intros value Hin. apply (Hno value). by right. }
    assert (forall seen' extras',
              dict_get "state" seen' = None ->
              match parse_items p items seen' extras' with
              | Namespace _ => False
              | HelpExit => HelpRequest ∈ item :: items
              | UsageError _ => True
              end) as IH'.
    { intros seen' extras' Hseen'. specialize (IH seen' extras' Hseen' Hno').
      destruct (parse_items p items seen' extras'); try done. by right. }
    destruct item as [flag value|flag| |text].
    + destruct (declared p flag) eqn:Hd; [|by apply IH'].
      apply IH'. apply declared_cases in Hd as [->| ->].
      * exfalso. apply (Hno value). by left.
      * by rewrite dict_get_set_ne.
    + destruct (declared p flag); [done|by apply IH'].
    + rewrite p_help. by left.
    + by apply IH'.
Qed.

(** A namespace has a state path and an output name: the one given, or
    else the default. *)
Lemma parse_items_namespace items seen extras args :
  parse_items p items seen extras = Namespace args ->
  (exists state, namespace_attr args "state" = Some state) /\
  (exists output, namespace_attr args "output" = Some output) /\
  (dict_get "output" seen = None ->
   (forall value, OptionValue "--output" value ∉ items) ->
   namespace_attr args "output" = Some default_output).
Proof.
  revert seen extras.
  induction items as [|item items IH]; intros seen extras; simpl.
  - rewrite missing_required_state.
    destruct (dict_get "state" seen) as [state|] eqn:Hstate; [|done].
    destruct extras; [|done]. intros [= <-]. rewrite with_defaults_value.
    unfold namespace_attr. simpl. rewrite Hstate. split_and!.
    + by eexists.
    + destruct (dict_get "output" seen); by eexists.
    + by intros ->.
  - assert (forall seen' extras',
              parse_items p items seen' extras' = Namespace args ->
              dict_get "output" seen' = dict_get "output" seen ->
              (exists state, namespace_attr args "state" = Some state) /\
              (exists output, namespace_attr args "output" = Some output) /\
              (dict_get "output" seen = None ->
               (forall value, OptionValue "--output" value ∉ item :: items) ->
               namespace_attr args "output" = Some default_output)) as IH'.
    { intros seen' extras' Hrun Hsame.
      destruct (IH seen' extras' Hrun) as (H1 & H2 & H3). split_and!; try done.
      intros Hnone Hno. apply H3; [by rewrite Hsame|].
      intros value Hin. apply (Hno value). by right. }
    destruct item as [flag value|flag| |text].
    + destruct (declared p flag) eqn:Hd; [|intros H; by eapply IH'].
      intros Hrun. apply declared_cases in Hd as [->| ->].
      * eapply IH'; [exact Hrun|]. by rewrite dict_get_set_ne.
      * destruct (IH _ _ Hrun) as (H1 & H2 & _). split_and!; try done.
        intros _ Hno. exfalso. apply (Hno value). by left.
    + destruct (declared p flag); [done|intros H; by eapply IH'].
    + by rewrite p_help.
    + intros H. by eapply IH'.
Qed.

(** What a run without [--state] leaves behind. *)
Lemma run_main_without_state parse generate fs argv :
  (forall value, OptionValue "--state" value ∉ argv) ->
  states_parsed (run_main p parse generate fs argv) = [] /\
  rendered (run_main p parse generate fs argv) = None /\
  (exit_status (run_main p parse generate fs argv) = 2 \/
   HelpRequest ∈ argv /\
   run_main p parse generate fs argv = mk_outcome 0 [HelpText] [] [] None).
Proof.
  intros Hno. unfold run_main, parse_args.
  pose proof (parse_items_without_state argv [] [] eq_refl Hno) as H.
  destruct (parse_items p argv [] []) as [args| |msg]; [done| |].
  - split_and!; try done. by right.
  - split_and!; try done. by left.
Qed.

Lemma parse_args_namespace argv args :
  parse_args p argv = Namespace args ->
  (exists state, namespace_attr args "state" = Some state) /\
  (exists output, namespace_attr args "output" = Some output) /\
  ((forall value, OptionValue "--output" value ∉ argv) ->
   namespace_attr args "output" = Some default_output).
Proof.
  unfold parse_args. intros Hrun.
  destruct (parse_items_namespace _ _ _ _ Hrun) as (H1 & H2 & H3).
  split_and!; try done. by apply H3.
Qed.

End script_parser.

(** C7, as amended: each script declares exactly the two options
    [--state] (required, no default) and [--output] (optional, with the
    script's default name), next to the [-h]/[--help] that [argparse]
    answers by default.  A run whose command line does not supply
    [--state] never calls [parse_terraform_state] and renders nothing:
    it ends with status 2, or, when help is asked for, with the help
    text and status 0.  A run that gets past the parser has a state
    path, and without [--output] on the command line its output name is
    ['infrastructure_diagram'] in the GCP script and
    ['oci_infrastructure_diagram'] in the OCI script. *)
Theorem cli_surface (fs : filesystem) (argv : list cli_item) :
  (parser_arguments GCP.parser =
     [mk_argument "--state" true None;
      mk_argument "--output" false (Some "infrastructure_diagram")] /\
   parser_arguments OCI.parser =
     [mk_argument "--state" true None;
      mk_argument "--output" false (Some "oci_infrastructure_diagram")] /\
   parser_add_help GCP.parser = true /\ parser_add_help OCI.parser = true) /\
  ((forall value, OptionValue "--state" value ∉ argv) ->
   (states_parsed (GCP.main fs argv) = [] /\ rendered (GCP.main fs argv) = None /\
    (exit_status (GCP.main fs argv) = 2 \/
     HelpRequest ∈ argv /\ GCP.main fs argv = mk_outcome 0 [HelpText] [] [] None)) /\
   (states_parsed (OCI.main fs argv) = [] /\ rendered (OCI.main fs argv) = None /\
    (exit_status (OCI.main fs argv) = 2 \/
     HelpRequest ∈ argv /\ OCI.main fs argv = mk_outcome 0 [HelpText] [] [] None))) /\
  (forall args,
     parse_args GCP.parser argv = Namespace args ->
     (exists state, namespace_attr args "state" = Some state) /\
     ((forall value, OptionValue "--output" value ∉ argv) ->
      namespace_attr args "output" = Some "infrastructure_diagram")) /\
  (forall args,
     parse_args OCI.parser argv = Namespace args ->
     (exists state, namespace_attr args "state" = Some state) /\
     ((forall value, OptionValue "--output" value ∉ argv) ->
      namespace_attr args "output" = Some "oci_infrastructure_diagram")).
Proof.
  split_and!; try reflexivity.
  - intros Hno. split.
    + by apply (run_main_without_state GCP.parser "infrastructure_diagram").
    + by apply (run_main_without_state OCI.parser "oci_infrastructure_diagram").
  - intros args Hrun.
    destruct (parse_args_namespace GCP.parser "infrastructure_diagram"
                eq_refl eq_refl argv args Hrun) as (H1 & _ & H3).
    done.
  - intros args Hrun.
    destruct (parse_args_namespace OCI.parser "oci_infrastructure_diagram"
                eq_refl eq_refl argv args Hrun) as (H1 & _ & H3).
    done.
Qed.

Lemma cli_surface_witness :
  exit_status (GCP.main (fun _ => None) [OptionValue "--output" "network"]) = 2 /\
  (forall args,
     parse_args OCI.parser [OptionValue "--state" state_path] = Namespace args ->
     namespace_attr args "output" = Some "oci_infrastructure_diagram").
Proof.
  split.
  - destruct (cli_surface (fun _ => None) [OptionValue "--output" "network"])
      as (_ & Hwithout & _).
    destruct Hwithout as ((_ & _ & [Hstatus|[Hhelp _]]) & _).
    + intros value Hin. apply list_elem_of_singleton in Hin. discriminate Hin.
    + exact Hstatus.
    + apply list_elem_of_singleton in Hhelp. discriminate Hhelp.
  - intros args Hrun.
    destruct (cli_surface (fun _ => None) [OptionValue "--state" state_path])
      as (_ & _ & _ & Hoci).
    apply (Hoci args Hrun). intros value Hin.
    apply list_elem_of_singleton in Hin. discriminate Hin.
Defined.

(** C7, as stated, fails: a command line that asks for help supplies no
    [--state], and both scripts end with status 0. *)
Lemma help_succeeds_without_state :
  (forall value, OptionValue "--state" value ∉ [HelpRequest]) /\
  GCP.main (fun _ => None) [HelpRequest] = mk_outcome 0 [HelpText] [] [] None /\
  OCI.main (fun _ => None) [HelpRequest] = mk_outcome 0 [HelpText] [] [] None.
Proof.
  split_and!; try reflexivity.
  intros value Hin. apply list_elem_of_singleton in Hin. discriminate Hin.
Qed.

(** ** The top-level handler *)




(** ** Well-formed states on which the GCP script fails *)

(** C6: the state lists an instance before the subnetwork its
    ['subnetwork'] attribute names; it is well formed, and the GCP
    script ends with status 1 on it: [connections[other_id]] is read in
    the instance's iteration, before the subnetwork's iteration has
    created that key. *)
Theorem gcp_main_fails_on_well_formed_state :
  well_formed_state instance_then_subnetwork = true /\
  GCP.main (single_file state_path (JsonDocument instance_then_subnetwork))
    [OptionValue "--state" state_path]
  = caught [state_path] (KeyError (JStr "google_compute_subnetwork.sub")).
Proof. split; reflexivity. Qed.

(** ** The OCI script on well-formed states *)

Lemma covers_extends (resources : dict tf_resource) c c' :
  covers resources c -> extends c c' -> covers resources c'.
Proof. intros Hc Hext k Hk. apply (extends_is_Some _ _ k Hext). by apply Hc. Qed.

Lemma OCI_empty_connections_keys (resources : dict tf_resource) k :
  k ∈ dict_keys resources -> is_Some (dict_get k (OCI.empty_connections resources)).
Proof.
  unfold OCI.empty_connections.
  assert (forall (ids : list string) (c : dict (gset string)),
            k ∈ ids \/ is_Some (dict_get k c) ->
            is_Some (dict_get k
                       (foldl (fun c id => dict_set id (∅ : gset string) c) c ids)))
    as Hfold.
  { induction ids as [|id ids IH]; intros c [Hin|Hc]; simpl.
    - by apply elem_of_nil in Hin.
    - done.
    - apply IH. apply elem_of_cons in Hin as [->|Hin]; [right|by left].
      rewrite dict_get_set_eq. by eexists.
    - apply IH. right. by apply dict_set_is_Some. }
  intros Hk. apply Hfold. by left.
Qed.

Lemma OCI_add_both_total a b c :
  is_Some (dict_get a c) -> is_Some (dict_get b c) ->
  exists c', OCI.add_both a b c = Ok c'.
Proof.
  intros Ha Hb. unfold OCI.add_both.
  destruct (add_connection_total a b c Ha) as [c1 Hc1]. rewrite Hc1. simpl.
  apply add_connection_total.
  apply (extends_is_Some _ _ b (add_connection_extends _ _ _ _ Hc1)). done.
Qed.

Section oci_total.
Variable resources : dict tf_resource.

Local Abbreviation covered := (covers resources).

Lemma OCI_connect_by_id_total resource_id resource key target c :
  covered c -> resource_id ∈ dict_keys resources ->
  exists c', OCI.connect_by_id resources resource_id resource key target c = Ok c'
             /\ covered c'.
Proof.
  intros Hc Hid. unfold OCI.connect_by_id. cbn zeta.
  destruct (truthy (OCI.attribute resource key)); [|by exists c].
  apply (for_each_total covered); [|done].
  intros other_id t Hother Ht. unfold OCI.lookup.
  apply dict_get_is_Some in Hother as [other Hget]. rewrite Hget. simpl.
  destruct (OCI.has_type other target && _); [|by exists t].
  destruct (OCI_add_both_total resource_id other_id t) as [t' Ht'].
  - by apply Ht.
  - apply Ht. apply dict_get_is_Some. by eexists.
  - exists t'. split; [done|].
    apply (covers_extends resources t t' Ht). solve_extends.
Qed.

Lemma OCI_connect_all_of_type_total resource_id target c :
  covered c -> resource_id ∈ dict_keys resources ->
  exists c', OCI.connect_all_of_type resources resource_id target c = Ok c'
             /\ covered c'.
Proof.
  intros Hc Hid. unfold OCI.connect_all_of_type.
  apply (for_each_total covered); [|done].
  intros [other_id other] t Hother Ht. cbn beta iota.
  destruct (OCI.has_type other target); [|by exists t].
  destruct (OCI_add_both_total resource_id other_id t) as [t' Ht'].
  - by apply Ht.
  - apply Ht. apply list_elem_of_fmap. by exists (other_id, other).
  - exists t'. split; [done|].
    apply (covers_extends resources t t' Ht). solve_extends.
Qed.

Lemma OCI_specific_connections_total resource_id resource c :
  covered c -> resource_id ∈ dict_keys resources ->
  exists c', OCI.specific_connections resources resource_id resource c = Ok c'
             /\ covered c'.
Proof.
  intros Hc Hid. unfold OCI.specific_connections.
  repeat match goal with
         | |- context [if ?b then _ else _] => destruct b
         end;
    try (by apply OCI_connect_by_id_total); try (by exists c).
  - destruct (OCI_connect_by_id_total resource_id resource "subnet_id"
                "oci_core_subnet" c Hc Hid) as (c1 & -> & Hc1). simpl.
    by apply OCI_connect_all_of_type_total.
  - destruct (OCI_connect_by_id_total resource_id resource "vcn_id"
                "oci_core_vcn" c Hc Hid) as (c1 & -> & Hc1). simpl.
    by apply OCI_connect_all_of_type_total.
Qed.

Lemma OCI_infer_connections_total :
  exists connections, OCI.infer_connections resources = Ok connections.
Proof.
  rewrite OCI_infer_connections_steps.
  destruct (for_each_total covered resources
              (fun x c => OCI_step resources x.1 x.2 c)
              (OCI.empty_connections resources)) as (c & Hc & _).
  - intros [resource_id resource] t Hin Ht. simpl. unfold OCI_step.
    assert (resource_id ∈ dict_keys resources) as Hid.
    { apply list_elem_of_fmap. by exists (resource_id, resource). }
    destruct (OCI_specific_connections_total resource_id resource t Ht Hid)
      as (t1 & -> & Ht1). simpl.
    by apply OCI_connect_by_id_total.
  - intros k Hk. by apply OCI_empty_connections_keys.
  - by exists c.
Qed.

End oci_total.


(** * Further properties of the two scripts *)

(** ** The readers visit every instance *)

Lemma mapM_Ok_elem_l {A B : Type} (f : A -> result B) (xs : list A) (ys : list B) (x : A) :
  mapM f xs = Ok ys -> x ∈ xs -> exists y, y ∈ ys /\ f x = Ok y.
Proof.
  rewrite mapM_Ok_Forall2. intros HF Hx.
  apply list_elem_of_lookup in Hx as [i Hi].
  destruct (Forall2_lookup_l _ _ _ _ _ HF Hi) as (y & Hy & Hfx).
  exists y. split; [|done]. apply list_elem_of_lookup. by exists i.
Qed.

(** Every instance the reader visits has its entry among the writes. *)
Lemma instance_entries_complete entry state_data es resource instance :
  instance_entries entry state_data = Ok es ->
  state_instance state_data resource instance ->
  exists resource_type e,
    subscript resource "type" = Ok resource_type /\
    entry resource_type resource instance = Ok e /\ e ∈ es.
Proof.
  unfold instance_entries, state_instance, state_resources, resource_instances.
  intros H [Hres Hinst]. inv_ok. subst es.
  rewrite Ha in Hres. simpl in Hres. rewrite Ha0 in Hres.
  destruct (mapM_Ok_elem_l _ _ _ _ Ha1 Hres) as (es' & Hes' & Hr).
  inv_ok. rewrite Ha3 in Hinst. simpl in Hinst. rewrite Ha4 in Hinst.
  destruct (mapM_Ok_elem_l _ _ _ _ Hr Hinst) as (e & He & Hentry).
  exists a2, e. split_and!; try done.
  apply list_elem_of_join. by exists es'.
Qed.

(** When a reader returns a table, every instance it visited is in it
    under its id: the resource has a type and a name, the instance's
    attributes are an object, and the key ["<type>.<name>"] is present,
    where the name is the instance's ['name'] attribute or else the
    resource's name in the GCP script, and in the OCI script the
    ['display_name'] attribute before both.  The resource's ['name'] is
    read even when the attributes supply the name. *)
Theorem every_instance_has_its_key (state_data : json) (resources : dict tf_resource)
    (resource instance : json) :
  state_instance state_data resource instance ->
  (GCP.resources_of_state state_data = Ok resources ->
   exists resource_type attrs default,
     subscript resource "type" = Ok resource_type /\
     subscript instance "attributes" = Ok (JObj attrs) /\
     subscript resource "name" = Ok default /\
     is_Some (dict_get (make_id resource_type (dict_get_default "name" default attrs))
                resources)) /\
  (OCI.resources_of_state state_data = Ok resources ->
   exists resource_type attrs default,
     subscript resource "type" = Ok resource_type /\
     subscript instance "attributes" = Ok (JObj attrs) /\
     subscript resource "name" = Ok default /\
     is_Some (dict_get (make_id resource_type
                          (dict_get_default "display_name"
                             (dict_get_default "name" default attrs) attrs))
                resources)).
Proof.
  intros Hinst. split.
  - rewrite GCP_reader_as_writes. intros H. inv_ok. subst resources.
    destruct (instance_entries_complete _ _ _ _ _ Ha Hinst) as (rt & e & Hrt & He & Hin).
    unfold GCP.instance_entry in He. inv_ok.
    apply get_method_Ok in Ha1 as ->. exists rt, a1, a2. split_and!; try done.
    apply dict_get_is_Some, write_all_keys. left.
    apply list_elem_of_fmap. exists e. by subst e.
  - rewrite OCI_reader_as_writes. intros H. inv_ok. subst resources.
    destruct (instance_entries_complete _ _ _ _ _ Ha Hinst) as (rt & e & Hrt & He & Hin).
    unfold OCI.instance_entry in He. inv_ok.
    apply get_method_Ok in Ha1 as ->. exists rt, a1, a2. split_and!; try done.
    apply dict_get_is_Some, write_all_keys. left.
    apply list_elem_of_fmap. exists e. by subst e.
Qed.

Lemma every_instance_has_its_key_witness :
  is_Some (dict_get "oci_core_instance.web" oci_table).
Proof.
  destruct (proj2 (every_instance_has_its_key oci_state oci_table
                     (tf_block "oci_core_instance" "vm"
                        [tf_instance [("display_name", JStr "web")]])
                     (tf_instance [("display_name", JStr "web")])
                     ltac:(split; left)) eq_refl)
    as (rt & attrs & default & Hrt & Hattrs & Hdefault & Hkey).
  injection Hrt as <-. injection Hattrs as <-. injection Hdefault as <-.
  exact Hkey.
Defined.

(** ** Where the icon lookup fails *)

(** On a type string the GCP script's [map_resource_to_icon] raises
    exactly when the type is no key of its table, does not contain
    ['compute'] and contains ['network'], and what it raises then is the
    [NameError] for [Switch]; in particular a type of the table and a
    type that contains ['compute'] always get a class. *)
Theorem gcp_icon_failure_domain (resource_type : string) (e : exn) :
  GCP.map_resource_to_icon (JStr resource_type) = Raise e <->
  e = NameError "Switch" /\
  dict_get resource_type gcp_mappings = None /\
  str_contains "compute" resource_type = false /\
  str_contains "network" resource_type = true.
Proof.
  rewrite GCP_map_resource_to_icon_string.
  destruct (dict_get resource_type gcp_mappings) as [c|].
  { split; [discriminate|]. by intros (_ & ? & _). }
  destruct (str_contains "compute" resource_type).
  { split; [discriminate|]. by intros (_ & _ & ? & _). }
  destruct (str_contains "network" resource_type).
  { split; [by intros [= <-]|]. by intros (-> & _). }
  split; [|by intros (_ & _ & _ & ?)].
  repeat match goal with
         | |- context [str_contains ?a resource_type] =>
             destruct (str_contains a resource_type); cbn [orb]; try discriminate
         end.
Qed.

Lemma GCP_non_string_type_raises (resource_type : json) :
  is_string resource_type = false ->
  exists msg, GCP.map_resource_to_icon resource_type = Raise (TypeError msg).
Proof.
  intros Hstr. unfold GCP.map_resource_to_icon.
  rewrite gcp_mappings_display_value.
  destruct resource_type; try discriminate Hstr; by eexists.
Qed.

(** A type that is no string: the GCP script raises a [TypeError] on
    every such value, at the hash of a list or dictionary or at the
    first substring test; the OCI script raises it on lists and
    dictionaries only and answers [Datacenter] for a number, a boolean
    or [None]. *)
Theorem icons_of_non_string_types (resource_type : json) :
  is_string resource_type = false ->
  (exists msg, GCP.map_resource_to_icon resource_type = Raise (TypeError msg)) /\
  OCI.map_resource_to_icon resource_type
  = match resource_type with
    | JList _ | JObj _ =>
        Raise (TypeError ("unhashable type: '" +:+ type_name resource_type +:+ "'"))
    | _ => Ok generic_Datacenter
    end.
Proof.
  intros Hstr. split; [by apply GCP_non_string_type_raises|].
  unfold OCI.map_resource_to_icon. rewrite oci_mappings_display_value.
  by destruct resource_type.
Qed.

Lemma icons_of_non_string_types_witness :
  (exists msg, GCP.map_resource_to_icon (JInt 7) = Raise (TypeError msg)) /\
  OCI.map_resource_to_icon (JInt 7) = Ok generic_Datacenter.
Proof. exact (icons_of_non_string_types (JInt 7) eq_refl). Defined.

(** ** One node per resource *)

Lemma dict_set_fresh {V : Type} (d : dict V) k v :
  k ∉ dict_keys d -> dict_set k v d = d ++ [(k, v)].
Proof.
  unfold dict_keys. induction d as [|[k' v'] d IH]; csimpl; [done|].
  rewrite not_elem_of_cons. intros [Hne Hnin].
  rewrite decide_False by done. by rewrite IH.
Qed.

(** Writes to pairwise distinct new keys append in order. *)
Lemma write_all_fresh {V : Type} (es : list (string * V)) (d : dict V) :
  NoDup (dict_keys d ++ es.*1) -> write_all es d = d ++ es.
Proof.
  revert d. induction es as [|[k v] es IH]; intros d Hnd; csimpl.
  - by rewrite app_nil_r.
  - rewrite dict_set_fresh.
    + rewrite IH; [by rewrite <- app_assoc|].
      unfold dict_keys. rewrite fmap_app. csimpl.
      by rewrite <- app_assoc.
    + apply NoDup_app in Hnd as (_ & Hdisj & _). intros Hin.
      apply (Hdisj k Hin). by left.
Qed.

Lemma create_nodes_table (icon : json -> result icon_class)
    (resources : dict tf_resource) (nodes : dict node) :
  NoDup (dict_keys resources) ->
  for_each resources (fun '(resource_id, resource) nodes =>
      icon_class ← icon (res_type resource);
      node ← new_node icon_class (res_name resource);
      mret (dict_set resource_id node nodes)) []
    = Ok nodes ->
  Forall2 (fun x n => n.1 = x.1 /\ node_label n.2 = res_name x.2 /\
                      icon (res_type x.2) = Ok (node_icon n.2))
    resources nodes.
Proof.
  intros Hnd Hrun.
  set (f := fun x : string * tf_resource =>
              icon_class ← icon (res_type x.2);
              node ← new_node icon_class (res_name x.2);
              mret (x.1, node)).
  rewrite (for_each_ext resources _
             (fun x d => e ← f x; mret (dict_set e.1 e.2 d))) in Hrun.
  2:{ intros [k r] t _. unfold f. simpl.
      destruct (icon (res_type r)) as [c|]; simpl; [|done].
      by destruct (new_node c (res_name r)). }
  rewrite for_each_writes in Hrun. inv_ok. subst nodes.
  apply mapM_Ok_Forall2 in Ha.
  assert (Forall2 (fun x n => n.1 = x.1 /\ node_label n.2 = res_name x.2 /\
                    icon (res_type x.2) = Ok (node_icon n.2)) resources a) as HF.
  { eapply Forall2_impl; [exact Ha|]. intros [k r] [k' n] Hf. unfold f in Hf.
    simpl in Hf. inv_ok. apply new_node_Ok in Ha1 as [-> _]. by simplify_eq. }
  rewrite write_all_fresh; [done|]. simpl.
  replace (a.*1) with (dict_keys resources); [done|].
  unfold dict_keys. clear -HF. induction HF as [|x n xs ns (H1 & _) _ IH]; csimpl; [done|].
  by rewrite IH, H1.
Qed.

(** In both scripts a completed [generate_diagram] on a table with
    distinct keys has one node per resource, in the order of the table:
    the node has the resource's id as key, its name as label, and the
    class [map_resource_to_icon] returns for its type. *)
Theorem one_node_per_resource (resources : dict tf_resource)
    (output_file : string) (d : diagram) :
  NoDup (dict_keys resources) ->
  (GCP.generate_diagram resources output_file = Ok d ->
   Forall2 (fun x n => n.1 = x.1 /\ node_label n.2 = res_name x.2 /\
                       GCP.map_resource_to_icon (res_type x.2) = Ok (node_icon n.2))
     resources (diagram_nodes d)) /\
  (OCI.generate_diagram resources output_file = Ok d ->
   Forall2 (fun x n => n.1 = x.1 /\ node_label n.2 = res_name x.2 /\
                       OCI.map_resource_to_icon (res_type x.2) = Ok (node_icon n.2))
     resources (diagram_nodes d)).
Proof.
  intros Hnd. split; intros Hrun.
  - unfold GCP.generate_diagram in Hrun. inv_ok. subst d. simpl.
    by apply create_nodes_table.
  - unfold OCI.generate_diagram in Hrun. inv_ok. subst d. simpl.
    by apply create_nodes_table.
Qed.

Lemma one_node_per_resource_witness :
  exists d,
    OCI.generate_diagram oci_table "oci_infrastructure_diagram" = Ok d /\
    Forall2 (fun x n => n.1 = x.1 /\ node_label n.2 = res_name x.2 /\
                        OCI.map_resource_to_icon (res_type x.2) = Ok (node_icon n.2))
      oci_table (diagram_nodes d).
Proof.
  assert (exists d, OCI.generate_diagram oci_table "oci_infrastructure_diagram" = Ok d)
    as [d Hd] by (vm_compute; by eexists).
  exists d. split; [exact Hd|].
  exact (proj2 (one_node_per_resource oci_table "oci_infrastructure_diagram" d
                  (proj2 (proj2 (proj2 example_tables_NoDup)))) Hd).
Defined.

(** ** Invariants of the connections map *)

Lemma keeps_trans P c1 c2 c3 : keeps P c1 c2 -> keeps P c2 c3 -> keeps P c1 c3.
Proof. unfold keeps. tauto. Qed.

Lemma for_each_keeps {A : Type} P (xs : list A)
    (body : A -> dict (gset string) -> result (dict (gset string))) c c' :
  (forall x t t', x ∈ xs -> body x t = Ok t' -> keeps P t t') ->
  for_each xs body c = Ok c' -> keeps P c c'.
Proof.
  intros Hbody Hrun Hc. eapply (for_each_invariant P); [|exact Hc|exact Hrun].
  intros x t t' Hx Ht Hstep. by eapply Hbody.
Qed.

Lemma connected_add_connection k x c c' k' x' :
  add_connection k x c = Ok c' ->
  connected c' k' x' <-> connected c k' x' \/ (k' = k /\ x' = x).
Proof.
  unfold add_connection, connected.
  destruct (dict_get k c) as [s|] eqn:Hs; [|done]. intros [= <-].
  rewrite dict_get_set. case_decide as Hk.
  - subst k'. split.
    + intros (s' & [= <-] & Hx'). apply elem_of_union in Hx' as [Hx'|Hx'].
      * right. split; [done|]. by apply elem_of_singleton in Hx'.
      * left. by exists s.
    + intros [(s' & Hs' & Hx')|[_ ->]].
      * eexists. split; [done|]. rewrite Hs in Hs'. injection Hs' as <-. set_solver.
      * eexists. split; [done|]. set_solver.
  - split; [by left|]. by intros [?|[? _]].
Qed.

Lemma connected_dict_set_empty k c k' x :
  connected (dict_set k (∅ : gset string) c) k' x -> k' <> k /\ connected c k' x.
Proof.
  unfold connected. rewrite dict_get_set. case_decide as Hk.
  - intros (s & [= <-] & Hx). set_solver.
  - intros H. split; [congruence|done].
Qed.

Lemma add_connection_keeps_NoDup k x c c' :
  add_connection k x c = Ok c' -> keeps (fun c => NoDup (dict_keys c)) c c'.
Proof.
  unfold add_connection. destruct (dict_get k c); [|done].
  intros [= <-] Hnd. by apply dict_set_NoDup.
Qed.

Lemma add_connection_keeps_proper resources k x c c' :
  add_connection k x c = Ok c' -> k <> x -> x ∈ dict_keys resources ->
  keeps (proper_targets resources) c c'.
Proof.
  intros Hadd Hne Hx Hc k' x' Hconn.
  apply (connected_add_connection _ _ _ _ _ _ Hadd) in Hconn as [Hold|[-> ->]];
    [by apply Hc|done].
Qed.

Lemma add_both_keeps_symmetric a b c c' :
  OCI.add_both a b c = Ok c' -> keeps symmetric c c'.
Proof.
  unfold OCI.add_both. intros H. apply bind_Ok in H as (c1 & H1 & H2).
  intros Hc k x Hconn.
  apply (connected_add_connection _ _ _ _ _ _ H2) in Hconn as [Hconn|[-> ->]].
  - apply (connected_add_connection _ _ _ _ _ _ H1) in Hconn as [Hconn|[-> ->]].
    + apply (connected_add_connection _ _ _ _ _ _ H2). left.
      apply (connected_add_connection _ _ _ _ _ _ H1). left. by apply Hc.
    + apply (connected_add_connection _ _ _ _ _ _ H2). by right.
  - apply (connected_add_connection _ _ _ _ _ _ H2). left.
    apply (connected_add_connection _ _ _ _ _ _ H1). by right.
Qed.

(** What the guards of a loop body say, once they are known to hold. *)
Ltac guard_facts :=
  repeat match goal with
         | H : _ && _ = true |- _ => apply andb_true_iff in H as [? ?]
         | H : bool_decide _ = true |- _ => apply bool_decide_eq_true in H
         end.

Ltac solve_id_in_table :=
  match goal with
  | H : ?k ∈ dict_keys ?r |- ?k ∈ dict_keys ?r => exact H
  | H : (?k, ?v) ∈ ?r |- ?k ∈ dict_keys ?r =>
      apply list_elem_of_fmap; exists (k, v); split; [reflexivity|exact H]
  end.

(** A step, or a sequence of steps, keeps a property that each
    [leaf] operation keeps. *)
Ltac solve_keeps leaf :=
  lazymatch goal with
  | H : ?e = Ok ?c' |- keeps ?P ?c ?c' =>
      lazymatch e with
      | Ok _ => injection H as <-; intros ?; assumption
      | mret _ => injection H as <-; intros ?; assumption
      | Raise _ => discriminate H
      | for_each _ _ _ =>
          let x := fresh "x" in
          let t := fresh "t" in
          let t' := fresh "t'" in
          let Hin := fresh "Hin" in
          let Hx := fresh "Hx" in
          eapply for_each_keeps; [|exact H]; clear H;
          intros x t t' Hin Hx; try destruct x; cbn beta iota zeta in Hx;
          solve_keeps leaf
      | _ ≫= _ =>
          let a := fresh "a" in
          let Ha := fresh "Ha" in
          apply bind_Ok in H as (a & Ha & H); cbn beta iota zeta in H;
          first [ apply (keeps_trans P c a c'); solve_keeps leaf
                | solve_keeps leaf ]
      | (if ?b then _ else _) => destruct b eqn:?; solve_keeps leaf
      | match ?v with _ => _ end => destruct v; solve_keeps leaf
      | _ =>
          first [ leaf H
                | progress unfold GCP.add_if, GCP.common_attribute_connections,
                    GCP.specific_connections, OCI.add_both, OCI.connect_by_id,
                    OCI.connect_all_of_type, OCI.specific_connections in H;
                  cbn beta iota zeta in H; solve_keeps leaf ]
      end
  end.

Ltac leaf_NoDup H := exact (add_connection_keeps_NoDup _ _ _ _ H).

Ltac leaf_proper H :=
  eapply add_connection_keeps_proper;
    [exact H|guard_facts; congruence|solve_id_in_table].

Ltac leaf_symmetric H := exact (add_both_keeps_symmetric _ _ _ _ H).

Lemma GCP_step_keeps_NoDup resources resource_id resource c c' :
  GCP_step resources resource_id resource c = Ok c' ->
  keeps (fun c => NoDup (dict_keys c)) c c'.
Proof.
  unfold GCP_step. cbn zeta. intros H Hc.
  assert (keeps (fun c => NoDup (dict_keys c)) (dict_set resource_id ∅ c) c') as Hk
    by solve_keeps leaf_NoDup.
  apply Hk. by apply dict_set_NoDup.
Qed.

Lemma GCP_step_keeps_proper resources resource_id resource c c' :
  resource_id ∈ dict_keys resources ->
  GCP_step resources resource_id resource c = Ok c' ->
  keeps (proper_targets resources) c c'.
Proof.
  unfold GCP_step. cbn zeta. intros Hid H Hc.
  assert (keeps (proper_targets resources) (dict_set resource_id ∅ c) c') as Hk
    by solve_keeps leaf_proper.
  apply Hk. intros k x Hconn. apply connected_dict_set_empty in Hconn as [_ Hconn].
  by apply Hc.
Qed.

Lemma OCI_step_keeps_NoDup resources resource_id resource c c' :
  OCI_step resources resource_id resource c = Ok c' ->
  keeps (fun c => NoDup (dict_keys c)) c c'.
Proof. unfold OCI_step. intros H. solve_keeps leaf_NoDup. Qed.

Lemma OCI_step_keeps_symmetric resources resource_id resource c c' :
  OCI_step resources resource_id resource c = Ok c' -> keeps symmetric c c'.
Proof. unfold OCI_step. intros H. solve_keeps leaf_symmetric. Qed.

(** ** What a completed inference leaves in the connections map *)

Lemma not_connected_nil k x : ~ connected [] k x.
Proof. by intros (s & Hs & _). Qed.

Lemma GCP_infer_connections_NoDup resources c :
  GCP.infer_connections resources = Ok c -> NoDup (dict_keys c).
Proof.
  rewrite GCP_infer_connections_steps. intros Hrun.
  eapply (for_each_invariant (fun c => NoDup (dict_keys c))); [| |exact Hrun].
  - intros [k r] t t' _ Ht Hstep. by eapply GCP_step_keeps_NoDup.
  - constructor.
Qed.

Lemma GCP_infer_connections_proper resources c :
  GCP.infer_connections resources = Ok c -> proper_targets resources c.
Proof.
  rewrite GCP_infer_connections_steps. intros Hrun.
  eapply (for_each_invariant (proper_targets resources)); [| |exact Hrun].
  - intros [k r] t t' Hin Ht Hstep. simpl in Hstep.
    eapply GCP_step_keeps_proper; [|exact Hstep|exact Ht]. solve_id_in_table.
  - intros k x Hconn. by apply not_connected_nil in Hconn.
Qed.

Lemma GCP_infer_connections_keys resources c k :
  GCP.infer_connections resources = Ok c ->
  is_Some (dict_get k c) -> k ∈ dict_keys resources.
Proof. rewrite GCP_infer_connections_steps. apply GCP_steps_keys. Qed.

Lemma OCI_empty_connections_spec (resources : dict tf_resource) :
  NoDup (dict_keys (OCI.empty_connections resources)) /\
  forall k x, ~ connected (OCI.empty_connections resources) k x.
Proof.
  unfold OCI.empty_connections.
  assert (forall (ids : list string) (c : dict (gset string)),
            NoDup (dict_keys c) /\ (forall k x, ~ connected c k x) ->
            NoDup (dict_keys (foldl (fun c id => dict_set id (∅ : gset string) c) c ids)) /\
            forall k x,
              ~ connected (foldl (fun c id => dict_set id (∅ : gset string) c) c ids) k x)
    as Hfold.
  { induction ids as [|id ids IH]; intros c [Hnd Hc]; simpl; [done|].
    apply IH. split; [by apply dict_set_NoDup|].
    intros k x Hconn. apply connected_dict_set_empty in Hconn as [_ Hconn].
    by apply Hc in Hconn. }
  apply Hfold. split; [constructor|apply not_connected_nil].
Qed.

Lemma OCI_infer_connections_NoDup resources c :
  OCI.infer_connections resources = Ok c -> NoDup (dict_keys c).
Proof.
  rewrite OCI_infer_connections_steps. intros Hrun.
  eapply (for_each_invariant (fun c => NoDup (dict_keys c))); [| |exact Hrun].
  - intros [k r] t t' _ Ht Hstep. by eapply OCI_step_keeps_NoDup.
  - apply OCI_empty_connections_spec.
Qed.

Lemma OCI_infer_connections_symmetric resources c :
  OCI.infer_connections resources = Ok c -> symmetric c.
Proof.
  rewrite OCI_infer_connections_steps. intros Hrun.
  eapply (for_each_invariant symmetric); [| |exact Hrun].
  - intros [k r] t t' _ Ht Hstep. by eapply OCI_step_keeps_symmetric.
  - intros k x Hconn. by apply OCI_empty_connections_spec in Hconn.
Qed.

(** ** What is drawn of the connections map *)

Lemma create_nodes_only_resources
    (icon : json -> result icon_class) resources nodes k :
  for_each resources (fun '(resource_id, resource) nodes =>
      icon_class ← icon (res_type resource);
      node ← new_node icon_class (res_name resource);
      mret (dict_set resource_id node nodes)) []
    = Ok nodes ->
  is_Some (dict_get k nodes) -> k ∈ dict_keys resources.
Proof.
  intros Hrun. revert k.
  eapply (for_each_invariant
            (fun nodes => forall k, is_Some (dict_get k nodes) -> k ∈ dict_keys resources));
    [| |exact Hrun].
  - intros [id r] t t' Hin Ht H. cbn beta iota in H. inv_ok. subst t'.
    intros k. rewrite dict_get_set. case_decide as Hk; [|by apply Ht].
    subst k. intros _. solve_id_in_table.
  - intros k [? H]. discriminate H.
Qed.

Lemma draw_connections_NoDup nodes connections :
  NoDup (dict_keys connections) -> NoDup (draw_connections nodes connections).
Proof.
  intros Hnd. unfold draw_connections. apply NoDup_bind.
  - intros [s1 ts1] [s2 ts2] [s t] H1 H2 Hy1 Hy2.
    apply list_elem_of_bind in Hy1 as (t1 & Hy1 & _).
    apply list_elem_of_bind in Hy2 as (t2 & Hy2 & _).
    assert (s1 = s /\ s2 = s) as [-> ->].
    { split.
      - destruct (_ && _) in Hy1; [|by apply elem_of_nil in Hy1].
        by apply list_elem_of_singleton in Hy1 as [= -> _].
      - destruct (_ && _) in Hy2; [|by apply elem_of_nil in Hy2].
        by apply list_elem_of_singleton in Hy2 as [= -> _]. }
    f_equal. by apply (NoDup_keys_same_value connections s).
  - intros [s ts] _. apply NoDup_bind.
    + intros t1 t2 [s' t] _ _ Hy1 Hy2.
      destruct (_ && _) in Hy1; [|by apply elem_of_nil in Hy1].
      destruct (_ && _) in Hy2; [|by apply elem_of_nil in Hy2].
      apply list_elem_of_singleton in Hy1 as [= _ ->].
      by apply list_elem_of_singleton in Hy2 as [= _ ->].
    + intros t _. destruct (_ && _); [apply NoDup_singleton|constructor].
    + apply NoDup_elements.
  - by apply NoDup_fmap_1 in Hnd.
Qed.

(** In both scripts a completed [generate_diagram] draws no edge twice,
    and both ends of every edge are ids of the resource table. *)
Theorem edges_are_distinct_pairs_of_resources (resources : dict tf_resource)
    (output_file : string) (d : diagram) :
  GCP.generate_diagram resources output_file = Ok d \/
  OCI.generate_diagram resources output_file = Ok d ->
  NoDup (diagram_edges d) /\
  forall source_id target_id,
    (source_id, target_id) ∈ diagram_edges d ->
    source_id ∈ dict_keys resources /\ target_id ∈ dict_keys resources.
Proof.
  intros [Hrun|Hrun].
  - unfold GCP.generate_diagram in Hrun. inv_ok. subst d. simpl. split.
    + apply draw_connections_NoDup. by eapply GCP_infer_connections_NoDup.
    + intros s t Hin.
      apply elem_of_draw_connections in Hin as (_ & _ & _ & Hs & Ht & _).
      split; by eapply create_nodes_only_resources.
  - unfold OCI.generate_diagram in Hrun. inv_ok. subst d. simpl. split.
    + apply draw_connections_NoDup. by eapply OCI_infer_connections_NoDup.
    + intros s t Hin.
      apply elem_of_draw_connections in Hin as (_ & _ & _ & Hs & Ht & _).
      split; by eapply create_nodes_only_resources.
Qed.

Lemma edges_are_distinct_pairs_of_resources_witness :
  exists d,
    GCP.generate_diagram firewall_table "infrastructure_diagram" = Ok d /\
    NoDup (diagram_edges d) /\
    forall source_id target_id,
      (source_id, target_id) ∈ diagram_edges d ->
      source_id ∈ dict_keys firewall_table /\ target_id ∈ dict_keys firewall_table.
Proof.
  assert (exists d, GCP.generate_diagram firewall_table "infrastructure_diagram" = Ok d)
    as [d Hd] by (vm_compute; by eexists).
  exists d. split; [exact Hd|].
  exact (edges_are_distinct_pairs_of_resources firewall_table
           "infrastructure_diagram" d (or_introl Hd)).
Defined.

(** In the GCP script the guard of the drawing loop never holds an edge
    back: on a completed run the edges drawn are exactly the
    connections inferred, since no resource is ever connected to itself
    and every key and member of [connections] is the id of a resource,
    hence of a node. *)
Theorem gcp_draws_every_connection (resources : dict tf_resource)
    (output_file : string) (d : diagram) :
  GCP.generate_diagram resources output_file = Ok d ->
  exists connections,
    GCP.infer_connections resources = Ok connections /\
    forall source_id target_id,
      (source_id, target_id) ∈ diagram_edges d <->
      connected connections source_id target_id.
Proof.
  unfold GCP.generate_diagram. intros Hrun.
  apply bind_Ok in Hrun as (nodes & Hnodes & Hrun).
  apply bind_Ok in Hrun as (connections & Hconn & Hd). injection Hd as <-.
  exists connections. split; [done|]. intros s t. simpl.
  rewrite elem_of_draw_connections. split.
  - intros (ts & Hin & Ht & _). exists ts. split; [|done].
    apply dict_get_NoDup; [|done]. by eapply GCP_infer_connections_NoDup.
  - intros Hc. pose proof Hc as (ts & Hs & Ht). exists ts.
    destruct (GCP_infer_connections_proper _ _ Hconn s t Hc) as [Hne Htarget].
    assert (s ∈ dict_keys resources) as Hsource.
    { eapply GCP_infer_connections_keys; [done|]. by eexists. }
    apply list_elem_of_fmap in Hsource as ([s' rs] & -> & Hsource).
    apply list_elem_of_fmap in Htarget as ([t' rt] & -> & Htarget).
    split_and!; try done.
    + by apply dict_get_Some_elem.
    + by eapply create_nodes_keys.
    + by eapply create_nodes_keys.
Qed.

Lemma gcp_draws_every_connection_witness :
  exists connections,
    GCP.infer_connections firewall_table = Ok connections /\
    connected connections "google_compute_firewall.allow-ssh"
      "google_compute_instance.web".
Proof.
  assert (exists d, GCP.generate_diagram firewall_table "infrastructure_diagram" = Ok d /\
                    ("google_compute_firewall.allow-ssh", "google_compute_instance.web")
                      ∈ diagram_edges d)
    as (d & Hd & Hedge).
  { eexists. split; [vm_compute; reflexivity|]. vm_compute. left. }
  destruct (gcp_draws_every_connection firewall_table "infrastructure_diagram" d Hd)
    as (connections & Hconn & Hiff).
  exists connections. split; [exact Hconn|]. by apply Hiff.
Defined.

(** In the OCI script every edge has its reverse: all connections are
    added in both directions, so a completed run draws [t >> s]
    whenever it draws [s >> t]. *)
Theorem oci_edges_come_in_pairs (resources : dict tf_resource)
    (output_file : string) (d : diagram) (source_id target_id : string) :
  OCI.generate_diagram resources output_file = Ok d ->
  (source_id, target_id) ∈ diagram_edges d ->
  (target_id, source_id) ∈ diagram_edges d.
Proof.
  unfold OCI.generate_diagram. intros Hrun.
  apply bind_Ok in Hrun as (nodes & Hnodes & Hrun).
  apply bind_Ok in Hrun as (connections & Hconn & Hd). injection Hd as <-.
  simpl. intros Hin.
  apply elem_of_draw_connections in Hin as (ts & Hin & Ht & Hs & Hn & Hne).
  apply connected_drawn; try done.
  apply (OCI_infer_connections_symmetric _ _ Hconn).
  exists ts. split; [|done].
  apply dict_get_NoDup; [|done]. by eapply OCI_infer_connections_NoDup.
Qed.

Lemma oci_edges_come_in_pairs_witness :
  exists d,
    OCI.generate_diagram oci_table "oci_infrastructure_diagram" = Ok d /\
    ("oci_core_network_security_group.web-nsg", "oci_core_instance.web")
      ∈ diagram_edges d.
Proof.
  assert (exists d, OCI.generate_diagram oci_table "oci_infrastructure_diagram" = Ok d /\
                    ("oci_core_instance.web", "oci_core_network_security_group.web-nsg")
                      ∈ diagram_edges d)
    as (d & Hd & Hedge).
  { eexists. split; [vm_compute; reflexivity|]. vm_compute. left. }
  exists d. split; [exact Hd|].
  exact (oci_edges_come_in_pairs oci_table "oci_infrastructure_diagram" d _ _ Hd Hedge).
Defined.

(** ** The order of the table decides whether the GCP script completes *)

Lemma GCP_has_type_differ a b ta tb :
  GCP.has_type a ta = true -> GCP.has_type b tb = true -> ta <> tb -> a <> b.
Proof.
  rewrite !GCP_has_type_true. intros Ha Hb Hne ->. congruence.
Qed.

(** When an instance stands in the table before a subnetwork whose name
    is the last segment of its ['subnetwork'] attribute, the GCP
    script's [generate_diagram] raises an exception whatever else the
    table holds: the instance's iteration adds to
    [connections[subnetwork]], a key that only the subnetwork's own,
    later iteration creates. *)
Theorem instance_before_its_subnetwork_fails
    (pre mid post : dict tf_resource) (output_file : string)
    instance_id instance subnet_id subnet segment :
  NoDup (dict_keys (pre ++ (instance_id, instance) :: mid ++ (subnet_id, subnet) :: post)) ->
  GCP.has_type instance "google_compute_instance" = true ->
  GCP.has_type subnet "google_compute_subnetwork" = true ->
  split_last "/" (GCP.attribute instance "subnetwork") = Ok segment ->
  GCP.has_name subnet segment = true ->
  exists e,
    GCP.generate_diagram
      (pre ++ (instance_id, instance) :: mid ++ (subnet_id, subnet) :: post)
      output_file = Raise e.
Proof.
  intros Hnd Hti Hts Hseg Hname.
  set (resources := pre ++ (instance_id, instance) :: mid ++ (subnet_id, subnet) :: post) in *.
  assert (forall c, GCP.infer_connections resources <> Ok c) as Hfail.
  { intros c Hrun. rewrite GCP_infer_connections_steps in Hrun.
    assert ((subnet_id, subnet) ∈ resources) as Hs.
    { unfold resources. rewrite elem_of_app. right. right.
      rewrite elem_of_app. right. by left. }
    assert (subnet_id ∈ dict_keys (mid ++ (subnet_id, subnet) :: post)) as Hlater.
    { apply list_elem_of_fmap. exists (subnet_id, subnet). split; [done|].
      rewrite elem_of_app. right. by left. }
    apply dict_keys_middle in Hnd as [Hpost Hdisj].
    assert (subnet_id <> instance_id) as Hne by (by intros ->).
    unfold resources in Hrun at 1. rewrite for_each_app in Hrun. simpl in Hrun.
    apply bind_Ok in Hrun as (c1 & Hpre & Hrun).
    apply bind_Ok in Hrun as (c2 & Hstep & _).
    destruct (GCP_instance_step _ _ _ _ _ _ _ _ Hstep Hti Hs Hts Hne Hseg Hname)
      as [_ (s & Hget & _)].
    assert (is_Some (dict_get subnet_id c2)) as Hkey by (by eexists).
    apply (GCP_step_keys _ _ _ _ _ _ Hstep) in Hkey as [?|Hkey]; [done|].
    apply (Hdisj subnet_id); [|done]. by eapply GCP_steps_keys. }
  unfold GCP.generate_diagram.
  destruct (GCP.create_nodes resources) as [nodes|e]; [|by exists e]. simpl.
  destruct (GCP.infer_connections resources) as [c|e] eqn:Hc; [|by exists e].
  by destruct (Hfail c).
Qed.

Lemma instance_before_its_subnetwork_fails_witness :
  exists e,
    GCP.generate_diagram
      [ ("google_compute_instance.web",
         web_instance "projects/p/regions/r/subnetworks/sub");
        ("google_compute_subnetwork.sub", subnetwork_named "sub") ]
      "infrastructure_diagram" = Raise e.
Proof.
  apply (instance_before_its_subnetwork_fails [] [] [] "infrastructure_diagram"
           "google_compute_instance.web"
           (web_instance "projects/p/regions/r/subnetworks/sub")
           "google_compute_subnetwork.sub" (subnetwork_named "sub") "sub");
    try reflexivity.
  apply NoDup_cons. split; [|apply NoDup_singleton].
  intros Hin. apply list_elem_of_singleton in Hin. discriminate Hin.
Defined.

(** ** The other rules of the GCP script *)

(** What the iteration of a resource connects it to stays connected. *)
Lemma GCP_steps_own resources xs c resource_id resource x :
  NoDup (dict_keys xs) ->
  for_each xs (fun x c => GCP_step resources x.1 x.2 c) [] = Ok c ->
  (resource_id, resource) ∈ xs ->
  (forall c1 c2, GCP_step resources resource_id resource c1 = Ok c2 ->
                 connected c2 resource_id x) ->
  connected c resource_id x.
Proof.
  intros Hnd Hrun Hin Hstep.
  apply list_elem_of_split in Hin as (pre & post & ->).
  apply dict_keys_middle in Hnd as [Hpost _].
  rewrite for_each_app in Hrun. simpl in Hrun.
  apply bind_Ok in Hrun as (c1 & _ & Hrun).
  apply bind_Ok in Hrun as (c2 & Hown & Hrun).
  apply (GCP_steps_keep resources post c2 c [(resource_id, x)] Hrun)
    with (kx := (resource_id, x)).
  - intros kx Hkx. by apply list_elem_of_singleton in Hkx as ->.
  - intros kx Hkx. apply list_elem_of_singleton in Hkx as ->. simpl.
    by eapply Hstep.
  - by apply list_elem_of_singleton.
Qed.

(** The rule of lines 98-102: a name found inside a string attribute. *)
Lemma GCP_common_step resources resource_id resource other_id other
    attr value name c c' :
  GCP_step resources resource_id resource c = Ok c' ->
  (attr, JStr value) ∈ res_attributes resource ->
  (other_id, other) ∈ resources ->
  res_name other = JStr name ->
  str_contains name value = true ->
  other_id <> resource_id ->
  connected c' resource_id other_id.
Proof.
  unfold GCP_step. cbn zeta. intros H Hattr Hin Hname Hsub Hne.
  apply bind_Ok in H as (c1 & Hcommon & Hspecific).
  eapply extends_connected; [by eapply GCP_specific_connections_extends|].
  unfold GCP.common_attribute_connections in Hcommon.
  eapply (for_each_establish (fun c => connected c resource_id other_id));
    [exact Hattr| | |exact Hcommon].
  - intros t t' Ht. cbn beta iota in Ht.
    eapply (for_each_establish (fun c => connected c resource_id other_id));
      [exact Hin| | |exact Ht].
    + intros u u' Hu. cbn beta iota in Hu. rewrite Hname in Hu. simpl in Hu.
      rewrite Hsub, bool_decide_eq_true_2 in Hu by done.
      by eapply add_connection_connected.
    + intros [k r] u u' _ Hconn Hu. cbn beta iota in Hu.
      eapply extends_connected; [|exact Hconn]. solve_extends.
  - intros [a v] t t' _ Hconn Ht. cbn beta iota in Ht.
    eapply extends_connected; [|exact Hconn]. solve_extends.
Qed.

(** On a completed run of the GCP script over a table with distinct
    keys, a resource is connected to every other resource whose name
    occurs inside one of its string attributes, whatever the types of
    the two. *)
Theorem gcp_name_in_attribute_connects (resources : dict tf_resource)
    (connections : dict (gset string))
    resource_id resource other_id other attr value name :
  NoDup (dict_keys resources) ->
  GCP.infer_connections resources = Ok connections ->
  (resource_id, resource) ∈ resources ->
  (other_id, other) ∈ resources ->
  (attr, JStr value) ∈ res_attributes resource ->
  res_name other = JStr name ->
  str_contains name value = true ->
  other_id <> resource_id ->
  connected connections resource_id other_id.
Proof.
  rewrite GCP_infer_connections_steps.
  intros Hnd Hrun Hr Ho Hattr Hname Hsub Hne.
  eapply GCP_steps_own; [exact Hnd|exact Hrun|exact Hr|].
  intros c1 c2 Hstep. by eapply GCP_common_step.
Qed.

Lemma gcp_name_in_attribute_connects_witness :
  exists connections,
    GCP.infer_connections substring_table = Ok connections /\
    connected connections "google_compute_instance.web" "google_compute_subnetwork.a".
Proof.
  assert (exists c, GCP.infer_connections substring_table = Ok c)
    as [c Hc] by (vm_compute; by eexists).
  exists c. split; [exact Hc|].
  apply (gcp_name_in_attribute_connects substring_table c
           "google_compute_instance.web"
           (web_instance "projects/p/regions/r/subnetworks/ab")
           "google_compute_subnetwork.a" (subnetwork_named "a")
           "subnetwork" "projects/p/regions/r/subnetworks/ab" "a").
  - exact (proj1 (proj2 example_tables_NoDup)).
  - exact Hc.
  - left.
  - right. left.
  - right. left.
  - reflexivity.
  - reflexivity.
  - discriminate.
Defined.

(** The rules that follow the ['network'] attribute (lines 113-114,
    120-121, 129-130 and 138-139). *)
Lemma GCP_network_step resources resource_id resource network_id network
    client segment c c' :
  GCP_step resources resource_id resource c = Ok c' ->
  client ∈ gcp_network_clients ->
  GCP.has_type resource client = true ->
  (network_id, network) ∈ resources ->
  GCP.has_type network "google_compute_network" = true ->
  network_id <> resource_id ->
  split_last "/" (GCP.attribute resource "network") = Ok segment ->
  GCP.has_name network segment = true ->
  connected c' resource_id network_id.
Proof.
  unfold GCP_step. cbn zeta. intros H Hclient Htype Hin Hnet Hne Hseg Hname.
  apply bind_Ok in H as (c1 & _ & H).
  pose proof (GCP_has_type_other _ _ "google_compute_subnetwork" Hnet
                ltac:(discriminate)) as Hnot_subnet.
  pose proof (GCP_has_type_other _ _ "google_compute_instance" Hnet
                ltac:(discriminate)) as Hnot_instance.
  unfold GCP.specific_connections in H.
  unfold gcp_network_clients in Hclient.
  repeat (apply elem_of_cons in Hclient as [->|Hclient]);
    [| | | |by apply elem_of_nil in Hclient].
  - rewrite Htype in H. inv_ok. rewrite Hseg in Ha0. injection Ha0 as <-.
    eapply (for_each_establish (fun c => connected c resource_id network_id));
      [exact Hin| | |exact H].
    + intros t t'. cbn beta iota. rewrite bool_decide_eq_true_2 by done.
      rewrite Hnot_subnet, Hnet, Hname. cbn [andb mbind result_bind mret result_ret].
      unfold GCP.add_if. apply add_connection_connected.
    + intros [k r] t t' _ Hconn Ht. cbn beta iota in Ht.
      eapply extends_connected; [|exact Hconn]. solve_extends.
  - rewrite (GCP_has_type_other _ _ "google_compute_instance" Htype) in H by done.
    rewrite Htype in H. inv_ok. rewrite Hseg in Ha. injection Ha as <-.
    eapply (for_each_establish (fun c => connected c resource_id network_id));
      [exact Hin| | |exact H].
    + intros t t'. cbn beta iota. rewrite bool_decide_eq_true_2 by done.
      rewrite Hnot_instance, Hnet, Hname. unfold GCP.add_if.
      cbn [andb]. intros Ht. apply bind_Ok in Ht as (t1 & Hadd & Ht).
      injection Ht as <-. by eapply add_connection_connected.
    + intros [k r] t t' _ Hconn Ht. cbn beta iota in Ht.
      eapply extends_connected; [|exact Hconn]. solve_extends.
  - rewrite (GCP_has_type_other _ _ "google_compute_instance" Htype) in H by done.
    rewrite (GCP_has_type_other _ _ "google_compute_subnetwork" Htype) in H by done.
    rewrite Htype in H. inv_ok. rewrite Hseg in Ha. injection Ha as <-.
    eapply (for_each_establish (fun c => connected c resource_id network_id));
      [exact Hin| | |exact H].
    + intros t t'. cbn beta iota. rewrite bool_decide_eq_true_2 by done.
      rewrite Hnot_instance, Hnet, Hname. unfold GCP.add_if.
      cbn [andb]. intros Ht. apply bind_Ok in Ht as (t1 & Hadd & Ht).
      injection Ht as <-. by eapply add_connection_connected.
    + intros [k r] t t' _ Hconn Ht. cbn beta iota in Ht.
      eapply extends_connected; [|exact Hconn]. solve_extends.
  - rewrite (GCP_has_type_other _ _ "google_compute_instance" Htype) in H by done.
    rewrite (GCP_has_type_other _ _ "google_compute_subnetwork" Htype) in H by done.
    rewrite (GCP_has_type_other _ _ "google_compute_firewall" Htype) in H by done.
    rewrite Htype in H. inv_ok. rewrite Hseg in Ha. injection Ha as <-.
    eapply (for_each_establish (fun c => connected c resource_id network_id));
      [exact Hin| | |exact H].
    + intros t t'. cbn beta iota. rewrite bool_decide_eq_true_2 by done.
      rewrite Hnet, Hname. unfold GCP.add_if. cbn [andb].
      apply add_connection_connected.
    + intros [k r] t t' _ Hconn Ht. cbn beta iota in Ht.
      eapply extends_connected; [|exact Hconn]. solve_extends.
Qed.

(** The rule of lines 141-146: a NAT and the router its ['router']
    attribute names in full. *)
Lemma GCP_router_nat_step resources nat_id nat router_id router c c' :
  GCP_step resources nat_id nat c = Ok c' ->
  GCP.has_type nat "google_compute_router_nat" = true ->
  (router_id, router) ∈ resources ->
  GCP.has_type router "google_compute_router" = true ->
  router_id <> nat_id ->
  py_eq (res_name router) (GCP.attribute nat "router") = true ->
  connected c' nat_id router_id.
Proof.
  unfold GCP_step. cbn zeta. intros H Htype Hin Hrouter Hne Hname.
  apply bind_Ok in H as (c1 & _ & H).
  unfold GCP.specific_connections in H.
  rewrite (GCP_has_type_other _ _ "google_compute_instance" Htype) in H by done.
  rewrite (GCP_has_type_other _ _ "google_compute_subnetwork" Htype) in H by done.
  rewrite (GCP_has_type_other _ _ "google_compute_firewall" Htype) in H by done.
  rewrite (GCP_has_type_other _ _ "google_compute_router" Htype) in H by done.
  rewrite Htype in H. cbn zeta in H.
  eapply (for_each_establish (fun c => connected c nat_id router_id));
    [exact Hin| | |exact H].
  - intros t t'. cbn beta iota. rewrite bool_decide_eq_true_2 by done.
    rewrite Hrouter, Hname. unfold GCP.add_if. cbn [andb].
    apply add_connection_connected.
  - intros [k r] t t' _ Hconn Ht. cbn beta iota in Ht.
    eapply extends_connected; [|exact Hconn]. solve_extends.
Qed.

(** On a completed run of the GCP script over a table with distinct
    keys: an instance, a subnetwork, a firewall or a router is connected
    to every network whose name is the last ['/']-separated segment of
    its ['network'] attribute, and a router NAT to every router whose
    name equals its whole ['router'] attribute.  These connections go
    one way, from the resource that holds the attribute. *)
Theorem gcp_network_and_router_rules (resources : dict tf_resource)
    (connections : dict (gset string)) resource_id resource target_id target :
  NoDup (dict_keys resources) ->
  GCP.infer_connections resources = Ok connections ->
  (resource_id, resource) ∈ resources ->
  (target_id, target) ∈ resources ->
  (forall client segment,
     client ∈ gcp_network_clients ->
     GCP.has_type resource client = true ->
     GCP.has_type target "google_compute_network" = true ->
     split_last "/" (GCP.attribute resource "network") = Ok segment ->
     GCP.has_name target segment = true ->
     connected connections resource_id target_id) /\
  (GCP.has_type resource "google_compute_router_nat" = true ->
   GCP.has_type target "google_compute_router" = true ->
   py_eq (res_name target) (GCP.attribute resource "router") = true ->
   connected connections resource_id target_id).
Proof.
  rewrite GCP_infer_connections_steps. intros Hnd Hrun Hr Ht.
  assert (resource <> target -> target_id <> resource_id) as Hids.
  { intros Hdiff ->. apply Hdiff. by eapply NoDup_keys_same_value. }
  split.
  - intros client segment Hclient Htype Hnet Hseg Hname.
    eapply GCP_steps_own; [exact Hnd|exact Hrun|exact Hr|].
    intros c1 c2 Hstep.
    eapply GCP_network_step; try done.
    apply Hids. eapply GCP_has_type_differ; [exact Htype|exact Hnet|].
    unfold gcp_network_clients in Hclient.
    repeat (apply elem_of_cons in Hclient as [->|Hclient]); try done.
    by apply elem_of_nil in Hclient.
  - intros Htype Hrouter Hname.
    eapply GCP_steps_own; [exact Hnd|exact Hrun|exact Hr|].
    intros c1 c2 Hstep.
    eapply GCP_router_nat_step; try done.
    apply Hids. by eapply GCP_has_type_differ.
Qed.

Lemma gcp_network_and_router_rules_witness :
  exists connections,
    GCP.infer_connections example_network_table = Ok connections /\
    connected connections "google_compute_router.r1" "google_compute_network.vpc" /\
    connected connections "google_compute_router_nat.nat" "google_compute_router.r1".
Proof.
  assert (exists c, GCP.infer_connections example_network_table = Ok c)
    as [c Hc] by (vm_compute; by eexists).
  assert (NoDup (dict_keys example_network_table)) as Hnd.
  { apply (write_all_NoDup example_network_table []). constructor. }
  exists c. split; [exact Hc|]. split.
  - apply (proj1 (gcp_network_and_router_rules example_network_table c
                    "google_compute_router.r1" _ "google_compute_network.vpc" _
                    Hnd Hc ltac:(right; left) ltac:(left))
             "google_compute_router" "vpc");
      try reflexivity.
    right. right. right. left.
  - apply (proj2 (gcp_network_and_router_rules example_network_table c
                    "google_compute_router_nat.nat" _ "google_compute_router.r1" _
                    Hnd Hc ltac:(right; right; left) ltac:(right; left)));
      reflexivity.
Defined.

(** ** The references the OCI script follows *)

Lemma OCI_connect_by_id_connected resources resource_id resource key target_type
    target_id target c c' :
  OCI.connect_by_id resources resource_id resource key target_type c = Ok c' ->
  NoDup (dict_keys resources) ->
  (target_id, target) ∈ resources ->
  OCI.has_type target target_type = true ->
  truthy (OCI.attribute resource key) = true ->
  py_eq (OCI.attribute target "id") (OCI.attribute resource key) = true ->
  connected c' resource_id target_id /\ connected c' target_id resource_id.
Proof.
  unfold OCI.connect_by_id. cbn zeta. intros H Hnd Hin Htype Htruthy Heq.
  rewrite Htruthy in H.
  eapply (for_each_establish
            (fun c => connected c resource_id target_id /\
                      connected c target_id resource_id)) with (x0 := target_id);
    [|  | |exact H].
  - apply list_elem_of_fmap. by exists (target_id, target).
  - intros t t'. cbn beta. unfold OCI.lookup.
    rewrite (dict_get_NoDup _ _ _ Hnd Hin). cbn [mbind result_bind].
    rewrite Htype, Heq. apply OCI_add_both_connected.
  - intros k t t' _ [H1 H2] Ht. cbn beta in Ht.
    assert (extends t t') as Hext by solve_extends.
    split; by eapply extends_connected.
Qed.

(** Equality tests of two string literals, decided. *)
Ltac eval_string_tests H :=
  repeat match type of H with
         | context [bool_decide (?a = ?b)] =>
             first [ rewrite (bool_decide_eq_true_2 (a = b)) in H by reflexivity
                   | rewrite (bool_decide_eq_false_2 (a = b)) in H by discriminate ]
         end;
  cbn [orb] in H.

(** The iteration of a resource follows the reference its type has a
    rule for. *)
Lemma OCI_rule_step resources resource_id resource type key target_type
    target_id target c c' :
  OCI_step resources resource_id resource c = Ok c' ->
  (type, key, target_type) ∈ oci_reference_rules ->
  OCI.has_type resource type = true ->
  NoDup (dict_keys resources) ->
  (target_id, target) ∈ resources ->
  OCI.has_type target target_type = true ->
  truthy (OCI.attribute resource key) = true ->
  py_eq (OCI.attribute target "id") (OCI.attribute resource key) = true ->
  connected c' resource_id target_id /\ connected c' target_id resource_id.
Proof.
  unfold OCI_step. intros H Hrule Htype Hnd Hin Htarget Htruthy Heq.
  apply bind_Ok in H as (c1 & Hspecific & Hcompartment).
  assert (connected c1 resource_id target_id /\ connected c1 target_id resource_id)
    as [H1 H2].
  { apply OCI_has_type_true in Htype.
    unfold OCI.specific_connections, OCI.has_type in Hspecific.
    rewrite Htype in Hspecific.
    unfold oci_reference_rules in Hrule.
    repeat (apply elem_of_cons in Hrule as [[= -> -> ->]|Hrule]);
      try (by apply elem_of_nil in Hrule);
      cbn [py_eq existsb fmap list_fmap OCI.vcn_children] in Hspecific;
      eval_string_tests Hspecific;
      try (by eapply OCI_connect_by_id_connected).
    - apply bind_Ok in Hspecific as (c0 & Hby_id & Hall).
      destruct (OCI_connect_by_id_connected _ _ _ _ _ _ _ _ _
                  Hby_id Hnd Hin Htarget Htruthy Heq) as [H1 H2].
      assert (extends c0 c1) as Hext
        by (by eapply OCI_connect_all_of_type_extends).
      split; by eapply extends_connected.
    - apply bind_Ok in Hspecific as (c0 & Hby_id & Hall).
      destruct (OCI_connect_by_id_connected _ _ _ _ _ _ _ _ _
                  Hby_id Hnd Hin Htarget Htruthy Heq) as [H1 H2].
      assert (extends c0 c1) as Hext
        by (by eapply OCI_connect_all_of_type_extends).
      split; by eapply extends_connected. }
  assert (extends c1 c') as Hext by (by eapply OCI_connect_by_id_extends).
  split; by eapply extends_connected.
Qed.

Lemma OCI_steps_own resources xs c0 c resource_id resource x :
  for_each xs (fun x c => OCI_step resources x.1 x.2 c) c0 = Ok c ->
  (resource_id, resource) ∈ xs ->
  (forall c1 c2, OCI_step resources resource_id resource c1 = Ok c2 ->
                 connected c2 resource_id x /\ connected c2 x resource_id) ->
  connected c resource_id x /\ connected c x resource_id.
Proof.
  intros Hrun Hin Hstep.
  eapply (for_each_establish
            (fun c => connected c resource_id x /\ connected c x resource_id));
    [exact Hin| | |exact Hrun].
  - intros t t' Ht. simpl in Ht. by eapply Hstep.
  - intros [k r] t t' _ [H1 H2] Ht. simpl in Ht.
    apply OCI_step_extends in Ht. split; by eapply extends_connected.
Qed.

(** On every run of the OCI script's inference that completes, over a
    table with distinct keys, a resource whose attribute [key] is set
    (truthy) is connected, both ways, with every resource of type
    [target_type] whose ['id'] attribute equals it: for the attribute
    and target type its own type has a rule for, and, whatever its
    type, for ['compartment_id'] and [oci_identity_compartment]. *)
Theorem oci_reference_connects (resources : dict tf_resource)
    (connections : dict (gset string))
    resource_id resource target_id target (key target_type : string) :
  NoDup (dict_keys resources) ->
  OCI.infer_connections resources = Ok connections ->
  (resource_id, resource) ∈ resources ->
  (target_id, target) ∈ resources ->
  (exists type, (type, key, target_type) ∈ oci_reference_rules /\
                OCI.has_type resource type = true) \/
  (key = "compartment_id" /\ target_type = "oci_identity_compartment") ->
  OCI.has_type target target_type = true ->
  truthy (OCI.attribute resource key) = true ->
  py_eq (OCI.attribute target "id") (OCI.attribute resource key) = true ->
  connected connections resource_id target_id /\
  connected connections target_id resource_id.
Proof.
  rewrite OCI_infer_connections_steps.
  intros Hnd Hrun Hr Ht Hrule Htarget Htruthy Heq.
  eapply OCI_steps_own; [exact Hrun|exact Hr|].
  intros c1 c2 Hstep. destruct Hrule as [(type & Hrule & Htype)|[-> ->]].
  - by eapply OCI_rule_step.
  - unfold OCI_step in Hstep. apply bind_Ok in Hstep as (c' & _ & Hcompartment).
    by eapply OCI_connect_by_id_connected.
Qed.

Lemma oci_reference_connects_witness :
  exists connections,
    OCI.infer_connections example_oci_network_table = Ok connections /\
    (connected connections "oci_core_subnet.public" "oci_core_vcn.main" /\
     connected connections "oci_core_vcn.main" "oci_core_subnet.public") /\
    (connected connections "oci_core_vcn.main" "oci_identity_compartment.prod" /\
     connected connections "oci_identity_compartment.prod" "oci_core_vcn.main").
Proof.
  assert (exists c, OCI.infer_connections example_oci_network_table = Ok c)
    as [c Hc] by (vm_compute; by eexists).
  assert (NoDup (dict_keys example_oci_network_table)) as Hnd.
  { apply (write_all_NoDup example_oci_network_table []). constructor. }
  exists c. split; [exact Hc|]. split.
  - apply (oci_reference_connects example_oci_network_table c
             "oci_core_subnet.public" _ "oci_core_vcn.main" _ "vcn_id" "oci_core_vcn"
             Hnd Hc ltac:(right; right; left) ltac:(right; left));
      try reflexivity.
    left. exists "oci_core_subnet". split; [right; left|reflexivity].
  - apply (oci_reference_connects example_oci_network_table c
             "oci_core_vcn.main" _ "oci_identity_compartment.prod" _
             "compartment_id" "oci_identity_compartment"
             Hnd Hc ltac:(right; left) ltac:(left));
      try reflexivity.
    by right.
Defined.

(** ** How a run ends *)

Section run_outcomes.
Variable p : argument_parser.
Variable default_output : string.
Hypothesis p_help : parser_add_help p = true.
Hypothesis p_arguments :
  parser_arguments p =
    [mk_argument "--state" true None;
     mk_argument "--output" false (Some default_output)].

Lemma run_main_outcomes parse generate fs argv :
  run_main p parse generate fs argv = mk_outcome 0 [HelpText] [] [] None \/
  (exists msg, run_main p parse generate fs argv = mk_outcome 2 [] [Usage msg] [] None) \/
  (exists state output resources d,
     parse fs state = Ok resources /\ generate resources output = Ok d /\
     run_main p parse generate fs argv
     = mk_outcome 0
         [Line ("Infrastructure diagram generated successfully! Saved as "
                +:+ output +:+ ".png")]
         [] [state] (Some d)) \/
  (exists state e,
     (parse fs state = Raise e \/
      exists resources output,
        parse fs state = Ok resources /\ generate resources output = Raise e) /\
     run_main p parse generate fs argv = caught [state] e).
Proof.
  unfold run_main.
  destruct (parse_args p argv) as [args| |msg] eqn:Hargs.
  - destruct (parse_args_namespace p default_output p_help p_arguments _ _ Hargs)
      as ([state ->] & [output ->] & _).
    destruct (parse fs state) as [resources|e] eqn:Hparse; simpl.
    + destruct (generate resources output) as [d|e] eqn:Hgen.
      * right. right. left. by exists state, output, resources, d.
      * right. right. right. exists state, e. split; [|done].
        right. by exists resources, output.
    + right. right. right. exists state, e. split; [by left|done].
  - by left.
  - right. left. by exists msg.
Qed.

End run_outcomes.

(** Every run of either script ends in one of four ways: with the help
    text and status 0; with a usage error and status 2; with the
    success line, status 0 and a rendered diagram, after
    [parse_terraform_state] and [generate_diagram] have both returned;
    or in the handler with status 1, after one of the two has raised.
    In the first two the state file is never read, and a diagram is
    rendered in the third only. *)
Theorem main_ends_in_one_of_four_ways (fs : filesystem) (argv : list cli_item) :
  (GCP.main fs argv = mk_outcome 0 [HelpText] [] [] None \/
   (exists msg, GCP.main fs argv = mk_outcome 2 [] [Usage msg] [] None) \/
   (exists state output resources d,
      GCP.parse_terraform_state fs state = Ok resources /\
      GCP.generate_diagram resources output = Ok d /\
      GCP.main fs argv
      = mk_outcome 0
          [Line ("Infrastructure diagram generated successfully! Saved as "
                 +:+ output +:+ ".png")]
          [] [state] (Some d)) \/
   (exists state e,
      (GCP.parse_terraform_state fs state = Raise e \/
       exists resources output,
         GCP.parse_terraform_state fs state = Ok resources /\
         GCP.generate_diagram resources output = Raise e) /\
      GCP.main fs argv = caught [state] e)) /\
  (OCI.main fs argv = mk_outcome 0 [HelpText] [] [] None \/
   (exists msg, OCI.main fs argv = mk_outcome 2 [] [Usage msg] [] None) \/
   (exists state output resources d,
      OCI.parse_terraform_state fs state = Ok resources /\
      OCI.generate_diagram resources output = Ok d /\
      OCI.main fs argv
      = mk_outcome 0
          [Line ("Infrastructure diagram generated successfully! Saved as "
                 +:+ output +:+ ".png")]
          [] [state] (Some d)) \/
   (exists state e,
      (OCI.parse_terraform_state fs state = Raise e \/
       exists resources output,
         OCI.parse_terraform_state fs state = Ok resources /\
         OCI.generate_diagram resources output = Raise e) /\
      OCI.main fs argv = caught [state] e)).
Proof.
  split.
  - exact (run_main_outcomes GCP.parser "infrastructure_diagram" eq_refl eq_refl
             GCP.parse_terraform_state GCP.generate_diagram fs argv).
  - exact (run_main_outcomes OCI.parser "oci_infrastructure_diagram" eq_refl eq_refl
             OCI.parse_terraform_state OCI.generate_diagram fs argv).
Qed.

(** ** What a completed run says of the table *)

(** In a loop that completes every iteration has returned. *)
Lemma for_each_Ok_elem {A S : Type} (xs : list A) (body : A -> S -> result S)
    (s s' : S) (x : A) :
  for_each xs body s = Ok s' -> x ∈ xs -> exists t t', body x t = Ok t'.
Proof.
  intros Hrun Hin. apply list_elem_of_split in Hin as (pre & post & ->).
  rewrite for_each_app in Hrun. simpl in Hrun.
  apply bind_Ok in Hrun as (t & _ & Hrun).
  apply bind_Ok in Hrun as (t' & Hbody & _). by exists t, t'.
Qed.

(** The GCP script's [generate_diagram] completes only on a table in
    which every type is a string that gets an icon class, every name is
    a string as soon as any resource has a string attribute, and the
    ['subnetwork'] and ['network'] attributes of an instance, where
    present, are strings. *)
Theorem gcp_completion_requires (resources : dict tf_resource)
    (output_file : string) (d : diagram) :
  GCP.generate_diagram resources output_file = Ok d ->
  (forall id r, (id, r) ∈ resources ->
     exists type icon, res_type r = JStr type /\
                       GCP.map_resource_to_icon (JStr type) = Ok icon) /\
  (forall id r attr value id' r',
     (id, r) ∈ resources -> (attr, JStr value) ∈ res_attributes r ->
     (id', r') ∈ resources -> is_string (res_name r') = true) /\
  (forall id r,
     (id, r) ∈ resources ->
     GCP.has_type r "google_compute_instance" = true ->
     is_string (GCP.attribute r "subnetwork") = true /\
     is_string (GCP.attribute r "network") = true).
Proof.
  unfold GCP.generate_diagram. intros Hrun.
  apply bind_Ok in Hrun as (nodes & Hnodes & Hrun).
  apply bind_Ok in Hrun as (connections & Hconn & _).
  rewrite GCP_infer_connections_steps in Hconn. split_and!.
  - intros id r Hin.
    destruct (for_each_Ok_elem _ _ _ _ _ Hnodes Hin) as (t & t' & Hbody).
    cbn beta iota in Hbody. apply bind_Ok in Hbody as (icon & Hicon & _).
    destruct (res_type r) as [| | |type| |] eqn:Htype;
      try (destruct (GCP_non_string_type_raises (res_type r)) as [msg Hmsg];
           [by rewrite Htype|rewrite Htype in Hmsg; congruence]).
    by exists type, icon.
  - intros id r attr value id' r' Hin Hattr Hin'.
    destruct (for_each_Ok_elem _ _ _ _ _ Hconn Hin) as (t & t' & Hstep).
    unfold GCP_step in Hstep. cbn zeta in Hstep. simpl in Hstep.
    apply bind_Ok in Hstep as (c1 & Hcommon & _).
    destruct (for_each_Ok_elem _ _ _ _ _ Hcommon Hattr) as (u & u' & Hinner).
    cbn beta iota in Hinner.
    destruct (for_each_Ok_elem _ _ _ _ _ Hinner Hin') as (w & w' & Hbody).
    cbn beta iota in Hbody. apply bind_Ok in Hbody as (hit & Hhit & _).
    simpl in Hhit. by destruct (res_name r').
  - intros id r Hin Htype.
    destruct (for_each_Ok_elem _ _ _ _ _ Hconn Hin) as (t & t' & Hstep).
    unfold GCP_step in Hstep. cbn zeta in Hstep. simpl in Hstep.
    apply bind_Ok in Hstep as (c1 & _ & Hspecific).
    unfold GCP.specific_connections in Hspecific. rewrite Htype in Hspecific.
    apply bind_Ok in Hspecific as (subnet & Hsubnet & Hspecific).
    apply bind_Ok in Hspecific as (network & Hnetwork & _).
    split.
    + by destruct (GCP.attribute r "subnetwork").
    + by destruct (GCP.attribute r "network").
Qed.

Lemma gcp_completion_requires_witness :
  exists type icon,
    JStr "google_compute_firewall" = JStr type /\
    GCP.map_resource_to_icon (JStr type) = Ok icon.
Proof.
  assert (exists d, GCP.generate_diagram firewall_table "infrastructure_diagram" = Ok d)
    as [d Hd] by (vm_compute; by eexists).
  exact (proj1 (gcp_completion_requires firewall_table "infrastructure_diagram" d Hd)
           "google_compute_firewall.allow-ssh"
           (mk_resource (JStr "google_compute_firewall") (JStr "allow-ssh")
              [("name", JStr "allow-ssh")])
           ltac:(left)).
Defined.

Lemma OCI_map_resource_to_icon_hashable (resource_type : json) :
  (exists icon, OCI.map_resource_to_icon resource_type = Ok icon) <->
  check_hashable resource_type = Ok ().
Proof.
  unfold OCI.map_resource_to_icon. rewrite oci_mappings_display_value.
  destruct resource_type; simpl; split; try done; try (by eexists);
    by intros [? ?].
Qed.

(** The node loop of either script returns exactly when every resource
    gets an icon class and has a string for a name. *)
Lemma create_nodes_returns_iff (icon : json -> result icon_class)
    (resources : dict tf_resource) :
  (exists nodes,
     for_each resources (fun '(resource_id, resource) nodes =>
         icon_class ← icon (res_type resource);
         node ← new_node icon_class (res_name resource);
         mret (dict_set resource_id node nodes)) []
     = Ok nodes) <->
  (forall id r, (id, r) ∈ resources ->
     (exists icon_class, icon (res_type r) = Ok icon_class) /\
     is_string (res_name r) = true).
Proof.
  split.
  - intros [nodes Hrun] id r Hin.
    destruct (for_each_Ok_elem _ _ _ _ _ Hrun Hin) as (t & t' & Hbody).
    cbn beta iota in Hbody. apply bind_Ok in Hbody as (c & Hicon & Hbody).
    apply bind_Ok in Hbody as (n & Hnode & _).
    apply new_node_Ok in Hnode as [_ Hname]. split; [by exists c|done].
  - intros Hall.
    destruct (for_each_total (fun _ : dict node => True) resources
                (fun '(resource_id, resource) nodes =>
                   icon_class ← icon (res_type resource);
                   node ← new_node icon_class (res_name resource);
                   mret (dict_set resource_id node nodes)) [])
      as (nodes & Hnodes & _); [|done|by exists nodes].
    intros [id r] t Hin _. destruct (Hall id r Hin) as [[c ->] Hname].
    simpl. rewrite (new_node_string c _ Hname). simpl. by eexists.
Qed.

(** Connection inference never raises in the OCI script, so its
    [generate_diagram] completes when its node loop does. *)
Lemma OCI_generate_diagram_returns_iff (resources : dict tf_resource)
    (output_file : string) :
  (exists d, OCI.generate_diagram resources output_file = Ok d) <->
  (exists nodes, OCI.create_nodes resources = Ok nodes).
Proof.
  unfold OCI.generate_diagram. split.
  - intros [d Hrun]. apply bind_Ok in Hrun as (nodes & Hnodes & _). by exists nodes.
  - intros [nodes ->]. simpl.
    destruct (OCI_infer_connections_total resources) as [connections ->].
    simpl. by eexists.
Qed.

(** The OCI script's [generate_diagram] completes exactly on the tables
    in which no type is a list or an object and every name is a string:
    the icon lookup hashes the type, the node constructor takes a string
    for a label, and connection inference itself never raises, since
    every key of [connections] is created before the loop.  Completing
    is leaving the [with] block with all nodes and edges handed over;
    the rendering that follows is the library's. *)
Theorem oci_generate_diagram_completes_iff (resources : dict tf_resource)
    (output_file : string) :
  (exists d, OCI.generate_diagram resources output_file = Ok d) <->
  (forall id r, (id, r) ∈ resources ->
     check_hashable (res_type r) = Ok () /\ is_string (res_name r) = true).
Proof.
  rewrite OCI_generate_diagram_returns_iff. unfold OCI.create_nodes.
  rewrite create_nodes_returns_iff.
  split; intros Hall id r Hin; destruct (Hall id r Hin) as [Htype Hname];
    (split; [|done]); by apply OCI_map_resource_to_icon_hashable.
Qed.

(** ** Names that are not strings *)

Lemma unnamed_table_runs :
  OCI.resources_of_state unnamed_state = Ok unnamed_table /\
  OCI.generate_diagram unnamed_table "oci_infrastructure_diagram"
  = Raise (AttributeError "'NoneType' object has no attribute 'count'") /\
  GCP.generate_diagram
    [("google_compute_instance.5",
      mk_resource (JStr "google_compute_instance") (JInt 5) [])]
    "infrastructure_diagram"
  = Raise (AttributeError "'int' object has no attribute 'count'").
Proof. repeat split. Qed.

(** In both scripts [generate_diagram] raises on every table that holds
    a resource whose name is not a string: the node loop comes first
    and reaches that resource, unless an earlier resource has made it
    raise already. *)
Theorem generate_diagram_needs_string_names (resources : dict tf_resource)
    (output_file : string) (id : string) (r : tf_resource) :
  (id, r) ∈ resources ->
  is_string (res_name r) = false ->
  (exists e, GCP.generate_diagram resources output_file = Raise e) /\
  (exists e, OCI.generate_diagram resources output_file = Raise e).
Proof.
  intros Hin Hname. split.
  - destruct (GCP.generate_diagram resources output_file) as [d|e] eqn:Hrun;
      [|by exists e].
    unfold GCP.generate_diagram in Hrun. apply bind_Ok in Hrun as (nodes & Hnodes & _).
    destruct (proj1 (create_nodes_returns_iff _ resources)
                (ex_intro _ nodes Hnodes) id r Hin) as [_ Hstr].
    congruence.
  - destruct (OCI.generate_diagram resources output_file) as [d|e] eqn:Hrun;
      [|by exists e].
    unfold OCI.generate_diagram in Hrun. apply bind_Ok in Hrun as (nodes & Hnodes & _).
    destruct (proj1 (create_nodes_returns_iff _ resources)
                (ex_intro _ nodes Hnodes) id r Hin) as [_ Hstr].
    congruence.
Qed.

Lemma generate_diagram_needs_string_names_witness :
  (exists e, GCP.generate_diagram unnamed_table "diagram" = Raise e) /\
  (exists e, OCI.generate_diagram unnamed_table "diagram" = Raise e).
Proof.
  apply (generate_diagram_needs_string_names unnamed_table "diagram"
           "oci_core_instance.None"
           (mk_resource (JStr "oci_core_instance") JNull [("display_name", JNull)])).
  - left.
  - reflexivity.
Defined.

(** ** The OCI script from state file to exit status *)




(** ** When the readers return *)

Lemma instance_entry_returns_iff resource_type resource instance :
  ((exists e, GCP.instance_entry resource_type resource instance = Ok e) <->
   (exists attrs, subscript instance "attributes" = Ok (JObj attrs)) /\
   (exists name, subscript resource "name" = Ok name)) /\
  ((exists e, OCI.instance_entry resource_type resource instance = Ok e) <->
   (exists attrs, subscript instance "attributes" = Ok (JObj attrs)) /\
   (exists name, subscript resource "name" = Ok name)).
Proof.
  unfold GCP.instance_entry, OCI.instance_entry.
  split; split.
  - intros [e H]. inv_ok. apply get_method_Ok in Ha0 as ->. split; by eexists.
  - intros [[attrs ->] [name ->]]. simpl. by eexists.
  - intros [e H]. inv_ok. apply get_method_Ok in Ha0 as ->. split; by eexists.
  - intros [[attrs ->] [name ->]]. simpl. by eexists.
Qed.

Lemma instance_entries_returns_iff entry state_data :
  (forall resource_type resource instance,
     (exists e, entry resource_type resource instance = Ok e) <->
     (exists attrs, subscript instance "attributes" = Ok (JObj attrs)) /\
     (exists name, subscript resource "name" = Ok name)) ->
  (exists es, instance_entries entry state_data = Ok es) <->
  readable_state state_data.
Proof.
  intros Hentry. unfold readable_state, instance_entries, state_resources.
  split.
  - intros [es H]. inv_ok. split; [by exists a, a0|].
    rewrite Ha. simpl. rewrite Ha0. intros resource Hres.
    destruct (mapM_Ok_elem_l _ _ _ _ Ha1 Hres) as (es' & _ & Hr). inv_ok.
    split_and!; [by eexists|eexists _, _; by split|].
    unfold resource_instances. rewrite Ha3. simpl. rewrite Ha4.
    intros instance Hinst.
    destruct (mapM_Ok_elem_l _ _ _ _ Hr Hinst) as (e & _ & He).
    apply (proj1 (Hentry a2 resource instance)). by exists e.
  - intros [(rs & rs_list & Hrs & Hiter) Hall].
    rewrite Hrs in *. simpl in *. rewrite Hiter in *.
    cbn [mbind result_bind].
    edestruct (mapM_total (fun resource =>
        resource_type ← subscript resource "type";
        instances ← subscript resource "instances";
        instances ← py_iter instances;
        mapM (entry resource_type resource) instances) rs_list) as [ess ->].
    + intros resource Hres.
      destruct (Hall resource Hres)
        as ([rt Hrt] & (insts & insts_list & Hinsts & Hiter') & Hinstances).
      unfold resource_instances in Hinstances.
      rewrite Hrt, Hinsts in *. simpl in *. rewrite Hiter' in *.
      apply mapM_total. intros instance Hinst.
      apply (proj2 (Hentry rt resource instance)). by apply Hinstances.
    + by eexists.
Qed.

(** Each reader returns a table exactly on the readable state
    documents; on every other document it raises.  The two scripts read
    the same documents. *)
Theorem readers_return_iff_readable (state_data : json) :
  ((exists resources, GCP.resources_of_state state_data = Ok resources) <->
   readable_state state_data) /\
  ((exists resources, OCI.resources_of_state state_data = Ok resources) <->
   readable_state state_data).
Proof.
  split.
  - rewrite GCP_reader_as_writes.
    rewrite <- (instance_entries_returns_iff GCP.instance_entry)
      by (intros rt r i; apply instance_entry_returns_iff).
    split.
    + intros [resources H]. inv_ok. by eexists.
    + intros [es ->]. by eexists.
  - rewrite OCI_reader_as_writes.
    rewrite <- (instance_entries_returns_iff OCI.instance_entry)
      by (intros rt r i; apply instance_entry_returns_iff).
    split.
    + intros [resources H]. inv_ok. by eexists.
    + intros [es ->]. by eexists.
Qed.

(** ** The subnetwork's own rule *)

(** The rule of lines 122-123: an instance whose ['subnetwork']
    attribute contains the subnetwork's name. *)
Lemma GCP_subnetwork_step resources subnet_id subnet instance_id instance c c' :
  GCP_step resources subnet_id subnet c = Ok c' ->
  GCP.has_type subnet "google_compute_subnetwork" = true ->
  (instance_id, instance) ∈ resources ->
  GCP.has_type instance "google_compute_instance" = true ->
  instance_id <> subnet_id ->
  py_in (res_name subnet) (GCP.attribute instance "subnetwork") = Ok true ->
  connected c' subnet_id instance_id.
Proof.
  unfold GCP_step. cbn zeta. intros H Htype Hin Hinst Hne Hhit.
  apply bind_Ok in H as (c1 & _ & H).
  unfold GCP.specific_connections in H.
  rewrite (GCP_has_type_other _ _ "google_compute_instance" Htype) in H by done.
  rewrite Htype in H. apply bind_Ok in H as (network & _ & H).
  eapply (for_each_establish (fun c => connected c subnet_id instance_id));
    [exact Hin| | |exact H].
  - intros t t'. cbn beta iota. rewrite bool_decide_eq_true_2 by done.
    rewrite Hinst, Hhit. intros Ht. apply bind_Ok in Ht as (t1 & _ & Ht).
    cbn [mbind result_bind] in Ht. unfold GCP.add_if in Ht.
    by eapply add_connection_connected.
  - intros [k r] t t' _ Hconn Ht. cbn beta iota in Ht.
    eapply extends_connected; [|exact Hconn]. solve_extends.
Qed.

(** On a completed run of the GCP script over a table with distinct
    keys, a subnetwork is connected to every instance whose
    ['subnetwork'] attribute contains the subnetwork's name: as a
    substring when the attribute is a string, so also when the name is
    only part of the last segment. *)
Theorem gcp_subnetwork_connects_instances (resources : dict tf_resource)
    (connections : dict (gset string)) subnet_id subnet instance_id instance :
  NoDup (dict_keys resources) ->
  GCP.infer_connections resources = Ok connections ->
  (subnet_id, subnet) ∈ resources ->
  (instance_id, instance) ∈ resources ->
  GCP.has_type subnet "google_compute_subnetwork" = true ->
  GCP.has_type instance "google_compute_instance" = true ->
  py_in (res_name subnet) (GCP.attribute instance "subnetwork") = Ok true ->
  connected connections subnet_id instance_id.
Proof.
  rewrite GCP_infer_connections_steps. intros Hnd Hrun Hs Hi Hts Hti Hhit.
  eapply GCP_steps_own; [exact Hnd|exact Hrun|exact Hs|].
  intros c1 c2 Hstep. eapply GCP_subnetwork_step; try done.
  intros ->. pose proof (NoDup_keys_same_value _ _ _ _ Hnd Hs Hi) as Heq.
  by apply (GCP_has_type_differ _ _ _ _ Hts Hti).
Qed.

Lemma gcp_subnetwork_connects_instances_witness :
  exists connections,
    GCP.infer_connections substring_table = Ok connections /\
    connected connections "google_compute_subnetwork.a" "google_compute_instance.web".
Proof.
  assert (exists c, GCP.infer_connections substring_table = Ok c)
    as [c Hc] by (vm_compute; by eexists).
  exists c. split; [exact Hc|].
  apply (gcp_subnetwork_connects_instances substring_table c
           "google_compute_subnetwork.a" (subnetwork_named "a")
           "google_compute_instance.web"
           (web_instance "projects/p/regions/r/subnetworks/ab")).
  - exact (proj1 (proj2 example_tables_NoDup)).
  - exact Hc.
  - right. left.
  - left.
  - reflexivity.
  - reflexivity.
  - reflexivity.
Defined.
